(** * Book-writing agent: the workflow state machine, its gates and its adapters

    A shallow embedding of the Python sources

      - [src/state.py]                  (BookState)
      - [src/graph.py]                  (load_initial_state, the three routers, build_graph)
      - [src/nodes/outline.py]          (generate_outline)
      - [src/nodes/chapters.py]         (generate_next_chapter)
      - [src/nodes/compile_book.py]     (compile_book)
      - [src/nodes/notifications.py]    (notify)
      - [src/notifications/email.py]    (send_email)
      - [src/notifications/teams.py]    (send_teams_message)
      - [src/sync_excel.py]             (excel_row_to_book_dict, sync_excel_to_supabase)
      - [src/sync_sheets.py]            (sheet_row_to_book_dict)
      - [worker.py]                     (find_pending_books, process_book, run_worker_once)

    Python [str] is a sequence of Unicode code points; dictionaries are
    finite maps; the datastore, the language model, object storage, the
    document libraries and SMTP are external collaborators whose answers
    are given by an environment of oracles, each of which may raise. *)

From Stdlib Require Import ZArith NArith String Ascii DecimalString Sorted.
From stdpp Require Import gmap list.

Local Open Scope Z_scope.

(* ===================================================================== *)
(** ** Python strings *)
(* ===================================================================== *)

Module PyStr.

(** A Python [str]: its code points, in order. *)
Definition str := list N.

(** A literal of the source (all of them are ASCII). *)
Definition lit (s : string) : str :=
  map N_of_ascii (list_ascii_of_string s).
Arguments lit s%_string.

(** [str(n)] for an [int]. *)
Definition str_of_Z (z : Z) : str :=
  map N_of_ascii (list_ascii_of_string (NilEmpty.string_of_int (Z.to_int z))).

(** [c.isspace()]: the code points CPython treats as whitespace. *)
Definition isspace (c : N) : bool :=
  ((9 <=? c) && (c <=? 13) || (28 <=? c) && (c <=? 32)
   || (c =? 133) || (c =? 160) || (c =? 5760)
   || (8192 <=? c) && (c <=? 8202)
   || (c =? 8232) || (c =? 8233) || (c =? 8239) || (c =? 8287)
   || (c =? 12288))%N.

(** Dropping from the left every character that satisfies [p]. *)
Fixpoint lstrip_by (p : N -> bool) (s : str) : str :=
  match s with
  | [] => []
  | c :: r => if p c then lstrip_by p r else s
  end.

Definition rstrip_by (p : N -> bool) (s : str) : str :=
  rev (lstrip_by p (rev s)).

Definition strip_by (p : N -> bool) (s : str) : str :=
  rstrip_by p (lstrip_by p s).

(** [s.strip()] *)
Definition strip (s : str) : str := strip_by isspace s.
Definition lstrip (s : str) : str := lstrip_by isspace s.
Definition rstrip (s : str) : str := rstrip_by isspace s.

(** [s.strip(chars)] *)
Definition strip_chars (chars : str) (s : str) : str :=
  strip_by (fun c => bool_decide (c ∈ chars)) s.

(** [s.startswith(p)], returning what follows the prefix. *)
Fixpoint strip_prefix (p s : str) : option str :=
  match p with
  | [] => Some s
  | a :: p' =>
      match s with
      | [] => None
      | b :: s' => if decide (a = b) then strip_prefix p' s' else None
      end
  end.

Definition startswith (p s : str) : bool :=
  match strip_prefix p s with Some _ => true | None => false end.

(** [sep in s] *)
Fixpoint contains (sep s : str) : bool :=
  startswith sep s ||
  match s with
  | [] => false
  | _ :: r => contains sep r
  end.

(** The cut at the leftmost occurrence of [sep]. *)
Fixpoint split_first (sep s : str) : option (str * str) :=
  match strip_prefix sep s with
  | Some rest => Some ([], rest)
  | None =>
      match s with
      | [] => None
      | c :: r =>
          match split_first sep r with
          | Some (a, b) => Some (c :: a, b)
          | None => None
          end
      end
  end.

(** [s.split(sep, 1)]: one piece, or two pieces cut at the leftmost
    occurrence of [sep]. *)
Definition split1 (sep s : str) : list str :=
  match split_first sep s with
  | Some (a, b) => [a; b]
  | None => [s]
  end.

(** [s.split(sep)] for a non-empty [sep]: the pieces between the
    occurrences of [sep], found left to right without overlap.  [skip]
    counts the characters of a matched separator still to be passed. *)
Fixpoint split_go (sep : str) (skip : nat) (cur : str) (s : str) : list str :=
  match s with
  | [] => [rev cur]
  | c :: r =>
      match skip with
      | S k => split_go sep k cur r
      | O =>
          if startswith sep s
          then rev cur :: split_go sep (pred (length sep)) [] r
          else split_go sep O (c :: cur) r
      end
  end.

Definition split (sep s : str) : list str := split_go sep O [] s.

(** [s.replace(old, new)] for a non-empty [old]. *)
Fixpoint replace_go (old new : str) (skip : nat) (s : str) : str :=
  match s with
  | [] => []
  | c :: r =>
      match skip with
      | S k => replace_go old new k r
      | O =>
          if startswith old s
          then new ++ replace_go old new (pred (length old)) r
          else c :: replace_go old new O r
      end
  end.

Definition replace (old new s : str) : str := replace_go old new O s.

(** [sep.join(parts)] *)
Fixpoint join (sep : str) (parts : list str) : str :=
  match parts with
  | [] => []
  | [p] => p
  | p :: rest => p ++ sep ++ join sep rest
  end.

(** The line boundaries of [str.splitlines]. *)
Definition is_linebreak (c : N) : bool :=
  ((10 <=? c) && (c <=? 13) || (28 <=? c) && (c <=? 30)
   || (c =? 133) || (c =? 8232) || (c =? 8233))%N.

(** [s.splitlines()]: a carriage return followed by a line feed is one
    boundary, and a final boundary opens no further line. *)
Fixpoint splitlines_go (cur : str) (s : str) : list str :=
  match s with
  | [] => match cur with [] => [] | _ => [rev cur] end
  | c :: r =>
      if (c =? 13)%N then
        match r with
        | d :: r' =>
            if (d =? 10)%N then rev cur :: splitlines_go [] r'
            else rev cur :: splitlines_go [] r
        | [] => [rev cur]
        end
      else if is_linebreak c then rev cur :: splitlines_go [] r
      else splitlines_go (c :: cur) r
  end.

Definition splitlines (s : str) : list str := splitlines_go [] s.

(** Truthiness of an [Optional[str]]: [None] and [""] are falsy. *)
Definition truthy (o : option str) : bool :=
  match o with
  | Some (_ :: _) => true
  | _ => false
  end.

(** [o or ""] *)
Definition or_empty (o : option str) : str :=
  match o with
  | Some s => s
  | None => []
  end.

(** How an f-string renders an [Optional[str]]. *)
Definition fmt_opt (o : option str) : str :=
  match o with
  | Some s => s
  | None => lit "None"
  end.

End PyStr.

Import PyStr.

(* ===================================================================== *)
(** ** Values, rows and documents *)
(* ===================================================================== *)

(** A JSON value of a datastore payload (a Python dict literal). *)
#[warnings="-register-all"] Inductive Json :=
| JNull
| JStr (s : str)
| JInt (z : Z)
| JObj (fields : list (str * Json)).

#[export] Instance Json_eq_dec : EqDecision Json.
Proof.
  refine (fix go (a b : Json) {struct a} : Decision (a = b) :=
    match a, b with
    | JNull, JNull => left eq_refl
    | JStr s, JStr t => cast_if (decide (s = t))
    | JInt x, JInt y => cast_if (decide (x = y))
    | JObj f, JObj g =>
        cast_if
          ((fix go_fields (f g : list (str * Json)) {struct f} : Decision (f = g) :=
              match f, g with
              | [], [] => left eq_refl
              | (k, v) :: f', (k', v') :: g' =>
                  cast_if_and3 (decide (k = k')) (go v v') (go_fields f' g')
              | _, _ => right _
              end) f g)
    | _, _ => right _
    end); clear go; try clear go_fields; congruence.
Defined.

(** The exceptions of the model are all subclasses of [Exception];
    interrupts of the process are outside it. *)
Inductive ExcClass :=
| KeyError
| ValueError
| ValidationError
| SMTPAuthenticationError
| OtherException.

Record PyExc := { exc_class : ExcClass; exc_msg : str }.

(** [src/state.py]: ChapterSummary *)
Record ChapterSummary := {
  chapter_number : Z;
  summary : str
}.

(** A row of table [books], as the three selects of the workflow read it.
    Every column is nullable text. *)
Record BookRow := {
  row_id : option str;
  row_title : option str;
  row_notes_on_outline_before : option str;
  row_outline : option str;
  row_notes_on_outline_after : option str;
  row_status_outline_notes : option str;
  row_chapter_notes_status : option str;
  row_final_review_notes_status : option str;
  row_final_review_notes : option str;
  row_book_output_status : option str
}.

(** A row of [chapter_summaries] ([chapter_number, summary]). *)
Record SummaryRow := {
  srow_chapter_number : Z;
  srow_summary : option str
}.

(** A row of [chapters] as the chapter stage reads it
    ([editor_notes, chapter_notes_status]). *)
Record GateRow := {
  grow_editor_notes : option str;
  grow_chapter_notes_status : option str
}.

(** A row of [chapters] as the compile stage reads it ([title, content]). *)
Record ChapterRow := {
  crow_chapter_number : Z;
  crow_title : str;
  crow_content : option str
}.

(** The arguments of the two prompts ([chain.invoke({...})]). *)
Inductive LlmCall :=
| OutlinePrompt (title : str) (notes_on_outline_before : option str)
    (notes_on_outline_after : str) (chapter_count : Z)
| ChapterPrompt (title : str) (outline : option str) (chapter_number : Z)
    (previous_summaries : str) (chapter_notes : str).

(** python-docx: the blocks added to the document. *)
Inductive DocxBlock :=
| DocxHeading (text : str) (level : Z)
| DocxParagraph (text : str).

(** reportlab: the flowables of the story; a spacer's height is in tenths
    of an inch. *)
Inductive PdfStyle := StyleTitle | StyleHeading1 | StyleNormal.

Inductive Flowable :=
| Paragraph (text : str) (style : PdfStyle)
| Spacer (width : Z) (tenths_of_inch : Z).

(** What is uploaded: the bytes of one of the three artifacts. *)
Inductive Blob :=
| TxtBytes (text : str)
| DocxBytes (doc : list DocxBlock)
| PdfBytes (story : list Flowable).

(** [email.message.EmailMessage] with its three headers and its content. *)
Record EmailMessage := {
  msg_subject : str;
  msg_from : str;
  msg_to : str;
  msg_content : str
}.

Inductive LogLevel := LDebug | LInfo | LWarning | LError.

(** A write to the datastore. *)
Inductive DbWrite :=
| UpdateBook (book_id : str) (payload : gmap str Json)
| InsertBook (payload : gmap str Json)
| UpsertChapter (payload : gmap str Json)
| UpsertChapterSummary (payload : gmap str Json)
| InsertNotification (payload : gmap str Json).

(** Everything a run does to the outside world, in the order it does it. *)
Inductive Effect :=
| ESelectBook (columns : str) (book_id : str)
| ESelectChapterSummaries (book_id : str) (below : Z)
| ESelectChapterGate (book_id : str) (chapter : Z)
| ESelectChapters (book_id : str)
| ESelectExisting (title : str) (sheet_row_id : Z)
| EWrite (w : DbWrite)
| ELlm (call : LlmCall)
| EUpload (name : str) (content : Blob)
| EPublicUrl (name : str)
| EDocxSave (doc : list DocxBlock)
| EPdfParagraph (text : str) (style : PdfStyle)
| EPdfBuild (story : list Flowable)
| EEmailMessage (m : EmailMessage)
| ESmtpConnect (host : str) (port : Z)
| ESmtpStartTls
| ESmtpLogin (user password : str)
| ESmtpSendMessage (m : EmailMessage)
| ESmtpQuit
| ETeamsPost (url text : str)
| ELog (level : LogLevel) (message : str).

(** The effects so far, the latest first. *)
Definition History := list Effect.

Inductive Res (A : Type) :=
| Ok (a : A)
| Raise (e : PyExc).
Arguments Ok {A} a.
Arguments Raise {A} e.

(** The SMTP settings read from the process environment when the module
    is imported. *)
Record SmtpConfig := {
  SMTP_HOST : option str;
  SMTP_PORT : Z;
  SMTP_USER : option str;
  SMTP_PASS : option str;
  NOTIFY_TO : option str
}.

(** The world outside the program.  Each oracle answers a request given
    the history of effects before it, so an answer may change during a
    run (an editor changes a flag) and any call may raise. *)
Record Env := {
  supabase_configured : bool;
  llm_configured : bool;
  target_chapter_count : Z;
  smtp_config : SmtpConfig;
  TEAMS_WEBHOOK_URL : option str;
  select_book : History -> str -> str -> Res BookRow;
  select_chapter_summaries : History -> str -> Z -> Res (list SummaryRow);
  select_chapter_gate : History -> str -> Z -> Res (option GateRow);
  select_chapters : History -> str -> Res (list ChapterRow);
  select_existing : History -> str -> Z -> Res (option str);
  execute_write : History -> DbWrite -> Res (option str);
  llm_invoke : History -> LlmCall -> Res str;
  storage_upload : History -> str -> Blob -> Res unit;
  storage_public_url : History -> str -> Res str;
  docx_save : History -> list DocxBlock -> Res unit;
  pdf_paragraph : History -> str -> PdfStyle -> Res unit;
  pdf_build : History -> list Flowable -> Res unit;
  email_message : History -> EmailMessage -> Res unit;
  smtp_connect : History -> str -> Z -> Res unit;
  smtp_starttls : History -> Res unit;
  smtp_login : History -> str -> str -> Res unit;
  smtp_send_message : History -> EmailMessage -> Res unit;
  smtp_quit : History -> Res unit;
  teams_post : History -> str -> str -> Res unit
}.

(* ===================================================================== *)
(** ** The monad of a stage: effects on the history, and exceptions *)
(* ===================================================================== *)

Definition M (A : Type) : Type := History -> Res A * History.

Definition ret {A} (a : A) : M A := fun h => (Ok a, h).

Definition bind {A B} (m : M A) (k : A -> M B) : M B :=
  fun h =>
    match m h with
    | (Ok a, h') => k a h'
    | (Raise e, h') => (Raise e, h')
    end.

Definition raise {A} (e : PyExc) : M A := fun h => (Raise e, h).

(** [try: m except Exception as e: handler(e)] *)
Definition try_except {A} (m : M A) (handler : PyExc -> M A) : M A :=
  fun h =>
    match m h with
    | (Ok a, h') => (Ok a, h')
    | (Raise e, h') => handler e h'
    end.

(** An external call: the request enters the history and the oracle,
    asked with the history before the call, gives the answer. *)
Definition call {A} (request : Effect) (answer : History -> Res A) : M A :=
  fun h => (answer h, request :: h).

(** A computation without effects that may raise. *)
Definition lift {A} (r : Res A) : M A := fun h => (r, h).

(** [logger.<level>(message)] *)
Definition log (level : LogLevel) (message : str) : M unit :=
  fun h => (Ok tt, ELog level message :: h).

Notation "x <- m ;; k" := (bind m (fun x => k))
  (at level 100, m at next level, right associativity).
Notation "m ;;; k" := (bind m (fun _ => k))
  (at level 100, right associativity).

(** Running a list of actions in order. *)
Fixpoint for_each {A} (f : A -> M unit) (l : list A) : M unit :=
  match l with
  | [] => ret tt
  | x :: r => f x ;;; for_each f r
  end.

(* ===================================================================== *)
(** ** [src/state.py]: BookState *)
(* ===================================================================== *)

(** [notes_on_outline_before] is declared [str]; it is an option here so
    that the outline stage is also defined on a state whose notes are
    absent.  [control] is the dict that carries the event tag. *)
Record BookState := {
  book_id : str;
  title : str;
  notes_on_outline_before : option str;
  outline : option str;
  notes_on_outline_after : option str;
  status_outline_notes : option str;
  current_chapter_number : Z;
  total_chapters : Z;
  chapter_notes_status : option str;
  chapter_notes : option str;
  chapter_summaries : list ChapterSummary;
  final_review_notes_status : option str;
  final_review_notes : option str;
  book_output_status : option str;
  control : gmap str str
}.

Definition with_control (c : gmap str str) (st : BookState) : BookState :=
  {| book_id := book_id st; title := title st;
     notes_on_outline_before := notes_on_outline_before st;
     outline := outline st;
     notes_on_outline_after := notes_on_outline_after st;
     status_outline_notes := status_outline_notes st;
     current_chapter_number := current_chapter_number st;
     total_chapters := total_chapters st;
     chapter_notes_status := chapter_notes_status st;
     chapter_notes := chapter_notes st;
     chapter_summaries := chapter_summaries st;
     final_review_notes_status := final_review_notes_status st;
     final_review_notes := final_review_notes st;
     book_output_status := book_output_status st;
     control := c |}.

Definition with_outline (o : option str) (total : Z) (st : BookState) : BookState :=
  {| book_id := book_id st; title := title st;
     notes_on_outline_before := notes_on_outline_before st;
     outline := o;
     notes_on_outline_after := notes_on_outline_after st;
     status_outline_notes := status_outline_notes st;
     current_chapter_number := current_chapter_number st;
     total_chapters := total;
     chapter_notes_status := chapter_notes_status st;
     chapter_notes := chapter_notes st;
     chapter_summaries := chapter_summaries st;
     final_review_notes_status := final_review_notes_status st;
     final_review_notes := final_review_notes st;
     book_output_status := book_output_status st;
     control := control st |}.

Definition with_status_outline_notes (s : option str) (st : BookState) : BookState :=
  {| book_id := book_id st; title := title st;
     notes_on_outline_before := notes_on_outline_before st;
     outline := outline st;
     notes_on_outline_after := notes_on_outline_after st;
     status_outline_notes := s;
     current_chapter_number := current_chapter_number st;
     total_chapters := total_chapters st;
     chapter_notes_status := chapter_notes_status st;
     chapter_notes := chapter_notes st;
     chapter_summaries := chapter_summaries st;
     final_review_notes_status := final_review_notes_status st;
     final_review_notes := final_review_notes st;
     book_output_status := book_output_status st;
     control := control st |}.

Definition with_chapters (n : Z) (css : list ChapterSummary) (st : BookState) : BookState :=
  {| book_id := book_id st; title := title st;
     notes_on_outline_before := notes_on_outline_before st;
     outline := outline st;
     notes_on_outline_after := notes_on_outline_after st;
     status_outline_notes := status_outline_notes st;
     current_chapter_number := n;
     total_chapters := total_chapters st;
     chapter_notes_status := chapter_notes_status st;
     chapter_notes := chapter_notes st;
     chapter_summaries := css;
     final_review_notes_status := final_review_notes_status st;
     final_review_notes := final_review_notes st;
     book_output_status := book_output_status st;
     control := control st |}.

Definition with_book_output_status (s : option str) (st : BookState) : BookState :=
  {| book_id := book_id st; title := title st;
     notes_on_outline_before := notes_on_outline_before st;
     outline := outline st;
     notes_on_outline_after := notes_on_outline_after st;
     status_outline_notes := status_outline_notes st;
     current_chapter_number := current_chapter_number st;
     total_chapters := total_chapters st;
     chapter_notes_status := chapter_notes_status st;
     chapter_notes := chapter_notes st;
     chapter_summaries := chapter_summaries st;
     final_review_notes_status := final_review_notes_status st;
     final_review_notes := final_review_notes st;
     book_output_status := s;
     control := control st |}.

(** [state.control.get("event")] *)
Definition event (st : BookState) : option str := control st !! lit "event".

(** [state.control[key] = value] *)
Definition set_control (key value : str) (st : BookState) : BookState :=
  with_control (<[key := value]> (control st)) st.

(** [state.control["event"] = tag] *)
Definition set_event (tag : str) (st : BookState) : BookState :=
  set_control (lit "event") tag st.

(** The line feed of the f-strings. *)
Definition nl : str := [10%N].

(* ===================================================================== *)
(** ** The stages *)
(* ===================================================================== *)

Section Workflow.

Variable env : Env.

(** [src/deps.py]: get_supabase.  The client is built from the process
    environment, and a missing variable raises [KeyError]. *)
Definition get_supabase : M unit :=
  if supabase_configured env then ret tt
  else raise {| exc_class := KeyError; exc_msg := lit "SUPABASE_URL" |}.

(** [src/deps.py]: get_llm *)
Definition get_llm : M unit :=
  if llm_configured env then ret tt
  else raise {| exc_class := OtherException; exc_msg := lit "OPENAI_API_KEY" |}.

(** [src/deps.py]: get_target_chapter_count, an [int] whatever the
    environment holds. *)
Definition get_target_chapter_count : Z := target_chapter_count env.

Definition db_select_book (columns id : str) : M BookRow :=
  call (ESelectBook columns id) (fun h => select_book env h columns id).

Definition db_write (w : DbWrite) : M (option str) :=
  call (EWrite w) (fun h => execute_write env h w).

Definition llm (c : LlmCall) : M str :=
  call (ELlm c) (fun h => llm_invoke env h c).

Definition initial_columns : str :=
  lit "id, title, notes_on_outline_before, outline, notes_on_outline_after, status_outline_notes, chapter_notes_status, final_review_notes_status, final_review_notes, book_output_status".

(** [src/graph.py]: load_initial_state.  The select names no
    [total_chapters] column, so [book.get("total_chapters") or 0] is 0;
    [current_chapter_number], [chapter_notes], [chapter_summaries] and
    [control] take the defaults of the class.  Building the state
    validates the three [str] fields. *)
Definition load_initial_state (id : str) : M BookState :=
  get_supabase ;;;
  book <- db_select_book initial_columns id ;;
  let total_chapters := 0 in
  match row_id book, row_title book, row_notes_on_outline_before book with
  | Some i, Some t, Some nb =>
      ret {| book_id := i; title := t;
             notes_on_outline_before := Some nb;
             outline := row_outline book;
             notes_on_outline_after := row_notes_on_outline_after book;
             status_outline_notes := row_status_outline_notes book;
             current_chapter_number := 1;
             total_chapters := total_chapters;
             chapter_notes_status := row_chapter_notes_status book;
             chapter_notes := None;
             chapter_summaries := [];
             final_review_notes_status := row_final_review_notes_status book;
             final_review_notes := row_final_review_notes book;
             book_output_status := row_book_output_status book;
             control := ∅ |}
  | _, _, _ =>
      raise {| exc_class := ValidationError; exc_msg := lit "BookState" |}
  end.

(** The update the outline stage writes. *)
Definition outline_payload (outline_text : str) (chapter_count : Z) : gmap str Json :=
  <[lit "outline" := JStr outline_text]>
  (<[lit "outline_status" := JStr (lit "generated")]>
   (<[lit "total_chapters" := JInt chapter_count]> ∅)).

(** [src/nodes/outline.py]: generate_outline *)
Definition generate_outline (state : BookState) : M BookState :=
  get_supabase ;;;
  if negb (truthy (notes_on_outline_before state)) then
    log LWarning (lit "Missing notes_on_outline_before - cannot generate outline") ;;;
    ret (set_event (lit "missing_notes_on_outline_before") state)
  else
    log LInfo (lit "Generating outline...") ;;;
    let chapter_count := get_target_chapter_count in
    get_llm ;;;
    content <- llm (OutlinePrompt (title state) (notes_on_outline_before state)
                      (or_empty (notes_on_outline_after state)) chapter_count) ;;
    let outline_text := strip content in
    db_write (UpdateBook (book_id state) (outline_payload outline_text chapter_count)) ;;;
    let state := with_outline (Some outline_text) chapter_count state in
    log LInfo (lit "Outline generated. Using chapter_count=" ++ str_of_Z chapter_count) ;;;
    ret (set_event (lit "outline_generated") state).

(** [src/graph.py]: _router_after_outline.  It returns the name of the
    next node and, as the source does, changes the state it was given. *)
Definition _router_after_outline (state : BookState) : M (BookState * str) :=
  if bool_decide (event state = Some (lit "missing_notes_on_outline_before")) then
    ret (set_control (lit "route_reason") (lit "outline_missing_notes_before") state,
         lit "notify")
  else if negb (bool_decide (event state = Some (lit "outline_generated"))) then
    ret (state, lit "notify")
  else
    get_supabase ;;;
    book <- db_select_book (lit "status_outline_notes") (book_id state) ;;
    let status := row_status_outline_notes book in
    let state := with_status_outline_notes status state in
    if bool_decide (status = Some (lit "yes")) then
      log LInfo (lit "Outline approved, waiting for notes") ;;;
      ret (set_event (lit "outline_waiting_for_notes") state, lit "notify")
    else if bool_decide (status = Some (lit "no_notes_needed")) then
      log LInfo (lit "Outline approved, proceeding to chapter generation") ;;;
      ret (state, lit "generate_next_chapter")
    else
      log LWarning (lit "Outline paused - status: " ++ fmt_opt status) ;;;
      ret (set_event (lit "outline_paused_missing_status") state, lit "notify").

(** [src/graph.py]: _router_after_chapter *)
Definition _router_after_chapter (state : BookState) : str :=
  let event := event state in
  if bool_decide (event = Some (lit "waiting_for_chapter_notes"))
     || bool_decide (event = Some (lit "paused_for_chapter_notes_status"))
  then lit "notify"
  else if bool_decide (event = Some (lit "chapter_generated")) then
    if current_chapter_number state <=? total_chapters state
    then lit "generate_next_chapter"
    else lit "compile_book"
  else if bool_decide (event = Some (lit "all_chapters_done")) then lit "compile_book"
  else lit "notify".

(** LangGraph's [END]. *)
Definition END : str := lit "__end__".

(** [src/graph.py]: _router_after_compile *)
Definition _router_after_compile (state : BookState) : str :=
  if bool_decide (event state = Some (lit "book_compiled")) then lit "notify"
  else if bool_decide (event state = Some (lit "final_review_not_ready")) then lit "notify"
  else END.

(** [src/nodes/chapters.py]: _build_previous_summaries_text *)
Definition _build_previous_summaries_text (state : BookState) : str :=
  match chapter_summaries state with
  | [] => lit "No previous chapters (this is the first chapter)."
  | css =>
      join (nl ++ nl)
        (map (fun cs => lit "Chapter " ++ str_of_Z (chapter_number cs)
                        ++ lit " summary:" ++ nl ++ summary cs) css)
  end.

(** [ChapterSummary(chapter_number=..., summary=row["summary"])] for each
    row: a row without a summary fails validation. *)
Fixpoint summaries_of_rows (rows : list SummaryRow) : M (list ChapterSummary) :=
  match rows with
  | [] => ret []
  | r :: rest =>
      match srow_summary r with
      | Some s =>
          css <- summaries_of_rows rest ;;
          ret ({| chapter_number := srow_chapter_number r; summary := s |} :: css)
      | None =>
          raise {| exc_class := ValidationError; exc_msg := lit "ChapterSummary" |}
      end
  end.

(** The marker the prompt asks the model to end a chapter with, and the
    summary stored when it is missing. *)
Definition summary_marker : str := lit "Summary:".
Definition summary_placeholder : str := lit "Summary section not found.".

(** [src/nodes/chapters.py], lines 130 to 135 of generate_next_chapter:
    from [result.content] to the stored pair (chapter body, summary). *)
Definition split_chapter_text (content : str) : Res (str * str) :=
  let full_text := strip content in
  let summary := summary_placeholder in
  if contains summary_marker full_text then
    match split1 summary_marker full_text with
    | [content_part; summary_part] => Ok (strip content_part, strip summary_part)
    | _ => Raise {| exc_class := ValueError; exc_msg := lit "unpack" |}
    end
  else Ok (full_text, summary).

(** The two records the chapter stage upserts. *)
Definition chapter_payload (id : str) (n : Z) (full_text : str) : gmap str Json :=
  <[lit "book_id" := JStr id]>
  (<[lit "chapter_number" := JInt n]>
   (<[lit "title" := JStr (lit "Chapter " ++ str_of_Z n)]>
    (<[lit "content" := JStr full_text]>
     (<[lit "status" := JStr (lit "generated")]> ∅)))).

Definition summary_payload (id : str) (n : Z) (summary : str) : gmap str Json :=
  <[lit "book_id" := JStr id]>
  (<[lit "chapter_number" := JInt n]>
   (<[lit "summary" := JStr summary]> ∅)).

(** Lines 69 to 87 of generate_next_chapter: when the state holds no
    summaries and the chapter is not the first, the summaries of the
    chapters before it are read from the datastore; a failure of the
    read leaves the state as it was. *)
Definition backfill_summaries (state : BookState) : M BookState :=
  let n := current_chapter_number state in
  if bool_decide (chapter_summaries state = []) && (1 <? n) then
    try_except
      (rows <- call (ESelectChapterSummaries (book_id state) n)
                 (fun h => select_chapter_summaries env h (book_id state) n) ;;
       match rows with
       | [] => ret state
       | _ =>
           css <- summaries_of_rows rows ;;
           ret (with_chapters (current_chapter_number state) css state)
       end)
      (fun _ => ret state)
  else ret state.

(** Lines 89 to 106: the chapter's row with its flag and its notes; the
    row may not exist yet, and a failure of the read counts as no row. *)
Definition chapter_gate_row (state : BookState) : M (option GateRow) :=
  let n := current_chapter_number state in
  try_except
    (call (ESelectChapterGate (book_id state) n)
       (fun h => select_chapter_gate env h (book_id state) n))
    (fun _ => ret None).

(** Lines 120 to 164: the chapter is written, split, stored, and the
    state moves to the next chapter. *)
Definition write_chapter (state : BookState) (editor_notes : option str) : M BookState :=
  let n := current_chapter_number state in
  get_llm ;;;
  let previous_summaries := _build_previous_summaries_text state in
  (if 1 <? n then
     log LInfo (lit "Using context from "
                ++ str_of_Z (Z.of_nat (length (chapter_summaries state)))
                ++ lit " previous chapters")
   else ret tt) ;;;
  log LInfo (lit "Calling LLM for Chapter " ++ str_of_Z n ++ lit "...") ;;;
  content <- llm (ChapterPrompt (title state) (outline state) n
                    previous_summaries (or_empty editor_notes)) ;;
  parts <- lift (split_chapter_text content) ;;
  let full_text := fst parts in
  let summary := snd parts in
  db_write (UpsertChapter (chapter_payload (book_id state) n full_text)) ;;;
  db_write (UpsertChapterSummary (summary_payload (book_id state) n summary)) ;;;
  let state :=
    with_chapters (current_chapter_number state + 1)
      (chapter_summaries state ++ [{| chapter_number := n; summary := summary |}])
      state in
  log LInfo (lit "Chapter " ++ str_of_Z n ++ lit " generated and saved ("
             ++ str_of_Z (Z.of_nat (length full_text)) ++ lit " chars)") ;;;
  ret (set_event (lit "chapter_generated") state).

(** [src/nodes/chapters.py]: generate_next_chapter *)
Definition generate_next_chapter (state : BookState) : M BookState :=
  get_supabase ;;;
  let n := current_chapter_number state in
  if total_chapters state <? n then
    log LInfo (lit "All " ++ str_of_Z (total_chapters state) ++ lit " chapters completed") ;;;
    ret (set_event (lit "all_chapters_done") state)
  else
    log LInfo (lit "Generating Chapter " ++ str_of_Z n ++ lit "/"
               ++ str_of_Z (total_chapters state) ++ lit "...") ;;;
    state <- backfill_summaries state ;;
    row <- chapter_gate_row state ;;
    let chapter_notes_status := row ≫= grow_chapter_notes_status in
    let editor_notes := row ≫= grow_editor_notes in
    if bool_decide (chapter_notes_status = Some (lit "yes")) then
      log LInfo (lit "Chapter " ++ str_of_Z n ++ lit " waiting for editor notes") ;;;
      ret (set_event (lit "waiting_for_chapter_notes") state)
    else if negb (bool_decide (chapter_notes_status = None)
                  || bool_decide (chapter_notes_status = Some (lit "no_notes_needed"))) then
      log LWarning (lit "Chapter " ++ str_of_Z n ++ lit " paused - status: "
                    ++ fmt_opt chapter_notes_status) ;;;
      ret (set_event (lit "paused_for_chapter_notes_status") state)
    else write_chapter state editor_notes.

(** [content.split("\n\n")] keeping the stripped paragraphs that are not
    blank: the paragraphs of a chapter in the DOCX and in the PDF. *)
Definition paragraphs (content : str) : list str :=
  map strip (filter (fun para => strip para ≠ []) (split (nl ++ nl) content)).

(** [book_row.get("title") or state.title] *)
Definition book_title (book_row : BookRow) (state : BookState) : str :=
  if truthy (row_title book_row) then or_empty (row_title book_row) else title state.

(** The plain-text document. *)
Definition txt_content (book_row : BookRow) (state : BookState)
    (chapters : list ChapterRow) : str :=
  (book_title book_row state ++ nl ++ nl) ++
  join (nl ++ nl)
    (map (fun c => crow_title c ++ nl ++ nl ++ or_empty (crow_content c)) chapters).

(** The blocks of the DOCX. *)
Definition docx_blocks (book_row : BookRow) (state : BookState)
    (chapters : list ChapterRow) : list DocxBlock :=
  DocxHeading (book_title book_row state) 0 ::
  concat (map (fun c =>
                 DocxHeading (crow_title c) 1 ::
                 map DocxParagraph (paragraphs (or_empty (crow_content c))))
            chapters).

(** The story of the PDF, in the order the flowables are constructed. *)
Definition pdf_story (book_row : BookRow) (state : BookState)
    (chapters : list ChapterRow) : list Flowable :=
  Paragraph (book_title book_row state) StyleTitle :: Spacer 1 5 ::
  concat (map (fun c =>
                 Paragraph (crow_title c) StyleHeading1 ::
                 concat (map (fun para =>
                                [Paragraph (replace nl (lit "<br/>") para) StyleNormal;
                                 Spacer 1 2])
                           (paragraphs (or_empty (crow_content c)))))
            chapters).

(** Constructing one flowable: reportlab parses a paragraph's markup when
    the [Paragraph] object is created. *)
Definition make_flowable (f : Flowable) : M unit :=
  match f with
  | Paragraph text style =>
      call (EPdfParagraph text style) (fun h => pdf_paragraph env h text style)
  | Spacer _ _ => ret tt
  end.

Definition storage_upload_ (name : str) (content : Blob) : M unit :=
  call (EUpload name content) (fun h => storage_upload env h name content).

Definition storage_get_public_url (name : str) : M str :=
  call (EPublicUrl name) (fun h => storage_public_url env h name).

(** The columns compile_book reads again from the datastore. *)
Definition final_review_columns : str :=
  lit "final_review_notes_status, final_review_notes, title".

(** The final-review precondition of compile_book (lines 33 to 38). *)
Definition final_review_ready (fr_status : option str) (fr_notes : str) : bool :=
  bool_decide (fr_status = Some (lit "no_notes_needed"))
  || (bool_decide (fr_notes ≠ []) && bool_decide (strip fr_notes ≠ [])).

(** The update that marks the book ready. *)
Definition ready_payload (docx_url : str) : gmap str Json :=
  <[lit "book_output_status" := JStr (lit "ready")]>
  (<[lit "output_file_url" := JStr docx_url]> ∅).

(** Lines 114 to 126 of compile_book, the try block: the PDF is built
    and uploaded, and an exception of either is logged. *)
Definition pdf_build_and_upload (state : BookState) (story : list Flowable) : M unit :=
  try_except
    (call (EPdfBuild story) (fun h => pdf_build env h story) ;;;
     let pdf_filename := book_id state ++ lit ".pdf" in
     log LInfo (lit "Uploading " ++ pdf_filename ++ lit " to Supabase Storage...") ;;;
     storage_upload_ pdf_filename (PdfBytes story) ;;;
     pdf_url <- storage_get_public_url pdf_filename ;;
     log LInfo (lit "PDF upload complete: " ++ pdf_url))
    (fun e =>
       log LWarning (lit "PDF generation failed: " ++ exc_msg e
                     ++ lit " - continuing without PDF")).

(** [src/nodes/compile_book.py]: compile_book *)
Definition compile_book (state : BookState) : M BookState :=
  get_supabase ;;;
  book_row <- db_select_book final_review_columns (book_id state) ;;
  let fr_status := row_final_review_notes_status book_row in
  let fr_notes := or_empty (row_final_review_notes book_row) in
  if negb (final_review_ready fr_status fr_notes) then
    log LWarning (lit "Final review not ready - missing notes or status") ;;;
    ret (set_event (lit "final_review_not_ready") state)
  else
    log LInfo (lit "Compiling final book...") ;;;
    chapters <- call (ESelectChapters (book_id state))
                  (fun h => select_chapters env h (book_id state)) ;;
    log LInfo (lit "Found " ++ str_of_Z (Z.of_nat (length chapters))
               ++ lit " chapters to compile") ;;;
    (* TXT *)
    let txt_filename := book_id state ++ lit ".txt" in
    log LInfo (lit "Uploading " ++ txt_filename ++ lit " to Supabase Storage...") ;;;
    storage_upload_ txt_filename (TxtBytes (txt_content book_row state chapters)) ;;;
    txt_url <- storage_get_public_url txt_filename ;;
    log LInfo (lit "TXT upload complete: " ++ txt_url) ;;;
    (* DOCX *)
    let doc := docx_blocks book_row state chapters in
    call (EDocxSave doc) (fun h => docx_save env h doc) ;;;
    let docx_filename := book_id state ++ lit ".docx" in
    log LInfo (lit "Uploading " ++ docx_filename ++ lit " to Supabase Storage...") ;;;
    storage_upload_ docx_filename (DocxBytes doc) ;;;
    docx_url <- storage_get_public_url docx_filename ;;
    log LInfo (lit "DOCX upload complete: " ++ docx_url) ;;;
    (* PDF: the story is assembled before the try block *)
    let story := pdf_story book_row state chapters in
    for_each make_flowable story ;;;
    pdf_build_and_upload state story ;;;
    db_write (UpdateBook (book_id state) (ready_payload docx_url)) ;;;
    let state := with_book_output_status (Some (lit "ready")) state in
    let state := set_event (lit "book_compiled") state in
    log LInfo (lit "Book compilation complete!") ;;;
    ret state.

(** The [with smtplib.SMTP(...) as smtp:] block: the connection is
    opened, the body runs, and leaving the block sends QUIT whether the
    body raised or not; an exception of QUIT replaces the body's. *)
Definition with_smtp {A} (host : str) (port : Z) (body : M A) : M A :=
  call (ESmtpConnect host port) (fun h => smtp_connect env h host port) ;;;
  fun h =>
    match body h with
    | (Ok a, h') =>
        match smtp_quit env h' with
        | Ok _ => (Ok a, ESmtpQuit :: h')
        | Raise e => (Raise e, ESmtpQuit :: h')
        end
    | (Raise e, h') =>
        match smtp_quit env h' with
        | Ok _ => (Raise e, ESmtpQuit :: h')
        | Raise e' => (Raise e', ESmtpQuit :: h')
        end
    end.

(** [SMTP_HOST and SMTP_USER and SMTP_PASS and NOTIFY_TO] *)
Definition smtp_configured (cfg : SmtpConfig) : bool :=
  truthy (SMTP_HOST cfg) && truthy (SMTP_USER cfg)
  && truthy (SMTP_PASS cfg) && truthy (NOTIFY_TO cfg).

(** The message send_email assembles. *)
Definition email_of (cfg : SmtpConfig) (subject body : str) : EmailMessage :=
  {| msg_subject := subject; msg_from := or_empty (SMTP_USER cfg);
     msg_to := or_empty (NOTIFY_TO cfg); msg_content := body |}.

(** The double and the single quote stripped from the password. *)
Definition dquote : str := [34%N].
Definition squote : str := [39%N].

(** The password with blanks, then double quotes, then single quotes
    stripped from its two ends. *)
Definition password_clean (cfg : SmtpConfig) : str :=
  strip_chars squote (strip_chars dquote (strip (or_empty (SMTP_PASS cfg)))).

(** The debug line with the length of the password. *)
Definition email_config_line (cfg : SmtpConfig) : str :=
  lit "Email config: " ++ or_empty (SMTP_USER cfg) ++ lit " -> "
  ++ or_empty (NOTIFY_TO cfg) ++ lit " (password length: "
  ++ str_of_Z (Z.of_nat (length (password_clean cfg))) ++ lit ")".

(** The last error line of both handlers. *)
Definition diagnostics_hint : str :=
  lit "   Run 'python test_email.py' for detailed diagnostics".

(** [src/notifications/email.py]: send_email.  The message is assembled
    before the try block; [email_message] stands for the header and
    content checks of [EmailMessage]. *)
Definition send_email (subject body : str) : M unit :=
  let cfg := smtp_config env in
  if negb (smtp_configured cfg) then
    log LDebug (lit "Email not configured - skipping") ;;;
    ret tt
  else
    let host := or_empty (SMTP_HOST cfg) in
    let user := or_empty (SMTP_USER cfg) in
    let to := or_empty (NOTIFY_TO cfg) in
    let password_clean := password_clean cfg in
    log LDebug (email_config_line cfg) ;;;
    let msg := email_of cfg subject body in
    call (EEmailMessage msg) (fun h => email_message env h msg) ;;;
    try_except
      (with_smtp host (SMTP_PORT cfg)
         (call ESmtpStartTls (fun h => smtp_starttls env h) ;;;
          call (ESmtpLogin user password_clean)
            (fun h => smtp_login env h user password_clean) ;;;
          call (ESmtpSendMessage msg) (fun h => smtp_send_message env h msg) ;;;
          log LInfo ([10003%N] ++ lit " Email sent to " ++ to)))
      (fun e =>
         match exc_class e with
         | SMTPAuthenticationError =>
             log LError ([10007%N] ++ lit " Email authentication failed: " ++ exc_msg e) ;;;
             log LError (lit "   Check: Is your password an APP PASSWORD? (not regular password)") ;;;
             log LError (lit "   Password length: "
                         ++ str_of_Z (Z.of_nat (length password_clean))
                         ++ lit " chars (should be 16 for Gmail)") ;;;
             log LError diagnostics_hint
         | _ =>
             log LError ([10007%N] ++ lit " Failed to send email: " ++ exc_msg e) ;;;
             log LError diagnostics_hint
         end).

(** [src/notifications/teams.py]: send_teams_message *)
Definition send_teams_message (text : str) : M unit :=
  if negb (truthy (TEAMS_WEBHOOK_URL env)) then ret tt
  else
    let url := or_empty (TEAMS_WEBHOOK_URL env) in
    try_except
      (call (ETeamsPost url text) (fun h => teams_post env h url text))
      (fun _ => ret tt).

(** The audit record of a notification. *)
Definition notification_payload (id event subject body : str) : gmap str Json :=
  <[lit "book_id" := JStr id]>
  (<[lit "type" := JStr event]>
   (<[lit "channel" := JStr (lit "email+teams")]>
    (<[lit "payload" := JObj [(lit "subject", JStr subject); (lit "body", JStr body)]]>
     (<[lit "status" := JStr (lit "sent")]> ∅)))).

(** [src/nodes/notifications.py]: notify *)
Definition notify (state : BookState) : M BookState :=
  let event := event state in
  if negb (truthy event) then ret state
  else
    let event := or_empty event in
    log LInfo (lit "Sending notification: " ++ event) ;;;
    get_supabase ;;;
    let subject := lit "[Book System] Event: " ++ event in
    let body := lit "Event: " ++ event ++ nl ++ lit "Book ID: " ++ book_id state
                ++ nl ++ lit "Title: " ++ title state in
    send_email subject body ;;;
    send_teams_message body ;;;
    db_write (InsertNotification
                (notification_payload (book_id state) event subject body)) ;;;
    ret state.

(* ===================================================================== *)
(** ** [src/graph.py]: build_graph, and the engine that runs it *)
(* ===================================================================== *)

Inductive Node :=
| generate_outline_node
| generate_next_chapter_node
| compile_book_node
| notify_node.

#[export] Instance Node_eq_dec : EqDecision Node.
Proof. solve_decision. Defined.

(** [workflow.add_node(name, function)] *)
Definition node_function (n : Node) : BookState -> M BookState :=
  match n with
  | generate_outline_node => generate_outline
  | generate_next_chapter_node => generate_next_chapter
  | compile_book_node => compile_book
  | notify_node => notify
  end.

(** [workflow.set_entry_point("generate_outline")] *)
Definition entry_point : Node := generate_outline_node.

(** The router of a node's conditional edges; [notify] has no outgoing
    edge. *)
Definition router (n : Node) : option (BookState -> M (BookState * str)) :=
  match n with
  | generate_outline_node => Some _router_after_outline
  | generate_next_chapter_node =>
      Some (fun state => ret (state, _router_after_chapter state))
  | compile_book_node =>
      Some (fun state => ret (state, _router_after_compile state))
  | notify_node => None
  end.

(** The mapping given to [add_conditional_edges]: from the router's
    answer to the next node, or to the end of the run ([None]). *)
Definition edge_map (n : Node) : list (str * option Node) :=
  match n with
  | generate_outline_node =>
      [(lit "generate_next_chapter", Some generate_next_chapter_node);
       (lit "notify", Some notify_node)]
  | generate_next_chapter_node =>
      [(lit "generate_next_chapter", Some generate_next_chapter_node);
       (lit "compile_book", Some compile_book_node);
       (lit "notify", Some notify_node)]
  | compile_book_node =>
      [(lit "notify", Some notify_node); (END, None)]
  | notify_node => []
  end.

Fixpoint lookup_edge (label : str) (edges : list (str * option Node))
    : option (option Node) :=
  match edges with
  | [] => None
  | (l, target) :: rest =>
      if bool_decide (l = label) then Some target else lookup_edge label rest
  end.

(** One entry of a run's trace: the node entered, the state it was given
    and what its function returned. *)
Record Visit := {
  visit_node : Node;
  visit_in : BookState;
  visit_out : Res BookState
}.

Inductive Outcome :=
| Finished (final_state : BookState)
| Failed (e : PyExc)
| OutOfFuel.

(** What follows a node: its router's answer looked up in its edges.
    [None] ends the run; an answer outside the mapping is an error.  A
    router is the function of a conditional edge, not a node: the engine
    takes its answer only, so what it writes into the state it was given
    is lost, and the state handed on is the one the node returned. *)
Definition next_node (n : Node) (state : BookState) : M (BookState * option Node) :=
  match router n with
  | None => ret (state, None)
  | Some route =>
      r <- route state ;;
      match lookup_edge (snd r) (edge_map n) with
      | None => raise {| exc_class := KeyError; exc_msg := snd r |}
      | Some target => ret (state, target)
      end
  end.

(** The engine ([workflow.invoke] of LangGraph, as section 4.9 of the
    specification describes it): one node at a time, the node's function,
    then its router, then the node the router names; the run ends after a
    node without outgoing edges, at [END], or when anything raises.
    [fuel] bounds the number of nodes entered; the trace lists them in
    the order they were entered.  (LangGraph's own limit on the number of
    steps can only end a run earlier, with an exception.) *)
Fixpoint invoke_from (fuel : nat) (n : Node) (state : BookState) (h : History)
    : Outcome * list Visit * History :=
  match fuel with
  | O => (OutOfFuel, [], h)
  | S fuel' =>
      match node_function n state h with
      | (Raise e, h1) =>
          (Failed e,
           [{| visit_node := n; visit_in := state; visit_out := Raise e |}], h1)
      | (Ok state1, h1) =>
          let v := {| visit_node := n; visit_in := state; visit_out := Ok state1 |} in
          match next_node n state1 h1 with
          | (Raise e, h2) => (Failed e, [v], h2)
          | (Ok (state2, None), h2) => (Finished state2, [v], h2)
          | (Ok (state2, Some n'), h2) =>
              match invoke_from fuel' n' state2 h2 with
              | (out, trace, h3) => (out, v :: trace, h3)
              end
          end
      end
  end.

Definition invoke (fuel : nat) (state : BookState) (h : History)
    : Outcome * list Visit * History :=
  invoke_from fuel entry_point state h.

(** [run_book_flow.py] and [worker.process_book]: load the state, then
    run the graph. *)
Definition run_book_flow (fuel : nat) (id : str) (h : History)
    : Outcome * list Visit * History :=
  match load_initial_state id h with
  | (Raise e, h1) => (Failed e, [], h1)
  | (Ok state, h1) => invoke fuel state h1
  end.

End Workflow.

(* ===================================================================== *)
(** ** [src/sync_excel.py] and the discovery filters of [worker.py] *)
(* ===================================================================== *)

(** A cell value read with [values_only=True]: empty, text, or anything
    else (a number, a date, a boolean) with its truth value and what
    [str()] makes of it. *)
Inductive Cell :=
| CellNone
| CellStr (s : str)
| CellOther (truth : bool) (rendered : str).

(** [bool(value)] *)
Definition cell_truthy (c : Cell) : bool :=
  match c with
  | CellNone => false
  | CellStr s => bool_decide (s ≠ [])
  | CellOther t _ => t
  end.

(** What [excel_row_to_book_dict] stores for a cell: [None] becomes the
    empty string, a value that is no string goes through [str()], and
    the text is stripped. *)
Definition cell_text (c : Cell) : str :=
  match c with
  | CellNone => []
  | CellStr s => strip s
  | CellOther _ r => strip r
  end.

(** The loop of excel_row_to_book_dict over [enumerate(headers)]. *)
Fixpoint fill_book (headers : list str) (row_data : list Cell)
    (book : gmap str str) : gmap str str :=
  match headers with
  | [] => book
  | header :: headers' =>
      match row_data with
      | value :: rest => fill_book headers' rest (<[header := cell_text value]> book)
      | [] => fill_book headers' [] (<[header := []]> book)
      end
  end.

(** [src/sync_excel.py]: excel_row_to_book_dict *)
Definition excel_row_to_book_dict (row_data : list Cell) (headers : list str)
    : option (gmap str str) :=
  let book := fill_book headers row_data ∅ in
  if negb (truthy (book !! lit "title")) then None else Some book.

(** The words that mark a description row of the template. *)
Definition description_keywords : list str :=
  [lit "required"; lit "optional"; lit "default:"; lit "yes/no"].

(** The optional fields copied from the row when they are not empty. *)
Definition optional_fields : list str :=
  [lit "notes_on_outline_after"; lit "status_outline_notes";
   lit "chapter_notes_status"; lit "final_review_notes_status";
   lit "final_review_notes"].

(** [if key not in d: d[key] = value] *)
Definition set_default (key : str) (value : Json) (d : gmap str Json) : gmap str Json :=
  match d !! key with
  | Some _ => d
  | None => <[key := value]> d
  end.

(** The payload of sync_excel_to_supabase (lines 136 to 164). *)
Definition upsert_payload (title : str) (sheet_row_id : Z) (book_dict : gmap str str)
    : gmap str Json :=
  let upsert_data : gmap str Json :=
    <[lit "title" := JStr title]>
    (<[lit "notes_on_outline_before" :=
         JStr (default [] (book_dict !! lit "notes_on_outline_before"))]>
     (<[lit "sheet_row_id" := JInt sheet_row_id]> ∅)) in
  let upsert_data :=
    foldl (fun d field =>
             if truthy (book_dict !! field)
             then <[field := JStr (or_empty (book_dict !! field))]> d
             else d)
      upsert_data optional_fields in
  let upsert_data := set_default (lit "status_outline_notes") (JStr (lit "no_notes_needed")) upsert_data in
  let upsert_data := set_default (lit "chapter_notes_status") (JStr (lit "no_notes_needed")) upsert_data in
  let upsert_data := set_default (lit "final_review_notes_status") (JStr (lit "no_notes_needed")) upsert_data in
  let upsert_data := set_default (lit "outline_status") (JStr (lit "pending")) upsert_data in
  let upsert_data := set_default (lit "book_output_status") (JStr (lit "not_started")) upsert_data in
  upsert_data.

Section Sync.

Variable env : Env.

(** Python's Unicode tables, taken as given: [s.lower()], [s.isdigit()]
    and [int(s)] ([None] when it raises [ValueError]). *)
Variable lower : str -> str.
Variable isdigit : str -> bool.
Variable int_of_str : str -> option Z.

(** Python's [repr] of a [str], taken as given. *)
Variable repr : str -> str.

(** [f"{items}"] for a list of strings. *)
Definition list_repr (items : list str) : str :=
  lit "[" ++ join (lit ", ") (map repr items) ++ lit "]".

(** The header cells made into field names. *)
Definition normalize_header (c : Cell) : str :=
  if cell_truthy c then
    replace (lit " ") (lit "_")
      (lower (strip (match c with
                     | CellNone => []
                     | CellStr s => s
                     | CellOther _ r => r
                     end)))
  else [].

(** The sheet row id of a row: the cell when it is a number, the row
    number otherwise. *)
Definition sheet_row_id_of (book_dict : gmap str str) (idx : Z) : Z :=
  let sheet_row_id_raw := or_empty (book_dict !! lit "sheet_row_id") in
  if bool_decide (sheet_row_id_raw ≠ []) && isdigit (strip sheet_row_id_raw) then
    match int_of_str sheet_row_id_raw with
    | Some z => z
    | None => idx
    end
  else idx.

(** What the loop decides for one row before it touches the datastore:
    [None] when the row is skipped, or the title, the sheet row id and
    the payload to write. *)
Definition row_payload (idx : Z) (row : list Cell) (headers : list str)
    : option (str * Z * gmap str Json) :=
  if negb (existsb cell_truthy row) then None
  else
    match excel_row_to_book_dict row headers with
    | None => None
    | Some book_dict =>
        let title := or_empty (book_dict !! lit "title") in
        if negb (truthy (book_dict !! lit "title")) then None
        else
          let title_lower := lower title in
          if existsb (fun keyword => contains keyword title_lower) description_keywords
          then None
          else
            let sheet_row_id := sheet_row_id_of book_dict idx in
            Some (title, sheet_row_id, upsert_payload title sheet_row_id book_dict)
    end.

(** One turn of the loop of sync_excel_to_supabase. *)
Definition sync_row (idx : Z) (row : list Cell) (headers : list str)
    (book_ids : list str) : M (list str) :=
  if negb (existsb cell_truthy row) then ret book_ids
  else
    match row_payload idx row headers with
    | None =>
        match excel_row_to_book_dict row headers with
        | None =>
            log LWarning (lit "Row " ++ str_of_Z idx ++ lit ": Skipping - missing title") ;;;
            ret book_ids
        | Some _ =>
            log LDebug (lit "Row " ++ str_of_Z idx ++ lit ": Skipping description row") ;;;
            ret book_ids
        end
    | Some (title, sheet_row_id, upsert_data) =>
        existing <- call (ESelectExisting title sheet_row_id)
                      (fun h => select_existing env h title sheet_row_id) ;;
        match existing with
        | Some (c :: id') =>
            let book_id := c :: id' in
            log LInfo (lit "Row " ++ str_of_Z idx ++ lit ": Updating existing book '"
                       ++ title ++ lit "' (" ++ book_id ++ lit ")") ;;;
            db_write env (UpdateBook book_id upsert_data) ;;;
            ret (book_ids ++ [book_id])
        | _ =>
            log LInfo (lit "Row " ++ str_of_Z idx ++ lit ": Creating new book '"
                       ++ title ++ lit "'") ;;;
            inserted <- db_write env (InsertBook upsert_data) ;;
            if truthy inserted then ret (book_ids ++ [or_empty inserted])
            else ret book_ids
        end
    end.

Fixpoint sync_rows (idx : Z) (rows : list (list Cell)) (headers : list str)
    (book_ids : list str) : M (list str) :=
  match rows with
  | [] => ret book_ids
  | row :: rest =>
      book_ids <- sync_row idx row headers book_ids ;;
      sync_rows (idx + 1) rest headers book_ids
  end.

(** [src/sync_excel.py]: sync_excel_to_supabase, from the worksheet on:
    [sheet] holds the rows of the chosen worksheet (row 1 first). *)
Definition sync_excel_to_supabase (sheet : list (list Cell))
    (header_row start_row : nat) : M (list str) :=
  let headers_raw := nth (pred header_row) sheet [] in
  let headers := map normalize_header headers_raw in
  log LInfo (lit "Found columns: " ++ list_repr headers) ;;;
  get_supabase env ;;;
  book_ids <- sync_rows (Z.of_nat start_row) (drop (pred start_row) sheet) headers [] ;;
  log LInfo (lit "Sync complete. Processed "
             ++ str_of_Z (Z.of_nat (length book_ids)) ++ lit " books.") ;;;
  ret book_ids.

End Sync.

(** [worker.py]: find_pending_books.  The three filters, on a stored
    book record. *)
Definition pending_outline_filter (book : gmap str Json) : bool :=
  bool_decide (book !! lit "outline_status" = Some (JStr (lit "pending")))
  && negb (bool_decide (book !! lit "notes_on_outline_before" = None)
           || bool_decide (book !! lit "notes_on_outline_before" = Some JNull)).

Definition approved_outline_filter (book : gmap str Json) : bool :=
  bool_decide (book !! lit "outline_status" = Some (JStr (lit "approved")))
  && bool_decide (book !! lit "book_output_status" = Some (JStr (lit "not_started"))).

Definition in_progress_filter (book : gmap str Json) : bool :=
  bool_decide (book !! lit "outline_status" = Some (JStr (lit "approved")))
  && (bool_decide (book !! lit "book_output_status" = Some (JStr (lit "not_started")))
      || bool_decide (book !! lit "book_output_status" = Some (JStr (lit "in_progress")))).

(** The ids of the first [limit] books that pass a filter. *)
Definition query (f : gmap str Json -> bool) (limit : nat)
    (books : list (str * gmap str Json)) : list str :=
  map fst (take limit (filter (fun b => f (snd b) = true) books)).

(** [worker.py]: find_pending_books; [list(set(...))] keeps one copy of
    each id. *)
Definition find_pending_books (limit : nat) (books : list (str * gmap str Json))
    : list str :=
  remove_dups (query pending_outline_filter limit books
               ++ query approved_outline_filter limit books
               ++ query in_progress_filter limit books).

(* ===================================================================== *)
(** ** Concrete worlds, for running the model *)
(* ===================================================================== *)

Module Worlds.

Definition no_smtp : SmtpConfig :=
  {| SMTP_HOST := None; SMTP_PORT := 587; SMTP_USER := None;
     SMTP_PASS := None; NOTIFY_TO := None |}.

Definition gmail : SmtpConfig :=
  {| SMTP_HOST := Some (lit "smtp.gmail.com"); SMTP_PORT := 587;
     SMTP_USER := Some (lit "bot@example.com");
     SMTP_PASS := Some (lit "abcdabcdabcdabcd");
     NOTIFY_TO := Some (lit "editor@example.com") |}.

(** A book whose outline notes are [notes] and whose three flags are
    [flag]; no final-review notes. *)
Definition book (notes : option str) (flag : option str) : BookRow :=
  {| row_id := Some (lit "b1"); row_title := Some (lit "Tides");
     row_notes_on_outline_before := notes;
     row_outline := None; row_notes_on_outline_after := None;
     row_status_outline_notes := flag;
     row_chapter_notes_status := flag;
     row_final_review_notes_status := flag;
     row_final_review_notes := None;
     row_book_output_status := Some (lit "not_started") |}.

(** [EmailMessage]: a header value with more than one line is refused. *)
Definition email_policy (m : EmailMessage) : Res unit :=
  if bool_decide (1 < length (splitlines (msg_subject m)))%nat
  then Raise {| exc_class := ValueError;
                exc_msg := lit "Header values may not contain linefeed or carriage return characters" |}
  else Ok tt.

(** reportlab: a paragraph whose bold tag is never closed does not parse. *)
Definition paragraph_policy (text : str) : Res unit :=
  if contains (lit "<b>") text && negb (contains (lit "</b>") text)
  then Raise {| exc_class := ValueError;
                exc_msg := lit "Parse error: saw </para> instead of expected </b>" |}
  else Ok tt.

(** A world in which every service answers: the datastore holds [row]
    for the book, [gate] for each chapter and [chapters] as the stored
    chapters; the model always writes [answer]. *)
Definition world (target : Z) (smtp : SmtpConfig) (row : BookRow)
    (gate : Z -> option GateRow) (chapters : list ChapterRow) (answer : str) : Env :=
  {| supabase_configured := true;
     llm_configured := true;
     target_chapter_count := target;
     smtp_config := smtp;
     TEAMS_WEBHOOK_URL := None;
     select_book := fun _ _ _ => Ok row;
     select_chapter_summaries := fun _ _ _ => Ok [];
     select_chapter_gate := fun _ _ n => Ok (gate n);
     select_chapters := fun _ _ => Ok chapters;
     select_existing := fun _ _ _ => Ok None;
     execute_write := fun _ _ => Ok (Some (lit "b1"));
     llm_invoke := fun _ _ => Ok answer;
     storage_upload := fun _ _ _ => Ok tt;
     storage_public_url := fun _ name => Ok (lit "https://storage/" ++ name);
     docx_save := fun _ _ => Ok tt;
     pdf_paragraph := fun _ text _ => paragraph_policy text;
     pdf_build := fun _ _ => Ok tt;
     email_message := fun _ m => email_policy m;
     smtp_connect := fun _ _ _ => Ok tt;
     smtp_starttls := fun _ => Ok tt;
     smtp_login := fun _ _ _ => Ok tt;
     smtp_send_message := fun _ _ => Ok tt;
     smtp_quit := fun _ => Ok tt;
     teams_post := fun _ _ _ => Ok tt |}.

(** The same world with another answer to [smtp.login]. *)
Definition with_login (answer : Res unit) (e : Env) : Env :=
  {| supabase_configured := supabase_configured e;
     llm_configured := llm_configured e;
     target_chapter_count := target_chapter_count e;
     smtp_config := smtp_config e;
     TEAMS_WEBHOOK_URL := TEAMS_WEBHOOK_URL e;
     select_book := select_book e;
     select_chapter_summaries := select_chapter_summaries e;
     select_chapter_gate := select_chapter_gate e;
     select_chapters := select_chapters e;
     select_existing := select_existing e;
     execute_write := execute_write e;
     llm_invoke := llm_invoke e;
     storage_upload := storage_upload e;
     storage_public_url := storage_public_url e;
     docx_save := docx_save e;
     pdf_paragraph := pdf_paragraph e;
     pdf_build := pdf_build e;
     email_message := email_message e;
     smtp_connect := smtp_connect e;
     smtp_starttls := smtp_starttls e;
     smtp_login := fun _ _ _ => answer;
     smtp_send_message := smtp_send_message e;
     smtp_quit := smtp_quit e;
     teams_post := teams_post e |}.

Definition no_gate_row : Z -> option GateRow := fun _ => None.

Definition approved : option str := Some (lit "no_notes_needed").

Definition two_chapters : list ChapterRow :=
  [{| crow_chapter_number := 1; crow_title := lit "Chapter 1";
      crow_content := Some (lit "The sea rises.") |};
   {| crow_chapter_number := 2; crow_title := lit "Chapter 2";
      crow_content := Some (lit "The sea falls.") |}].

(** A book whose final review is flagged [yes] and has notes. *)
Definition reviewed_book : BookRow :=
  {| row_id := Some (lit "b1"); row_title := Some (lit "Tides");
     row_notes_on_outline_before := Some (lit "A book about tides");
     row_outline := None; row_notes_on_outline_after := None;
     row_status_outline_notes := approved;
     row_chapter_notes_status := approved;
     row_final_review_notes_status := Some (lit "yes");
     row_final_review_notes := Some (lit "Tighten chapter 2.");
     row_book_output_status := Some (lit "not_started") |}.

Definition reviewed : Env :=
  world 2 no_smtp reviewed_book no_gate_row two_chapters
    (lit "The sea rises. Summary: Water moves.").

(** A world whose only chapter opens a bold tag and never closes it. *)
Definition bold_chapter : list ChapterRow :=
  [{| crow_chapter_number := 1; crow_title := lit "Chapter 1";
      crow_content := Some (lit "<b>Tides are waves.") |}].

Definition unclosed_bold : Env :=
  world 1 no_smtp (book (Some (lit "A book about tides")) approved)
    no_gate_row bold_chapter (lit "<b>Tides are waves. Summary: Waves.").

(** A world with the mail channel configured, and the same world with a
    server that refuses the password. *)
Definition mail_world : Env :=
  world 2 gmail (book (Some (lit "A book about tides")) approved)
    no_gate_row two_chapters (lit "The sea rises. Summary: Water moves.").

Definition refused_login : Env :=
  with_login (Raise {| exc_class := SMTPAuthenticationError;
                       exc_msg := lit "535 Username and Password not accepted" |})
    mail_world.

(** The first end-to-end scenario: notes present, every flag
    [no_notes_needed], two chapters. *)
Definition scenario1 : Env :=
  world 2 no_smtp (book (Some (lit "A book about tides")) approved)
    no_gate_row two_chapters (lit "The sea rises. Summary: Water moves.").

(** The first scenario with [CHAPTER_TARGET_COUNT=-1], which
    get_target_chapter_count accepts as it is. *)
Definition negative_count : Env :=
  world (-1) no_smtp (book (Some (lit "A book about tides")) approved)
    no_gate_row [] (lit "1. Rise 2. Fall").

(** The Unicode tables on ASCII text: lower case, decimal digits, and
    the number they write. *)
Definition ascii_lower (s : str) : str :=
  map (fun c => if ((65 <=? c) && (c <=? 90))%N then (c + 32)%N else c) s.

Definition ascii_isdigit (s : str) : bool :=
  bool_decide (s ≠ []) && forallb (fun c => (48 <=? c) && (c <=? 57))%N s.

Definition ascii_int (s : str) : option Z :=
  if ascii_isdigit (strip s)
  then Some (foldl (fun acc c => 10 * acc + (Z.of_N c - 48)) 0 (strip s))
  else None.

(** A sheet with three columns and a row that leaves the flag empty. *)
Definition sheet_headers : list str :=
  [lit "title"; lit "notes_on_outline_before"; lit "status_outline_notes"].

Definition sheet_row : list Cell :=
  [CellStr (lit "Tides"); CellStr (lit " About tides "); CellNone].

(** A state as load_initial_state builds it. *)
Definition fresh (notes : option str) (total : Z) (index : Z) : BookState :=
  {| book_id := lit "b1"; title := lit "Tides";
     notes_on_outline_before := notes;
     outline := Some (lit "1. Rise 2. Fall");
     notes_on_outline_after := None;
     status_outline_notes := approved;
     current_chapter_number := index;
     total_chapters := total;
     chapter_notes_status := approved;
     chapter_notes := None;
     chapter_summaries := [];
     final_review_notes_status := approved;
     final_review_notes := None;
     book_output_status := Some (lit "not_started");
     control := ∅ |}.

End Worlds.

(* ===================================================================== *)
(** ** The vocabulary of the properties *)
(* ===================================================================== *)

(** [a] is where [sep] first occurs in [s], and [b] is what follows it. *)
Definition first_occurrence (sep s a b : str) : Prop :=
  s = a ++ sep ++ b /\
  forall a' b', s = a' ++ sep ++ b' -> (length a <= length a')%nat.

(** The three outcomes of a gate. *)
Inductive GateOutcome :=
| proceed
| wait_for_input
| paused_unrecognized.

(** The gating policy in the words of the specification:
    [no_notes_needed] proceeds, [yes] waits for input, and any other
    value, the empty string and an absent status included, pauses. *)
Definition gating_policy (status : option str) : GateOutcome :=
  if bool_decide (status = Some (lit "no_notes_needed")) then proceed
  else if bool_decide (status = Some (lit "yes")) then wait_for_input
  else paused_unrecognized.

(** What the outline router decided, read off its answer: the next node
    and the event it left in the state. *)
Definition outline_gate_outcome (r : Res (BookState * str)) : option GateOutcome :=
  match r with
  | Ok (state, label) =>
      if bool_decide (label = lit "generate_next_chapter") then Some proceed
      else if bool_decide (event state = Some (lit "outline_waiting_for_notes"))
      then Some wait_for_input
      else if bool_decide (event state = Some (lit "outline_paused_missing_status"))
      then Some paused_unrecognized
      else None
  | Raise _ => None
  end.

(** What the chapter stage decided, read off the event it emitted. *)
Definition chapter_gate_outcome (r : Res BookState) : option GateOutcome :=
  match r with
  | Ok state =>
      if bool_decide (event state = Some (lit "chapter_generated")) then Some proceed
      else if bool_decide (event state = Some (lit "waiting_for_chapter_notes"))
      then Some wait_for_input
      else if bool_decide (event state = Some (lit "paused_for_chapter_notes_status"))
      then Some paused_unrecognized
      else None
  | Raise _ => None
  end.

(** What the compile stage decided: it compiled, or it emitted the one
    event it has for a review that is not ready. *)
Inductive CompileGate :=
| compiled
| final_review_not_ready.

Definition compile_gate_outcome (r : Res BookState) : option CompileGate :=
  match r with
  | Ok state =>
      if bool_decide (event state = Some (lit "book_compiled")) then Some compiled
      else if bool_decide (event state = Some (lit "final_review_not_ready"))
      then Some final_review_not_ready
      else None
  | Raise _ => None
  end.

(** The three gating fields of a book. *)
Definition gating_fields : list str :=
  [lit "status_outline_notes"; lit "chapter_notes_status";
   lit "final_review_notes_status"].

(** The kinds of effect. *)
Definition is_write (e : Effect) : bool :=
  match e with EWrite _ => true | _ => false end.

Definition is_upload (e : Effect) : bool :=
  match e with EUpload _ _ => true | _ => false end.

Definition is_llm (e : Effect) : bool :=
  match e with ELlm _ => true | _ => false end.

(** The chapter gate as the chapter stage has it: an absent flag
    proceeds, every other value follows the policy. *)
Definition chapter_policy (status : option str) : GateOutcome :=
  if bool_decide (status = None) then proceed else gating_policy status.

(** The edges of the graph: where a router can send the run, and what
    holds of the state when it does. *)
Definition edge_allowed (n n' : Node) (st1 : BookState) : Prop :=
  match n, n' with
  | generate_outline_node, generate_next_chapter_node =>
      event st1 = Some (lit "outline_generated")
  | generate_outline_node, notify_node => True
  | generate_next_chapter_node, generate_next_chapter_node =>
      event st1 = Some (lit "chapter_generated")
      /\ current_chapter_number st1 <= total_chapters st1
  | generate_next_chapter_node, compile_book_node => True
  | generate_next_chapter_node, notify_node => True
  | compile_book_node, notify_node => True
  | _, _ => False
  end.

(** A trace starts at the node and the state the run was given. *)
Definition starts_at (n : Node) (st : BookState) (trace : list Visit) : Prop :=
  match trace with
  | [] => True
  | v :: _ => visit_node v = n /\ visit_in v = st
  end.

(** The chapter index of a state is within the chapter count plus one. *)
Definition within_total (st : BookState) : Prop :=
  current_chapter_number st <= total_chapters st + 1.

(** The index along a trace: every visit starts at the index the one
    before it ended with (the first at [i]); a visit of the chapter stage
    that ends with [chapter_generated] ends one higher, and every other
    visit ends where it started; a visit that raises is the last. *)
Fixpoint index_discipline (i : Z) (trace : list Visit) : Prop :=
  match trace with
  | [] => True
  | v :: rest =>
      current_chapter_number (visit_in v) = i /\
      match visit_out v with
      | Raise _ => rest = []
      | Ok st' =>
          (if bool_decide (visit_node v = generate_next_chapter_node
                           /\ event st' = Some (lit "chapter_generated"))
           then current_chapter_number st' = i + 1
           else current_chapter_number st' = i) /\
          index_discipline (current_chapter_number st') rest
      end
  end.

(** The chapter indices a run went through, in order: for each visit the
    index it started with and, when it returned, the index it ended
    with. *)
Fixpoint index_history (trace : list Visit) : list Z :=
  match trace with
  | [] => []
  | v :: rest =>
      current_chapter_number (visit_in v) ::
      match visit_out v with
      | Ok st' => current_chapter_number st' :: index_history rest
      | Raise _ => index_history rest
      end
  end.

(** Every state of a trace keeps the index within the total plus one. *)
Definition trace_within_total (trace : list Visit) : Prop :=
  Forall (fun v => within_total (visit_in v) /\
                   match visit_out v with
                   | Ok st' => within_total st'
                   | Raise _ => True
                   end) trace.

(** Each pass through the chapter to chapter edge raises the index. *)
Fixpoint loop_increases (trace : list Visit) : Prop :=
  match trace with
  | [] => True
  | v1 :: rest =>
      match rest with
      | [] => True
      | v2 :: _ =>
          (visit_node v1 = generate_next_chapter_node ->
           visit_node v2 = generate_next_chapter_node ->
           current_chapter_number (visit_in v2) = current_chapter_number (visit_in v1) + 1)
      end /\ loop_increases rest
  end.

(** The nodes of a trace ran one after the other: each one but the last
    returned, and the next one was entered at the node its router named
    and with the state the engine handed on. *)
Fixpoint sequential (env : Env) (trace : list Visit) : Prop :=
  match trace with
  | [] => True
  | v1 :: rest =>
      match rest with
      | [] => True
      | v2 :: _ =>
          exists st1 h1 h2,
            visit_out v1 = Ok st1 /\
            next_node env (visit_node v1) st1 h1
            = (Ok (visit_in v2, Some (visit_node v2)), h2)
      end /\ sequential env rest
  end.

(** The number of visits of a node in a trace. *)
Definition visits (n : Node) (trace : list Visit) : nat :=
  length (filter (fun v => visit_node v = n) trace).

(** The chapters still to write from a state. *)
Definition chapters_left (total index : Z) : nat := Z.to_nat (total + 1 - index).

(** The number of nodes a run needs at most, from a node and a state. *)
Definition budget (target : Z) (n : Node) (st : BookState) : nat :=
  match n with
  | notify_node => 1
  | compile_book_node => 2
  | generate_next_chapter_node =>
      Nat.max 1 (chapters_left (total_chapters st) (current_chapter_number st)) + 2
  | generate_outline_node =>
      Nat.max 1 (chapters_left target (current_chapter_number st)) + 3
  end.

(** The nodes a run entered, the event it ended with and the output
    status of its final state. *)
Definition summary_of_run (r : Outcome * list Visit * History)
    : list Node * option str * option str :=
  match r with
  | (Finished st, trace, _) => (map visit_node trace, event st, book_output_status st)
  | (_, trace, _) => (map visit_node trace, None, None)
  end.

(* ===================================================================== *)
(** ** [worker.py]: process_book and run_worker_once *)
(* ===================================================================== *)

(** The engine's error when its limit on the number of steps is reached. *)
Definition step_limit_error : PyExc :=
  {| exc_class := OtherException; exc_msg := lit "GraphRecursionError" |}.

Section Worker.

Variable env : Env.

(** [workflow.invoke(state)] as the worker calls it: the final state, the
    exception of the stage or of the router that raised, or the engine's
    own error when [step_limit] nodes were entered and the run is not
    over. *)
Definition workflow_invoke (step_limit : nat) (state : BookState) : M BookState :=
  fun h =>
    match invoke env step_limit state h with
    | (Finished final_state, _, h') => (Ok final_state, h')
    | (Failed e, _, h') => (Raise e, h')
    | (OutOfFuel, _, h') => (Raise step_limit_error, h')
    end.

(** The update that marks a book as failed. *)
Definition error_payload : gmap str Json :=
  <[lit "book_output_status" := JStr (lit "error")]> ∅.

(** Lines 98 to 104 of process_book: the mark, and whatever it raises is
    dropped. *)
Definition mark_error (id : str) : M unit :=
  try_except
    (get_supabase env ;;;
     db_write env (UpdateBook id error_payload) ;;;
     ret tt)
    (fun _ => ret tt).

(** [worker.py]: process_book *)
Definition process_book (step_limit : nat) (id : str) : M bool :=
  try_except
    (log LInfo (lit "Processing book_id: " ++ id) ;;;
     state <- load_initial_state env id ;;
     final_state <- workflow_invoke step_limit state ;;
     let event := event final_state in
     if bool_decide (event = Some (lit "book_compiled")) then
       log LInfo ([10003%N] ++ lit " Book " ++ id ++ lit " completed successfully") ;;;
       ret true
     else if bool_decide (event = Some (lit "waiting_for_chapter_notes"))
             || bool_decide (event = Some (lit "outline_waiting_for_notes")) then
       log LInfo ([9208%N] ++ lit " Book " ++ id ++ lit " paused - waiting for editor input") ;;;
       ret false
     else
       log LInfo ([9208%N] ++ lit " Book " ++ id ++ lit " paused - event: " ++ fmt_opt event) ;;;
       ret false)
    (fun e =>
       log LError ([10007%N] ++ lit " Error processing book " ++ id ++ lit ": " ++ exc_msg e) ;;;
       mark_error id ;;;
       ret false).

(** [worker.py]: run_worker_once.  [book_ids] is empty when none is
    given; [found] is what find_pending_books answers when it is asked
    (its queries may raise). *)
Definition run_worker_once (step_limit : nat) (book_ids : list str)
    (found : Res (list str)) : M unit :=
  pending <-
    (match book_ids with
     | _ :: _ =>
         log LInfo (lit "Worker: Processing " ++ str_of_Z (Z.of_nat (length book_ids))
                    ++ lit " provided book_id(s)") ;;;
         ret book_ids
     | [] =>
         log LInfo (lit "Worker: Checking for pending books...") ;;;
         lift found
     end) ;;
  match pending with
  | [] => log LInfo (lit "No pending books found.")
  | _ :: _ =>
      log LInfo (lit "Found " ++ str_of_Z (Z.of_nat (length pending))
                 ++ lit " pending book(s)") ;;;
      for_each (fun book_id => process_book step_limit book_id ;;; ret tt) pending
  end.

End Worker.

(* ===================================================================== *)
(** ** [src/sync_sheets.py]: sheet_row_to_book_dict *)
(* ===================================================================== *)

(** The loop of sheet_row_to_book_dict: a row read from a sheet holds
    text only; a row shorter than the headers counts as padded with empty
    strings, and the loop gives up at a [title] column whose cell is
    empty. *)
Fixpoint sheet_fill (headers : list str) (row_data : list str)
    (book : gmap str str) : option (gmap str str) :=
  match headers with
  | [] => Some book
  | header :: headers' =>
      let value := match row_data with v :: _ => v | [] => [] end in
      if bool_decide (header = lit "title") && bool_decide (value = []) then None
      else sheet_fill headers' (tail row_data) (<[header := strip value]> book)
  end.

(** [src/sync_sheets.py]: sheet_row_to_book_dict *)
Definition sheet_row_to_book_dict (row_data : list str) (headers : list str)
    : option (gmap str str) :=
  sheet_fill headers row_data ∅.

(* ===================================================================== *)
(** ** The vocabulary of the further properties *)
(* ===================================================================== *)

(** A computation only adds to the history: what was there before it
    ran is still there, in the same order, when it returns or raises. *)
Definition grows {A} (m : M A) : Prop :=
  forall h, h `suffix_of` snd (m h).

(** The effects that reach the mail server. *)
Definition is_smtp (e : Effect) : bool :=
  match e with
  | ESmtpConnect _ _ | ESmtpStartTls | ESmtpLogin _ _ | ESmtpSendMessage _
  | ESmtpQuit => true
  | _ => false
  end.

(** The chapter numbers 1, 2, ..., [n]. *)
Definition chapter_numbers (n : nat) : list Z := map Z.of_nat (seq 1 n).

(** A state in the middle of a run: the summaries it carries are those
    of the chapters before the current one, in order. *)
Definition summaries_in_step (st : BookState) : Prop :=
  exists n : nat,
    current_chapter_number st = Z.of_nat n + 1 /\
    map chapter_number (chapter_summaries st) = chapter_numbers n.

(** What holds when a node is entered with state [st] at history [h],
    in a run that began at the outline stage.  The chapter stage and the
    compile stage are entered only after the model was asked for the
    outline of this book and answered, the outline of the state being
    that answer stripped; with the configured chapter count; and after
    the outline flag was read again from the datastore and the answer was
    [no_notes_needed]. *)
Definition after_outline (env : Env) (n : Node) (st : BookState) (h : History) : Prop :=
  match n with
  | generate_next_chapter_node | compile_book_node =>
      (exists content h0,
         let prompt := OutlinePrompt (title st) (notes_on_outline_before st)
                         (or_empty (notes_on_outline_after st))
                         (target_chapter_count env) in
         (ELlm prompt :: h0) `suffix_of` h /\
         llm_invoke env h0 prompt = Ok content /\
         outline st = Some (strip content)) /\
      total_chapters st = target_chapter_count env /\
      (exists row h0,
         (ESelectBook (lit "status_outline_notes") (book_id st) :: h0) `suffix_of` h /\
         select_book env h0 (lit "status_outline_notes") (book_id st) = Ok row /\
         row_status_outline_notes row = Some (lit "no_notes_needed"))
  | _ => True
  end.

(** A stored book record after an update: the columns of the update
    replace the stored ones. *)
Definition updated (payload book : gmap str Json) : gmap str Json := payload ∪ book.

(** A text that is not empty and has no blank at either end. *)
Definition trimmed (s : str) : Prop :=
  s ≠ [] /\
  (forall c, head s = Some c -> isspace c = false) /\
  (forall c, last s = Some c -> isspace c = false).

(** The flowables that stand for a block of the DOCX in the PDF. *)
Definition pdf_of_docx (b : DocxBlock) : list Flowable :=
  match b with
  | DocxHeading text level =>
      if level =? 0 then [Paragraph text StyleTitle; Spacer 1 5]
      else [Paragraph text StyleHeading1]
  | DocxParagraph text =>
      [Paragraph (replace nl (lit "<br/>") text) StyleNormal; Spacer 1 2]
  end.

(** The first line process_book logs for a book. *)
Definition processing_line (id : str) : Effect :=
  ELog LInfo (lit "Processing book_id: " ++ id).

(** The line process_book logs for a run that failed with [e]. *)
Definition error_line (id : str) (e : PyExc) : Effect :=
  ELog LError ([10007%N] ++ lit " Error processing book " ++ id ++ lit ": " ++ exc_msg e).

(** Log lines, as opposed to the effects that reach a service. *)
Definition is_log (e : Effect) : bool :=
  match e with ELog _ _ => true | _ => false end.

(** The mail world with a webhook, in which both channels fail: the
    mail server refuses the password and the webhook cannot be reached. *)
Definition failing_channels : Env :=
  let e := Worlds.refused_login in
  {| supabase_configured := supabase_configured e;
     llm_configured := llm_configured e;
     target_chapter_count := target_chapter_count e;
     smtp_config := smtp_config e;
     TEAMS_WEBHOOK_URL := Some (lit "https://teams.example/hook");
     select_book := select_book e;
     select_chapter_summaries := select_chapter_summaries e;
     select_chapter_gate := select_chapter_gate e;
     select_chapters := select_chapters e;
     select_existing := select_existing e;
     execute_write := execute_write e;
     llm_invoke := llm_invoke e;
     storage_upload := storage_upload e;
     storage_public_url := storage_public_url e;
     docx_save := docx_save e;
     pdf_paragraph := pdf_paragraph e;
     pdf_build := pdf_build e;
     email_message := email_message e;
     smtp_connect := smtp_connect e;
     smtp_starttls := smtp_starttls e;
     smtp_login := smtp_login e;
     smtp_send_message := smtp_send_message e;
     smtp_quit := smtp_quit e;
     teams_post := fun _ _ _ =>
       Raise {| exc_class := OtherException; exc_msg := lit "ConnectionError" |} |}.

(** The columns of table [books] the spreadsheet sync writes. *)
Definition payload_columns : list str :=
  [lit "title"; lit "notes_on_outline_before"; lit "sheet_row_id";
   lit "notes_on_outline_after"; lit "status_outline_notes";
   lit "chapter_notes_status"; lit "final_review_notes_status";
   lit "final_review_notes"; lit "outline_status"; lit "book_output_status"].

(* ===================================================================== *)
(** ** The string operations on examples *)
(* ===================================================================== *)

Example strip_ex : strip (lit "  ab c  ") = lit "ab c".
Proof. reflexivity. Qed.

Example split1_ex :
  split1 (lit "Summary:") (lit "  Summary: x") = [lit "  "; lit " x"].
Proof. reflexivity. Qed.

Example split_ex :
  split (lit "--") (lit "a--b----c--") = [lit "a"; lit "b"; lit ""; lit "c"; lit ""].
Proof. reflexivity. Qed.

Example replace_ex : replace (lit "aa") (lit "b") (lit "aaaxaa") = lit "baxb".
Proof. reflexivity. Qed.

Example splitlines_ex :
  map (@length N) (splitlines (lit "a" ++ [13%N; 10%N] ++ lit "b" ++ [10%N]))
  = [1%nat; 1%nat].
Proof. reflexivity. Qed.

Example str_of_Z_ex : str_of_Z (-30) = lit "-30" /\ str_of_Z 0 = lit "0".
Proof. split; reflexivity. Qed.

(* ===================================================================== *)
(** ** Facts about the string operations *)
(* ===================================================================== *)

Section StringFacts.

Implicit Types (s t a b sep : str) (p : N -> bool).

Lemma strip_prefix_Some sep s r : strip_prefix sep s = Some r <-> s = sep ++ r.
Proof.
  revert s. induction sep as [|c sep IH]; intros s; simpl.
  - split; [intros [= ->]; reflexivity | intros ->; reflexivity].
  - destruct s as [|d s]; [split; discriminate|].
    destruct (decide (c = d)) as [->|Hne].
    + rewrite IH. split; [intros ->; reflexivity | intros [= ->]; reflexivity].
    + split; [discriminate | intros [= -> _]; contradiction].
Qed.

Lemma startswith_true sep s : startswith sep s = true <-> exists r, s = sep ++ r.
Proof.
  unfold startswith. destruct (strip_prefix sep s) as [r|] eqn:E.
  - apply strip_prefix_Some in E. split; eauto.
  - split; [discriminate|]. intros [r Hr]. apply strip_prefix_Some in Hr. congruence.
Qed.

Lemma contains_true sep s : contains sep s = true <-> exists a b, s = a ++ sep ++ b.
Proof.
  induction s as [|c s IH]; simpl.
  - rewrite orb_false_r, startswith_true. split.
    + intros [r Hr]. exists [], r. exact Hr.
    + intros (a & b & H). destruct a; [eauto|discriminate].
  - rewrite orb_true_iff, startswith_true, IH. split.
    + intros [[r Hr]|(a & b & ->)]; [exists [], r; exact Hr | exists (c :: a), b; reflexivity].
    + intros (a & b & H). destruct a as [|d a]; simpl in H.
      * left. eauto.
      * right. injection H as -> ->. eauto.
Qed.

Lemma split_first_leftmost sep s a b :
  first_occurrence sep s a b -> split_first sep s = Some (a, b).
Proof.
  revert a. induction s as [|c s IH]; intros a [Hs Hmin].
  - destruct a; [|discriminate]. simpl in Hs.
    simpl. destruct (strip_prefix sep []) as [r|] eqn:E.
    + apply strip_prefix_Some in E.
      assert (Hr : sep ++ r = sep ++ b) by congruence.
      apply app_inv_head in Hr. subst r. reflexivity.
    + assert (H : strip_prefix sep [] = Some b) by (apply strip_prefix_Some; exact Hs).
      congruence.
  - simpl. destruct (strip_prefix sep (c :: s)) as [r|] eqn:E.
    + apply strip_prefix_Some in E.
      specialize (Hmin [] r E). destruct a; [|simpl in Hmin; lia].
      simpl in Hs. rewrite Hs in E. apply app_inv_head in E. subst r. reflexivity.
    + destruct a as [|d a]; simpl in Hs.
      * assert (H : strip_prefix sep (c :: s) = Some b) by (apply strip_prefix_Some; exact Hs).
        congruence.
      * injection Hs as -> ->.
        rewrite (IH a); [reflexivity|]. split; [reflexivity|].
        intros a' b' H'. specialize (Hmin (d :: a') b'). simpl in Hmin.
        rewrite H' in Hmin. specialize (Hmin eq_refl). lia.
Qed.

Lemma split_first_None sep s : contains sep s = false -> split_first sep s = None.
Proof.
  induction s as [|c s IH]; simpl; intros H; apply orb_false_iff in H as [H1 H2];
    unfold startswith in H1; destruct (strip_prefix sep _); try discriminate.
  - reflexivity.
  - rewrite IH by exact H2. reflexivity.
Qed.

Lemma lstrip_by_decompose p s :
  exists l, s = l ++ lstrip_by p s /\ forallb p l = true.
Proof.
  induction s as [|c s (l & Hl & Hp)]; simpl.
  - exists []. split; reflexivity.
  - destruct (p c) eqn:E.
    + exists (c :: l). simpl. rewrite E, Hp. split; [f_equal; exact Hl | reflexivity].
    + exists []. split; reflexivity.
Qed.

Lemma rstrip_by_decompose p s :
  exists r, s = rstrip_by p s ++ r /\ forallb p r = true.
Proof.
  unfold rstrip_by. destruct (lstrip_by_decompose p (rev s)) as (l & Hl & Hp).
  exists (rev l). split.
  - rewrite <- rev_app_distr, <- Hl, rev_involutive. reflexivity.
  - rewrite forallb_forall in *. intros x Hx. apply Hp, in_rev. exact Hx.
Qed.

Lemma lstrip_by_app p a b :
  lstrip_by p (a ++ b) = if forallb p a then lstrip_by p b else lstrip_by p a ++ b.
Proof.
  induction a as [|c a IH]; simpl; [reflexivity|].
  destruct (p c); simpl; [exact IH | reflexivity].
Qed.

Lemma lstrip_by_head p c s : p c = false -> lstrip_by p (c :: s) = c :: s.
Proof. intros H. simpl. rewrite H. reflexivity. Qed.

(** A word that starts with a character outside [p] stops the stripping. *)
Lemma lstrip_by_before p a c m :
  p c = false -> lstrip_by p (a ++ c :: m) = lstrip_by p a ++ c :: m.
Proof.
  intros H. rewrite lstrip_by_app. destruct (forallb p a) eqn:E.
  - rewrite lstrip_by_head by exact H.
    destruct (lstrip_by_decompose p a) as (l & Hl & Hp).
    assert (Hnil : lstrip_by p a = []).
    { clear Hl Hp l. induction a as [|d a IH]; simpl in *; [reflexivity|].
      apply andb_true_iff in E as [E1 E2]. rewrite E1. apply IH, E2. }
    rewrite Hnil. reflexivity.
  - reflexivity.
Qed.

Lemma rstrip_by_after p m c b :
  p c = false -> rstrip_by p (m ++ [c] ++ b) = m ++ [c] ++ rstrip_by p b.
Proof.
  intros H. unfold rstrip_by.
  rewrite !rev_app_distr. simpl. rewrite <- app_assoc. simpl.
  rewrite lstrip_by_before by exact H.
  rewrite rev_app_distr. simpl. rewrite rev_involutive.
  rewrite <- app_assoc. reflexivity.
Qed.

Lemma lstrip_by_idem p s : lstrip_by p (lstrip_by p s) = lstrip_by p s.
Proof.
  induction s as [|c s IH]; simpl; [reflexivity|].
  destruct (p c) eqn:E; [exact IH | simpl; rewrite E; reflexivity].
Qed.

Lemma rstrip_by_idem p s : rstrip_by p (rstrip_by p s) = rstrip_by p s.
Proof. unfold rstrip_by. rewrite rev_involutive, lstrip_by_idem. reflexivity. Qed.

Lemma lstrip_by_all p s : forallb p s = true -> lstrip_by p s = [].
Proof.
  induction s as [|c s IH]; simpl; [reflexivity|].
  intros H. apply andb_true_iff in H as [H1 H2]. rewrite H1. apply IH, H2.
Qed.

Lemma rstrip_by_cons p c s :
  rstrip_by p (c :: s) =
  if forallb p s then (if p c then [] else [c]) else c :: rstrip_by p s.
Proof.
  unfold rstrip_by. simpl. rewrite lstrip_by_app.
  assert (Hrev : forallb p (rev s) = forallb p s).
  { apply eq_true_iff_eq. rewrite !forallb_forall. split; intros H x Hx; apply H.
    - apply in_rev. rewrite rev_involutive. exact Hx.
    - apply in_rev. exact Hx. }
  rewrite Hrev. destruct (forallb p s).
  - simpl. destruct (p c); reflexivity.
  - rewrite rev_app_distr. reflexivity.
Qed.

Lemma lstrip_rstrip_comm p s :
  lstrip_by p (rstrip_by p s) = rstrip_by p (lstrip_by p s).
Proof.
  induction s as [|c s IH]; [reflexivity|].
  rewrite rstrip_by_cons. simpl. destruct (p c) eqn:E.
  - destruct (forallb p s) eqn:A.
    + rewrite (lstrip_by_all p s A). reflexivity.
    + simpl. rewrite E. exact IH.
  - rewrite rstrip_by_cons. rewrite E.
    destruct (forallb p s); simpl; rewrite E; reflexivity.
Qed.

Lemma strip_by_lstrip p s : strip_by p (lstrip_by p s) = strip_by p s.
Proof. unfold strip_by. rewrite lstrip_by_idem. reflexivity. Qed.

Lemma strip_by_rstrip p s : strip_by p (rstrip_by p s) = strip_by p s.
Proof. unfold strip_by. rewrite lstrip_rstrip_comm, rstrip_by_idem. reflexivity. Qed.

(** Stripping text that holds a word without blanks at its two ends. *)
Lemma strip_by_around p a c m d b :
  p c = false -> p d = false ->
  strip_by p (a ++ (c :: m ++ [d]) ++ b)
  = lstrip_by p a ++ (c :: m ++ [d]) ++ rstrip_by p b.
Proof.
  intros Hc Hd. unfold strip_by. simpl.
  rewrite lstrip_by_before by exact Hc.
  change (lstrip_by p a ++ c :: (m ++ [d]) ++ b)
    with (lstrip_by p a ++ (c :: m ++ [d]) ++ b).
  replace (lstrip_by p a ++ (c :: m ++ [d]) ++ b)
    with ((lstrip_by p a ++ c :: m) ++ [d] ++ b)
    by (simpl; rewrite <- !app_assoc; reflexivity).
  rewrite rstrip_by_after by exact Hd.
  simpl. rewrite <- !app_assoc. reflexivity.
Qed.

(** The stripped text is a piece of the text. *)
Lemma strip_by_decompose p s :
  exists l r, s = l ++ strip_by p s ++ r.
Proof.
  destruct (lstrip_by_decompose p s) as (l & Hl & _).
  destruct (rstrip_by_decompose p (lstrip_by p s)) as (r & Hr & _).
  exists l, r. unfold strip_by. rewrite <- Hr. exact Hl.
Qed.

Lemma contains_strip_by p sep s :
  contains sep (strip_by p s) = true -> contains sep s = true.
Proof.
  rewrite !contains_true. intros (a & b & H).
  destruct (strip_by_decompose p s) as (l & r & Hs).
  exists (l ++ a), (b ++ r). rewrite Hs, H. rewrite <- !app_assoc. reflexivity.
Qed.

End StringFacts.

(* ===================================================================== *)
(** ** Facts about the state and the stages *)
(* ===================================================================== *)

(** The literals of the source stay folded in the proofs. *)
Opaque lit.

Lemma event_set_event tag st : event (set_event tag st) = Some tag.
Proof. unfold event, set_event, set_control. simpl. apply lookup_insert_eq. Qed.

Lemma with_chapters_same st :
  with_chapters (current_chapter_number st) (chapter_summaries st) st = st.
Proof. destruct st. reflexivity. Qed.

(** Unfolding the monad of a stage in the hypotheses and in the goal. *)
Ltac unfold_stage :=
  cbv beta iota zeta delta
    [bind ret raise lift log call try_except get_supabase get_llm llm db_write
     db_select_book storage_upload_ storage_get_public_url
     get_target_chapter_count] in *.

(** Projections of a state through the setters. *)
Ltac state_simpl :=
  cbn [book_id title notes_on_outline_before outline notes_on_outline_after
       status_outline_notes current_chapter_number total_chapters
       chapter_notes_status chapter_notes chapter_summaries
       final_review_notes_status final_review_notes book_output_status control
       set_event set_control with_control with_outline
       with_status_outline_notes with_chapters with_book_output_status
       fst snd] in *.

(** Two different literals of the source. *)
Ltac tag_neq :=
  let H := fresh in intros H; vm_compute in H; discriminate H.

(** Boolean tests of the source as propositions. *)
Ltac bools :=
  repeat match goal with
  | H : negb _ = true |- _ => apply negb_true_iff in H
  | H : negb _ = false |- _ => apply negb_false_iff in H
  | H : _ && _ = true |- _ => apply andb_true_iff in H as [? ?]
  | H : _ || _ = false |- _ => apply orb_false_iff in H as [? ?]
  | H : bool_decide _ = true |- _ => apply bool_decide_eq_true in H
  | H : bool_decide _ = false |- _ => apply bool_decide_eq_false in H
  | H : (_ <? _) = true |- _ => apply Z.ltb_lt in H
  | H : (_ <? _) = false |- _ => apply Z.ltb_ge in H
  | H : (_ <=? _) = true |- _ => apply Z.leb_le in H
  | H : (_ <=? _) = false |- _ => apply Z.leb_gt in H
  end.

(** Running a stage symbolically: every test and every answer of the
    world is split into its cases. *)
Ltac run_stage :=
  unfold_stage; repeat case_match; try discriminate; simplify_eq; bools; state_simpl.

Section StageFacts.

Variable env : Env.

Lemma generate_outline_Ok st h st' h' :
  generate_outline env st h = (Ok st', h') ->
  current_chapter_number st' = current_chapter_number st /\
  ((truthy (notes_on_outline_before st) = false /\
    st' = set_event (lit "missing_notes_on_outline_before") st /\
    h' = ELog LWarning (lit "Missing notes_on_outline_before - cannot generate outline") :: h)
   \/ (truthy (notes_on_outline_before st) = true /\
       event st' = Some (lit "outline_generated") /\
       total_chapters st' = target_chapter_count env)).
Proof.
  unfold generate_outline. intros H. run_stage.
  all: split; [reflexivity|].
  - left. auto.
  - right. split; [assumption|]. split; [apply event_set_event | reflexivity].
Qed.

Lemma router_after_outline_Ok st h st2 label h2 :
  _router_after_outline env st h = (Ok (st2, label), h2) ->
  current_chapter_number st2 = current_chapter_number st /\
  total_chapters st2 = total_chapters st /\
  (label = lit "notify" \/
   (label = lit "generate_next_chapter" /\ event st = Some (lit "outline_generated"))).
Proof.
  unfold _router_after_outline. intros H. run_stage; auto.
Qed.

(** Validating the rows has no effect on the world. *)
Lemma summaries_of_rows_pure rows : forall h, snd (summaries_of_rows rows h) = h.
Proof.
  induction rows as [|r rows IH]; intros h; simpl; [reflexivity|].
  destruct (srow_summary r); [|reflexivity].
  unfold bind. specialize (IH h).
  destruct (summaries_of_rows rows h) as [[css|e] h1]; simpl in *; exact IH.
Qed.

(** The backfill never raises and changes nothing but the summaries. *)
Lemma backfill_summaries_Ok st h :
  exists css h1,
    backfill_summaries env st h
    = (Ok (with_chapters (current_chapter_number st) css st), h1) /\
    (h1 = h \/ h1 = ESelectChapterSummaries (book_id st) (current_chapter_number st) :: h).
Proof.
  unfold backfill_summaries. unfold_stage.
  destruct (bool_decide (chapter_summaries st = []) && (1 <? current_chapter_number st)).
  2: { exists (chapter_summaries st). eexists. rewrite with_chapters_same. eauto. }
  destruct (select_chapter_summaries env h _ _) as [rows|e].
  2: { exists (chapter_summaries st). eexists. rewrite with_chapters_same. eauto. }
  destruct rows as [|r rows].
  { exists (chapter_summaries st). eexists. rewrite with_chapters_same. eauto. }
  match goal with
  | |- context [summaries_of_rows ?l ?hh] =>
      pose proof (summaries_of_rows_pure l hh) as Hp;
      destruct (summaries_of_rows l hh) as [[css|e] h1]
  end; simpl in Hp; subst h1.
  - exists css. eexists. eauto.
  - exists (chapter_summaries st). eexists. rewrite with_chapters_same. eauto.
Qed.

(** The read of the chapter's row never raises: a failure counts as no
    row. *)
Lemma chapter_gate_row_Ok st h :
  chapter_gate_row env st h
  = (Ok match select_chapter_gate env h (book_id st) (current_chapter_number st) with
        | Ok row => row
        | Raise _ => None
        end,
     ESelectChapterGate (book_id st) (current_chapter_number st) :: h).
Proof.
  unfold chapter_gate_row. unfold_stage.
  destruct (select_chapter_gate env h _ _); reflexivity.
Qed.

(** What the generation path leaves behind when it returns. *)
Lemma write_chapter_Ok st notes h st' h' :
  write_chapter env st notes h = (Ok st', h') ->
  exists hl text body smry,
    let n := current_chapter_number st in
    let request := ChapterPrompt (title st) (outline st) n
                     (_build_previous_summaries_text st) (or_empty notes) in
    (exists logs, hl = logs ++ h /\ forallb (fun e => negb (is_write e || is_llm e)) logs = true) /\
    llm_invoke env hl request = Ok text /\
    split_chapter_text text = Ok (body, smry) /\
    st' = set_event (lit "chapter_generated")
            (with_chapters (n + 1)
               (chapter_summaries st ++ [{| chapter_number := n; summary := smry |}]) st) /\
    h' = ELog LInfo (lit "Chapter " ++ str_of_Z n ++ lit " generated and saved ("
                     ++ str_of_Z (Z.of_nat (length body)) ++ lit " chars)")
         :: EWrite (UpsertChapterSummary (summary_payload (book_id st) n smry))
         :: EWrite (UpsertChapter (chapter_payload (book_id st) n body))
         :: ELlm request :: hl.
Proof.
  unfold write_chapter. intros H. run_stage.
  all: match goal with
       | L : llm_invoke env ?hl _ = Ok ?text, S : split_chapter_text ?text = Ok ?p |- _ =>
           destruct p as [body smry]; exists hl, text, body, smry
       end.
  all: state_simpl; split; [|auto].
  - eexists [_; _]. split; reflexivity.
  - eexists [_]. split; reflexivity.
Qed.

Lemma generate_next_chapter_Ok st h st' h' :
  generate_next_chapter env st h = (Ok st', h') ->
  total_chapters st' = total_chapters st /\
  ((event st' = Some (lit "chapter_generated") /\
    current_chapter_number st' = current_chapter_number st + 1 /\
    current_chapter_number st <= total_chapters st)
   \/ (event st' <> Some (lit "chapter_generated") /\
       current_chapter_number st' = current_chapter_number st)).
Proof.
  unfold generate_next_chapter. unfold_stage. intros H.
  destruct (supabase_configured env); [|discriminate].
  destruct (total_chapters st <? current_chapter_number st) eqn:E.
  { simplify_eq. state_simpl. rewrite event_set_event.
    split; [reflexivity|]. right. split; [tag_neq | reflexivity]. }
  apply Z.ltb_ge in E.
  match type of H with
  | context [backfill_summaries env st ?hh] =>
      destruct (backfill_summaries_Ok st hh) as (css & h1 & Hb & _)
  end.
  rewrite Hb in H. rewrite chapter_gate_row_Ok in H. state_simpl.
  repeat case_match; simplify_eq; state_simpl.
  all: first
    [ rewrite event_set_event; split; [reflexivity|]; right; split; [tag_neq | reflexivity]
    | apply write_chapter_Ok in H as (hl & text & body & smry & _ & _ & _ & -> & _);
      state_simpl; rewrite event_set_event; split; [reflexivity|]; left; auto ].
Qed.

Lemma compile_book_Ok st h st' h' :
  compile_book env st h = (Ok st', h') ->
  current_chapter_number st' = current_chapter_number st /\
  total_chapters st' = total_chapters st.
Proof.
  unfold compile_book. intros H. run_stage; auto.
Qed.

Lemma notify_Ok st h st' h' :
  notify env st h = (Ok st', h') -> st' = st.
Proof.
  unfold notify. intros H. run_stage; reflexivity.
Qed.

End StageFacts.

(* ===================================================================== *)
(** ** Facts about the routers and the engine *)
(* ===================================================================== *)

Section EngineFacts.

Variable env : Env.

(** The three answers of the chapter router. *)
Lemma router_after_chapter_cases st :
  _router_after_chapter st = lit "notify"
  \/ (_router_after_chapter st = lit "generate_next_chapter" /\
      event st = Some (lit "chapter_generated") /\
      current_chapter_number st <= total_chapters st)
  \/ _router_after_chapter st = lit "compile_book".
Proof.
  unfold _router_after_chapter.
  repeat case_match; bools; auto.
Qed.

Lemma router_after_compile_cases st :
  _router_after_compile st = lit "notify" \/ _router_after_compile st = END.
Proof. unfold _router_after_compile. repeat case_match; auto. Qed.

(** One node of a run: how its function moves the index and the total. *)
Lemma node_function_index n st h st1 h1 :
  node_function env n st h = (Ok st1, h1) ->
  (if bool_decide (n = generate_next_chapter_node
                   /\ event st1 = Some (lit "chapter_generated"))
   then current_chapter_number st1 = current_chapter_number st + 1
        /\ current_chapter_number st <= total_chapters st
   else current_chapter_number st1 = current_chapter_number st) /\
  (total_chapters st1 = total_chapters st
   \/ (n = generate_outline_node /\ total_chapters st1 = target_chapter_count env)) /\
  (n = generate_outline_node -> event st1 = Some (lit "outline_generated") ->
   total_chapters st1 = target_chapter_count env).
Proof.
  destruct n; cbn [node_function]; intros H.
  - apply generate_outline_Ok in H as (Hi & [(_ & -> & _)|(_ & He & Ht)]).
    + rewrite bool_decide_eq_false_2 by (intros [? _]; discriminate).
      state_simpl. split; [reflexivity|]. split; [left; reflexivity|].
      intros _. rewrite event_set_event. tag_neq.
    + rewrite bool_decide_eq_false_2 by (intros [? _]; discriminate). auto.
  - apply generate_next_chapter_Ok in H as (Ht & [(He & Hi & Hle)|(He & Hi)]).
    + rewrite bool_decide_eq_true_2 by auto. split; [auto|]. split; [auto|]. discriminate.
    + rewrite bool_decide_eq_false_2 by (intros [_ ?]; contradiction).
      split; [auto|]. split; [auto|]. discriminate.
  - apply compile_book_Ok in H as (Hi & Ht).
    rewrite bool_decide_eq_false_2 by (intros [? _]; discriminate).
    split; [auto|]. split; [auto|]. discriminate.
  - apply notify_Ok in H as ->.
    rewrite bool_decide_eq_false_2 by (intros [? _]; discriminate).
    split; [auto|]. split; [auto|]. discriminate.
Qed.

(** The edges, looked up. *)
Lemma edges_of_outline :
  lookup_edge (lit "notify") (edge_map generate_outline_node) = Some (Some notify_node) /\
  lookup_edge (lit "generate_next_chapter") (edge_map generate_outline_node)
  = Some (Some generate_next_chapter_node).
Proof. split; vm_compute; reflexivity. Qed.

Lemma edges_of_chapter :
  lookup_edge (lit "notify") (edge_map generate_next_chapter_node) = Some (Some notify_node) /\
  lookup_edge (lit "generate_next_chapter") (edge_map generate_next_chapter_node)
  = Some (Some generate_next_chapter_node) /\
  lookup_edge (lit "compile_book") (edge_map generate_next_chapter_node)
  = Some (Some compile_book_node).
Proof. repeat split; vm_compute; reflexivity. Qed.

Lemma edges_of_compile :
  lookup_edge (lit "notify") (edge_map compile_book_node) = Some (Some notify_node) /\
  lookup_edge END (edge_map compile_book_node) = Some None.
Proof. split; vm_compute; reflexivity. Qed.

Lemma next_node_Ok n st1 h1 st2 n' h2 :
  next_node env n st1 h1 = (Ok (st2, Some n'), h2) ->
  current_chapter_number st2 = current_chapter_number st1 /\
  total_chapters st2 = total_chapters st1 /\
  edge_allowed n n' st1.
Proof.
  unfold next_node. destruct n; cbn [router]; unfold_stage.
  - destruct (_router_after_outline env st1 h1) as [[[st label]|e] hr] eqn:E; [|discriminate].
    cbn [fst snd].
    apply router_after_outline_Ok in E as (Hi & Ht & [->|[-> He]]).
    + rewrite (proj1 edges_of_outline). intros [= -> <- _]. simpl. auto.
    + rewrite (proj2 edges_of_outline). intros [= -> <- _]. simpl. auto.
  - cbn [fst snd].
    destruct (router_after_chapter_cases st1) as [->|[(-> & He & Hle)| ->]].
    + rewrite (proj1 edges_of_chapter). intros [= -> <- _]. simpl. auto.
    + rewrite (proj1 (proj2 edges_of_chapter)). intros [= -> <- _]. simpl. auto.
    + rewrite (proj2 (proj2 edges_of_chapter)). intros [= -> <- _]. simpl. auto.
  - cbn [fst snd].
    destruct (router_after_compile_cases st1) as [->| ->].
    + rewrite (proj1 edges_of_compile). intros [= -> <- _]. simpl. auto.
    + rewrite (proj2 edges_of_compile). discriminate.
  - discriminate.
Qed.

(** One turn of the engine, for a node that returns. *)
Lemma invoke_from_S fuel n st h st1 h1 :
  node_function env n st h = (Ok st1, h1) ->
  invoke_from env (S fuel) n st h =
  let v := {| visit_node := n; visit_in := st; visit_out := Ok st1 |} in
  match next_node env n st1 h1 with
  | (Raise e, h2) => (Failed e, [v], h2)
  | (Ok (st2, None), h2) => (Finished st2, [v], h2)
  | (Ok (st2, Some n'), h2) =>
      match invoke_from env fuel n' st2 h2 with
      | (out, trace, h3) => (out, v :: trace, h3)
      end
  end.
Proof. intros H. simpl. rewrite H. reflexivity. Qed.

Lemma invoke_from_raise fuel n st h e h1 :
  node_function env n st h = (Raise e, h1) ->
  invoke_from env (S fuel) n st h =
  (Failed e, [{| visit_node := n; visit_in := st; visit_out := Raise e |}], h1).
Proof. intros H. simpl. rewrite H. reflexivity. Qed.

(** The index along every run, whatever the fuel. *)
Lemma invoke_from_index fuel : forall n st h,
  let '(_, trace, _) := invoke_from env fuel n st h in
  starts_at n st trace /\
  index_discipline (current_chapter_number st) trace /\
  loop_increases trace /\
  (within_total st ->
   (n = generate_outline_node -> current_chapter_number st <= target_chapter_count env + 1) ->
   trace_within_total trace).
Proof.
  induction fuel as [|fuel IH]; intros n st h.
  { simpl. repeat split; auto. intros _ _. constructor. }
  destruct (node_function env n st h) as [[st1|e] h1] eqn:Hn.
  2: { rewrite (invoke_from_raise _ _ _ _ _ _ Hn). simpl.
       repeat split; auto. intros Hw _. constructor; [|constructor]. simpl. auto. }
  rewrite (invoke_from_S _ _ _ _ _ _ Hn). cbv zeta.
  pose proof (node_function_index _ _ _ _ _ Hn) as (Hstep & Htot & Hout).
  assert (Hv1 : within_total st ->
                (n = generate_outline_node ->
                 current_chapter_number st <= target_chapter_count env + 1) ->
                within_total st1).
  { unfold within_total. intros Hw Ho. case_bool_decide as Hc.
    - destruct Hstep as [Hi Hle], Htot as [Ht|[-> Ht]]; [lia|]. destruct Hc; discriminate.
    - destruct Htot as [Ht|[-> Ht]]; [lia|]. specialize (Ho eq_refl). lia. }
  assert (Hsingle :
    starts_at n st [{| visit_node := n; visit_in := st; visit_out := Ok st1 |}] /\
    index_discipline (current_chapter_number st)
      [{| visit_node := n; visit_in := st; visit_out := Ok st1 |}] /\
    loop_increases [{| visit_node := n; visit_in := st; visit_out := Ok st1 |}] /\
    (within_total st ->
     (n = generate_outline_node -> current_chapter_number st <= target_chapter_count env + 1) ->
     trace_within_total [{| visit_node := n; visit_in := st; visit_out := Ok st1 |}])).
  { simpl. split; [auto|]. split.
    - split; [reflexivity|]. split; [|exact I].
      case_bool_decide; [destruct Hstep; assumption | assumption].
    - split; [auto|]. intros Hw Ho. constructor; [|constructor]. simpl. auto. }
  destruct (next_node env n st1 h1) as [[[st2 [n'|]]|e] h2] eqn:Hr; try exact Hsingle.
  apply next_node_Ok in Hr as (Hi2 & Ht2 & Hedge).
  specialize (IH n' st2 h2).
  destruct (invoke_from env fuel n' st2 h2) as [[out trace] h3].
  destruct IH as (Hstart & Hidx & Hloop & Hwithin).
  split; [simpl; auto|]. split; [|split].
  - simpl. split; [reflexivity|]. split.
    + case_bool_decide; [destruct Hstep; assumption | assumption].
    + rewrite <- Hi2. exact Hidx.
  - simpl. split; [|exact Hloop].
    destruct trace as [|v2 rest]; [exact I|].
    destruct Hstart as [Hn2 Hin2]. simpl. intros -> Hc. rewrite Hn2 in Hc.
    rewrite Hc in Hedge. rewrite Hin2, Hi2. simpl in Hedge. destruct Hedge as [He _].
    rewrite bool_decide_eq_true_2 in Hstep by auto. destruct Hstep; assumption.
  - intros Hw Ho. constructor; [simpl; auto|].
    apply Hwithin.
    + unfold within_total in *. rewrite Hi2, Ht2. apply Hv1; assumption.
    + intros ->. destruct n; simpl in Hedge; contradiction.
Qed.

(** The nodes of every run ran one after the other. *)
Lemma invoke_from_sequential fuel : forall n st h,
  let '(_, trace, _) := invoke_from env fuel n st h in sequential env trace.
Proof.
  induction fuel as [|fuel IH]; intros n st h; [exact I|].
  destruct (node_function env n st h) as [[st1|e] h1] eqn:Hn.
  2: { rewrite (invoke_from_raise _ _ _ _ _ _ Hn). simpl. auto. }
  rewrite (invoke_from_S _ _ _ _ _ _ Hn). cbv zeta.
  destruct (next_node env n st1 h1) as [[[st2 [n'|]]|e] h2] eqn:Hr; try (simpl; auto; fail).
  specialize (IH n' st2 h2).
  pose proof (invoke_from_index fuel n' st2 h2) as Hidx.
  destruct (invoke_from env fuel n' st2 h2) as [[out trace] h3].
  destruct Hidx as (Hstart & _).
  simpl. split; [|exact IH].
  destruct trace as [|v2 rest]; [exact I|].
  destruct Hstart as [-> ->]. exists st1, h1, h2. split; [reflexivity | exact Hr].
Qed.

Lemma chapters_left_step total index :
  index + 1 <= total ->
  (1 <= chapters_left total (index + 1))%nat /\
  (chapters_left total (index + 1) < chapters_left total index)%nat.
Proof. unfold chapters_left. lia. Qed.

(** A run within its budget comes to an end. *)
Lemma invoke_from_terminates fuel : forall n st h,
  (budget (target_chapter_count env) n st <= fuel)%nat ->
  let '(out, trace, _) := invoke_from env fuel n st h in
  out <> OutOfFuel /\
  (length trace <= budget (target_chapter_count env) n st)%nat.
Proof.
  induction fuel as [|fuel IH]; intros n st h Hb.
  { destruct n; simpl in Hb; lia. }
  destruct (node_function env n st h) as [[st1|e] h1] eqn:Hn.
  2: { rewrite (invoke_from_raise _ _ _ _ _ _ Hn). split; [discriminate|].
       destruct n; simpl; lia. }
  rewrite (invoke_from_S _ _ _ _ _ _ Hn). cbv zeta.
  pose proof (node_function_index _ _ _ _ _ Hn) as (Hstep & Htot & Hout).
  destruct (next_node env n st1 h1) as [[[st2 [n'|]]|e] h2] eqn:Hr.
  2-3: split; [discriminate | destruct n; simpl; lia].
  apply next_node_Ok in Hr as (Hi2 & Ht2 & Hedge).
  assert (Hless : (budget (target_chapter_count env) n' st2
                   < budget (target_chapter_count env) n st)%nat).
  { destruct n, n'; simpl in Hedge; try contradiction; simpl; try lia.
    - rewrite bool_decide_eq_false_2 in Hstep by (intros [? _]; discriminate).
      rewrite Hi2, Ht2, Hstep, (Hout eq_refl Hedge). lia.
    - destruct Hedge as [He Hle].
      rewrite bool_decide_eq_true_2 in Hstep by auto. destruct Hstep as [Hi Hle0].
      destruct Htot as [Ht|[? _]]; [|discriminate].
      rewrite Hi2, Ht2, Hi, Ht.
      destruct (chapters_left_step (total_chapters st) (current_chapter_number st)); lia. }
  specialize (IH n' st2 h2 ltac:(lia)).
  destruct (invoke_from env fuel n' st2 h2) as [[out trace] h3].
  destruct IH as [Hout' Hlen]. split; [exact Hout'|]. simpl. lia.
Qed.

End EngineFacts.

(* ===================================================================== *)
(** ** The chapter text and its summary *)
(* ===================================================================== *)

Lemma split_first_sound sep s : forall a b,
  split_first sep s = Some (a, b) -> first_occurrence sep s a b.
Proof.
  induction s as [|c s IH]; intros a b; simpl.
  - destruct (strip_prefix sep []) as [r|] eqn:E; [|discriminate].
    intros [= <- <-]. apply strip_prefix_Some in E. split; [exact E | intros; simpl; lia].
  - destruct (strip_prefix sep (c :: s)) as [r|] eqn:E.
    + intros [= <- <-]. apply strip_prefix_Some in E. split; [exact E | intros; simpl; lia].
    + destruct (split_first sep s) as [[a0 b0]|] eqn:E0; [|discriminate].
      intros [= <- <-]. destruct (IH a0 b0 eq_refl) as [Hs Hmin]. split.
      * simpl. rewrite <- Hs. reflexivity.
      * intros a' b' H'. destruct a' as [|d a']; simpl in H'.
        -- assert (strip_prefix sep (c :: s) = Some b') by (apply strip_prefix_Some; exact H').
           congruence.
        -- injection H' as -> H'. specialize (Hmin a' b' H'). simpl. lia.
Qed.

Lemma summary_marker_ends :
  exists c m d, summary_marker = c :: m ++ [d] /\ isspace c = false /\ isspace d = false.
Proof.
  exists 83%N, (lit "ummary"), 58%N. repeat split; vm_compute; reflexivity.
Qed.

(** Stripping keeps the first marker the first. *)
Lemma first_occurrence_strip content a b :
  first_occurrence summary_marker content a b ->
  strip content = lstrip a ++ summary_marker ++ rstrip b /\
  first_occurrence summary_marker (strip content) (lstrip a) (rstrip b).
Proof.
  intros [Hc Hmin].
  destruct summary_marker_ends as (c & m & d & Hm & Hcs & Hds).
  assert (Hs : strip content = lstrip a ++ summary_marker ++ rstrip b).
  { rewrite Hc, Hm. apply strip_by_around; assumption. }
  split; [exact Hs|]. split; [exact Hs|].
  intros a' b' H'.
  destruct (lstrip_by_decompose isspace a) as (l & Hl & _).
  destruct (rstrip_by_decompose isspace b) as (r & Hr & _).
  fold (lstrip a) in Hl. fold (rstrip b) in Hr.
  assert (Hlen : (length a <= length (l ++ a'))%nat).
  { apply (Hmin (l ++ a') (b' ++ r)).
    rewrite Hc. rewrite Hl at 1. rewrite Hr at 1.
    rewrite <- !app_assoc. f_equal.
    transitivity ((lstrip a ++ summary_marker ++ rstrip b) ++ r);
      [rewrite <- !app_assoc; reflexivity|].
    rewrite <- Hs, H'. rewrite <- !app_assoc. reflexivity. }
  rewrite Hl in Hlen at 1. rewrite !length_app in Hlen. lia.
Qed.

Lemma split_chapter_text_marker content a b :
  first_occurrence summary_marker content a b ->
  split_chapter_text content = Ok (strip a, strip b).
Proof.
  intros H. apply first_occurrence_strip in H as [Hs Hfo].
  unfold split_chapter_text. cbv zeta.
  assert (Hin : contains summary_marker (strip content) = true).
  { apply contains_true. exists (lstrip a), (rstrip b). exact Hs. }
  rewrite Hin. unfold split1. rewrite (split_first_leftmost _ _ _ _ Hfo).
  unfold strip, lstrip, rstrip. rewrite strip_by_lstrip, strip_by_rstrip. reflexivity.
Qed.

Lemma split_chapter_text_no_marker content :
  contains summary_marker content = false ->
  split_chapter_text content = Ok (strip content, summary_placeholder).
Proof.
  intros H. unfold split_chapter_text. cbv zeta.
  destruct (contains summary_marker (strip content)) eqn:E; [|reflexivity].
  apply contains_strip_by in E. congruence.
Qed.

(** The marker is found, or it is not: the split never fails. *)
Lemma split_chapter_text_total content :
  exists body smry, split_chapter_text content = Ok (body, smry).
Proof.
  destruct (contains summary_marker content) eqn:E.
  - destruct (split_first summary_marker content) as [[a b]|] eqn:Es.
    + apply split_first_sound in Es. eauto using split_chapter_text_marker.
    + assert (contains summary_marker content = false); [|congruence].
      clear E. induction content as [|c s IH]; simpl in *.
      * unfold startswith. destruct (strip_prefix summary_marker []); [discriminate|reflexivity].
      * unfold startswith. destruct (strip_prefix summary_marker (c :: s)); [discriminate|].
        destruct (split_first summary_marker s) as [[? ?]|]; [discriminate|].
        rewrite IH by reflexivity. reflexivity.
  - eauto using split_chapter_text_no_marker.
Qed.

Section ChapterStored.

Variable env : Env.


End ChapterStored.



(* ===================================================================== *)
(** ** The chapter router *)
(* ===================================================================== *)

(** C6. The chapter router, for every state: the events
    [waiting_for_chapter_notes] and [paused_for_chapter_notes_status] go
    to notification; [chapter_generated] goes back to the chapter stage
    when the index is at most the total and to the compile stage
    otherwise; [all_chapters_done] goes to the compile stage; every other
    event, and no event at all, goes to notification. *)
Theorem chapter_router_table (st : BookState) :
  let next := lookup_edge (_router_after_chapter st) (edge_map generate_next_chapter_node) in
  (event st = Some (lit "waiting_for_chapter_notes")
   \/ event st = Some (lit "paused_for_chapter_notes_status") ->
   next = Some (Some notify_node)) /\
  (event st = Some (lit "chapter_generated") ->
   current_chapter_number st <= total_chapters st ->
   next = Some (Some generate_next_chapter_node)) /\
  (event st = Some (lit "chapter_generated") ->
   total_chapters st < current_chapter_number st ->
   next = Some (Some compile_book_node)) /\
  (event st = Some (lit "all_chapters_done") ->
   next = Some (Some compile_book_node)) /\
  (event st <> Some (lit "waiting_for_chapter_notes") ->
   event st <> Some (lit "paused_for_chapter_notes_status") ->
   event st <> Some (lit "chapter_generated") ->
   event st <> Some (lit "all_chapters_done") ->
   next = Some (Some notify_node)).
Proof.
  cbv zeta. unfold _router_after_chapter.
  destruct edges_of_chapter as (En & Eg & Ec).
  repeat split.
  - intros [H|H]; rewrite H.
    + rewrite bool_decide_eq_true_2 by reflexivity. exact En.
    + rewrite (bool_decide_eq_false_2 (_ = Some (lit "waiting_for_chapter_notes")))
        by tag_neq.
      rewrite bool_decide_eq_true_2 by reflexivity. exact En.
  - intros H Hle. rewrite H.
    rewrite !(bool_decide_eq_false_2 (Some (lit "chapter_generated") = Some (lit "waiting_for_chapter_notes"))) by tag_neq.
    rewrite !(bool_decide_eq_false_2 (Some (lit "chapter_generated") = Some (lit "paused_for_chapter_notes_status"))) by tag_neq.
    rewrite bool_decide_eq_true_2 by reflexivity. cbn [orb].
    rewrite (proj2 (Z.leb_le _ _) Hle). exact Eg.
  - intros H Hlt. rewrite H.
    rewrite !(bool_decide_eq_false_2 (Some (lit "chapter_generated") = Some (lit "waiting_for_chapter_notes"))) by tag_neq.
    rewrite !(bool_decide_eq_false_2 (Some (lit "chapter_generated") = Some (lit "paused_for_chapter_notes_status"))) by tag_neq.
    rewrite bool_decide_eq_true_2 by reflexivity. cbn [orb].
    rewrite (proj2 (Z.leb_gt _ _) Hlt). exact Ec.
  - intros H. rewrite H.
    rewrite !(bool_decide_eq_false_2 (Some (lit "all_chapters_done") = Some (lit "waiting_for_chapter_notes"))) by tag_neq.
    rewrite !(bool_decide_eq_false_2 (Some (lit "all_chapters_done") = Some (lit "paused_for_chapter_notes_status"))) by tag_neq.
    rewrite !(bool_decide_eq_false_2 (Some (lit "all_chapters_done") = Some (lit "chapter_generated"))) by tag_neq.
    rewrite bool_decide_eq_true_2 by reflexivity. exact Ec.
  - intros H1 H2 H3 H4.
    rewrite !bool_decide_eq_false_2 by assumption. exact En.
Qed.

(** One state for each row of the table; the third is the fourth
    scenario, index 4 of 3 after [chapter_generated]. *)
Lemma chapter_router_table_witness :
  let next st :=
    lookup_edge (_router_after_chapter st) (edge_map generate_next_chapter_node) in
  let at_index tag total index :=
    set_event tag (Worlds.fresh (Some (lit "notes")) total index) in
  next (at_index (lit "waiting_for_chapter_notes") 3 2) = Some (Some notify_node) /\
  next (at_index (lit "chapter_generated") 3 3) = Some (Some generate_next_chapter_node) /\
  next (at_index (lit "chapter_generated") 3 4) = Some (Some compile_book_node) /\
  next (at_index (lit "all_chapters_done") 3 4) = Some (Some compile_book_node) /\
  next (Worlds.fresh (Some (lit "notes")) 3 1) = Some (Some notify_node).
Proof.
  intros next at_index. unfold next, at_index.
  split; [|split; [|split; [|split]]].
  - apply (proj1 (chapter_router_table _)). left. vm_compute. reflexivity.
  - apply (proj1 (proj2 (chapter_router_table _))); vm_compute; [reflexivity | discriminate].
  - apply (proj1 (proj2 (proj2 (chapter_router_table _)))); vm_compute; reflexivity.
  - apply (proj1 (proj2 (proj2 (proj2 (chapter_router_table _))))). vm_compute. reflexivity.
  - apply (proj2 (proj2 (proj2 (proj2 (chapter_router_table _))))); vm_compute; discriminate.
Defined.

(* ===================================================================== *)
(** ** Runs of the engine *)
(* ===================================================================== *)

Section Runs.

Variable env : Env.

Lemma load_initial_state_Ok id h st h1 :
  load_initial_state env id h = (Ok st, h1) ->
  current_chapter_number st = 1 /\ total_chapters st = 0.
Proof.
  unfold load_initial_state. intros H. run_stage. split; reflexivity.
Qed.

(** The notification stage is the last node of a run. *)
Lemma invoke_from_notify fuel st h :
  exists out v h',
    invoke_from env (S fuel) notify_node st h = (out, [v], h') /\
    visit_node v = notify_node /\ out <> OutOfFuel.
Proof.
  destruct (node_function env notify_node st h) as [[st1|e] h1] eqn:Hn.
  - rewrite (invoke_from_S env fuel notify_node st h _ _ Hn). cbv zeta.
    unfold next_node. cbn [router]. unfold ret.
    eexists _, _, _. split; [reflexivity|]. split; [reflexivity | discriminate].
  - rewrite (invoke_from_raise env fuel notify_node st h _ _ Hn).
    eexists _, _, _. split; [reflexivity|]. split; [reflexivity | discriminate].
Qed.

(** The outline stage without notes: the event, and nothing else. *)
Lemma generate_outline_missing st h :
  supabase_configured env = true ->
  truthy (notes_on_outline_before st) = false ->
  generate_outline env st h
  = (Ok (set_event (lit "missing_notes_on_outline_before") st),
     ELog LWarning (lit "Missing notes_on_outline_before - cannot generate outline") :: h).
Proof.
  intros Hs Hn. unfold generate_outline. unfold_stage. rewrite Hs, Hn. reflexivity.
Qed.

Lemma next_node_missing st h :
  event st = Some (lit "missing_notes_on_outline_before") ->
  next_node env generate_outline_node st h = (Ok (st, Some notify_node), h).
Proof.
  intros He. unfold next_node. cbn [router]. unfold _router_after_outline. unfold_stage.
  rewrite bool_decide_eq_true_2 by exact He. cbn [fst snd].
  rewrite (proj1 edges_of_outline). reflexivity.
Qed.

End Runs.

(** C7. When the outline-request notes are empty or absent, the outline
    stage emits [missing_notes_on_outline_before] and does nothing else
    than log a warning: no call of the language model, no write to the
    datastore.  The outline router then names the notification stage,
    without reading the datastore, and the run goes from the outline
    stage straight to notification. *)
Theorem missing_notes_go_to_notification (env : Env) (st : BookState) (h : History) :
  supabase_configured env = true ->
  notes_on_outline_before st = None \/ notes_on_outline_before st = Some [] ->
  let warning :=
    ELog LWarning (lit "Missing notes_on_outline_before - cannot generate outline") in
  let st1 := set_event (lit "missing_notes_on_outline_before") st in
  generate_outline env st h = (Ok st1, warning :: h) /\
  existsb (fun e => is_llm e || is_write e) [warning] = false /\
  _router_after_outline env st1 (warning :: h)
  = (Ok (set_control (lit "route_reason") (lit "outline_missing_notes_before") st1,
         lit "notify"), warning :: h) /\
  lookup_edge (lit "notify") (edge_map generate_outline_node) = Some (Some notify_node) /\
  forall fuel,
    map visit_node (snd (fst (invoke env (S (S fuel)) st h)))
    = [generate_outline_node; notify_node].
Proof.
  intros Hs Hn. cbv zeta.
  assert (Ht : truthy (notes_on_outline_before st) = false)
    by (destruct Hn as [-> | ->]; reflexivity).
  pose proof (generate_outline_missing env st h Hs Ht) as Hg.
  split; [exact Hg|]. split; [reflexivity|]. split; [|split].
  - unfold _router_after_outline. unfold_stage.
    rewrite bool_decide_eq_true_2 by apply event_set_event. reflexivity.
  - exact (proj1 edges_of_outline).
  - intros fuel. unfold invoke, entry_point.
    rewrite (invoke_from_S env (S fuel) generate_outline_node st h _ _ Hg). cbv zeta.
    rewrite next_node_missing by apply event_set_event.
    match goal with
    | |- context [invoke_from env (S fuel) notify_node ?s ?hh] =>
        destruct (invoke_from_notify env fuel s hh) as (out & v & h' & -> & Hv & _)
    end.
    simpl. rewrite Hv. reflexivity.
Qed.

(** The second scenario: a book whose notes are the empty string. *)
Lemma missing_notes_go_to_notification_witness :
  let env := Worlds.scenario1 in
  let st := Worlds.fresh (Some []) 0 1 in
  fst (generate_outline env st [])
  = Ok (set_event (lit "missing_notes_on_outline_before") st) /\
  map visit_node (snd (fst (invoke env 2 st [])))
  = [generate_outline_node; notify_node].
Proof.
  intros env st.
  destruct (missing_notes_go_to_notification env st [] eq_refl (or_intror eq_refl))
    as (H1 & _ & _ & _ & H5).
  split.
  - rewrite H1. reflexivity.
  - exact (H5 O).
Defined.

(** C2. Every run of the workflow comes to an end, given that every call
    to the outside returns: started from a loaded book, with fuel for the
    chapter count plus four nodes (and from any state, with fuel for its
    budget) the engine never runs out of fuel, it enters at most that many
    nodes in all (so no stage is entered more often than the chapter
    count plus four), one after the other (each node is entered when the
    one before has returned, with the state the engine hands on), and each
    pass through the chapter to chapter edge finds the chapter index one
    higher than the pass before. *)
Theorem workflow_terminates (env : Env) :
  (forall (id : str) (h : History) (extra : nat),
     let bound := (Z.to_nat (target_chapter_count env) + 4)%nat in
     let '(out, trace, _) := run_book_flow env (bound + extra) id h in
     out <> OutOfFuel /\
     (length trace <= bound)%nat /\
     (forall n, visits n trace <= bound)%nat /\
     sequential env trace /\
     loop_increases trace) /\
  (forall (st : BookState) (h : History) (extra : nat),
     let bound := budget (target_chapter_count env) entry_point st in
     let '(out, trace, _) := invoke env (bound + extra) st h in
     out <> OutOfFuel /\
     (length trace <= bound)%nat /\
     sequential env trace /\
     loop_increases trace).
Proof.
  assert (Hany : forall st h extra,
            let bound := budget (target_chapter_count env) entry_point st in
            let '(out, trace, _) := invoke env (bound + extra) st h in
            out <> OutOfFuel /\ (length trace <= bound)%nat /\
            sequential env trace /\ loop_increases trace).
  { intros st h extra. cbv zeta. unfold invoke.
    pose proof (invoke_from_terminates env
                  (budget (target_chapter_count env) entry_point st + extra)
                  entry_point st h ltac:(lia)) as Hterm.
    pose proof (invoke_from_index env
                  (budget (target_chapter_count env) entry_point st + extra)
                  entry_point st h) as Hidx.
    pose proof (invoke_from_sequential env
                  (budget (target_chapter_count env) entry_point st + extra)
                  entry_point st h) as Hseq.
    destruct (invoke_from env _ entry_point st h) as [[out trace] h2].
    destruct Hterm as [Hout Hlen], Hidx as (_ & _ & Hloop & _). auto. }
  split; [|exact Hany].
  intros id h extra. cbv zeta. unfold run_book_flow.
  destruct (load_initial_state env id h) as [[st|e] h1] eqn:Hl.
  2: { split; [discriminate|]. split; [simpl; lia|]. split; [|split; exact I].
       intros n. unfold visits. simpl. lia. }
  apply load_initial_state_Ok in Hl as [Hi Ht].
  assert (Hb : (budget (target_chapter_count env) entry_point st
                <= Z.to_nat (target_chapter_count env) + 4)%nat).
  { simpl. unfold chapters_left. rewrite Hi. lia. }
  specialize (Hany st h1
                (Z.to_nat (target_chapter_count env) + 4 + extra
                 - budget (target_chapter_count env) entry_point st)%nat).
  cbv zeta in Hany.
  replace (budget (target_chapter_count env) entry_point st
           + (Z.to_nat (target_chapter_count env) + 4 + extra
              - budget (target_chapter_count env) entry_point st))%nat
    with (Z.to_nat (target_chapter_count env) + 4 + extra)%nat in Hany by lia.
  destruct (invoke env _ st h1) as [[out trace] h2].
  destruct Hany as (Hout & Hlen & Hseq & Hloop).
  split; [exact Hout|]. split; [lia|]. split; [|split; [exact Hseq | exact Hloop]].
  intros n. unfold visits.
  pose proof (length_filter (fun v => visit_node v = n) trace). lia.
Qed.

(** Along a trace that keeps the discipline the index never decreases. *)
Lemma index_discipline_sorted trace : forall i,
  index_discipline i trace -> Sorted Z.le (i :: index_history trace).
Proof.
  induction trace as [|v rest IH]; intros i H; simpl.
  - repeat constructor.
  - simpl in H. destruct H as [Hin Hout]. rewrite Hin.
    destruct (visit_out v) as [st'|e].
    + destruct Hout as [Hstep Hrest]. specialize (IH _ Hrest).
      constructor; [|constructor; lia].
      constructor; [exact IH|]. constructor.
      case_bool_decide; lia.
    + subst rest. simpl. repeat constructor. lia.
Qed.

(** C4 as stated, at an input where it fails.  The configured chapter
    count may be any integer; with a count of -1 the outline stage
    returns with the index at 1 and the total at -1, so the index exceeds
    the total plus one. *)
Lemma chapter_index_exceeds_negative_total :
  target_chapter_count Worlds.negative_count = -1 /\
  match snd (fst (run_book_flow Worlds.negative_count 10 (lit "b1") [])) with
  | v :: _ =>
      visit_node v = generate_outline_node /\
      match visit_out v with
      | Ok st' =>
          current_chapter_number st' = 1 /\
          total_chapters st' = -1 /\
          total_chapters st' + 1 < current_chapter_number st'
      | Raise _ => False
      end
  | [] => False
  end.
Proof. vm_compute. repeat split; reflexivity. Qed.

(** C4, amended.  Along every run the chapter index starts at 1, goes
    up by exactly one in each visit of the chapter stage that ends with
    [chapter_generated] and stays as it is in every other visit, so it
    never decreases; with a chapter count that is not negative it never
    exceeds the total plus one; and once the index exceeds the total the
    chapter stage emits [all_chapters_done] and leaves the index alone. *)
Theorem chapter_index_discipline (env : Env) :
  (forall id fuel h,
     let '(_, trace, _) := run_book_flow env fuel id h in
     index_discipline 1 trace /\ Sorted Z.le (1 :: index_history trace)) /\
  (0 <= target_chapter_count env ->
   forall id fuel h,
     let '(_, trace, _) := run_book_flow env fuel id h in
     trace_within_total trace) /\
  (supabase_configured env = true ->
   forall st h,
     total_chapters st < current_chapter_number st ->
     exists entry,
       generate_next_chapter env st h
       = (Ok (set_event (lit "all_chapters_done") st), entry :: h) /\
       current_chapter_number (set_event (lit "all_chapters_done") st)
       = current_chapter_number st).
Proof.
  split; [|split].
  - intros id fuel h. unfold run_book_flow.
    destruct (load_initial_state env id h) as [[st|e] h1] eqn:Hl.
    2: { simpl. split; [exact I | repeat constructor]. }
    apply load_initial_state_Ok in Hl as [Hi Ht].
    pose proof (invoke_from_index env fuel generate_outline_node st h1) as Hidx.
    unfold invoke, entry_point.
    destruct (invoke_from env fuel generate_outline_node st h1) as [[out trace] h2].
    destruct Hidx as (_ & Hd & _ & _). rewrite Hi in Hd.
    split; [exact Hd | apply index_discipline_sorted, Hd].
  - intros Htarget id fuel h. unfold run_book_flow.
    destruct (load_initial_state env id h) as [[st|e] h1] eqn:Hl.
    2: { constructor. }
    apply load_initial_state_Ok in Hl as [Hi Ht].
    pose proof (invoke_from_index env fuel generate_outline_node st h1) as Hidx.
    unfold invoke, entry_point.
    destruct (invoke_from env fuel generate_outline_node st h1) as [[out trace] h2].
    destruct Hidx as (_ & _ & _ & Hw). apply Hw.
    + unfold within_total. lia.
    + intros _. lia.
  - intros Hs st h Hlt. eexists. split; [|reflexivity].
    unfold generate_next_chapter. unfold_stage. rewrite Hs.
    rewrite (proj2 (Z.ltb_lt _ _) Hlt). reflexivity.
Qed.

(** The first scenario, and a state past its last chapter. *)
Lemma chapter_index_discipline_witness :
  trace_within_total (snd (fst (run_book_flow Worlds.scenario1 10 (lit "b1") []))) /\
  exists entry,
    generate_next_chapter Worlds.scenario1 (Worlds.fresh (Some (lit "notes")) 2 3) []
    = (Ok (set_event (lit "all_chapters_done") (Worlds.fresh (Some (lit "notes")) 2 3)),
       [entry]).
Proof.
  destruct (chapter_index_discipline Worlds.scenario1) as (_ & H2 & H3).
  split.
  - specialize (H2 ltac:(vm_compute; discriminate) (lit "b1") 10%nat []).
    destruct (run_book_flow Worlds.scenario1 10 (lit "b1") []) as [[out trace] h2].
    exact H2.
  - destruct (H3 eq_refl (Worlds.fresh (Some (lit "notes")) 2 3) [])
      as (entry & H & _); [vm_compute; reflexivity|].
    exists entry. exact H.
Defined.

(* ===================================================================== *)
(** ** The compile stage *)
(* ===================================================================== *)

(** [l] is what the history held before: the effects since are in front. *)
Ltac solve_suffix :=
  first [ reflexivity
        | apply suffix_cons_r; solve_suffix
        | apply suffix_app_r; solve_suffix ].

Section CompileFacts.

Variable env : Env.

(** Assembling the story only constructs paragraphs. *)
Lemma for_each_make_flowable story : forall h,
  exists k,
    snd (for_each (make_flowable env) story h) = k ++ h /\
    forallb (fun e => negb (is_write e || is_upload e)) k = true.
Proof.
  induction story as [|f story IH]; intros h; simpl.
  - exists []. split; reflexivity.
  - unfold bind. destruct f as [text style|w t]; simpl.
    + unfold call. destruct (pdf_paragraph env h text style) as [[]|e]; simpl.
      * destruct (IH (EPdfParagraph text style :: h)) as (k & Hk & Hf).
        exists (k ++ [EPdfParagraph text style]). rewrite Hk, <- app_assoc.
        split; [reflexivity|]. rewrite forallb_app, Hf. reflexivity.
      * exists [EPdfParagraph text style]. split; reflexivity.
    + unfold ret. apply IH.
Qed.

(** The try block of the PDF: whatever building, uploading or asking for
    the URL raises is caught and logged as a warning, and the block
    returns normally without a write to the datastore. *)
Lemma pdf_build_and_upload_never_raises st story h :
  exists k,
    pdf_build_and_upload env st story h = (Ok tt, k ++ h) /\
    forallb (fun e => negb (is_write e)) k = true /\
    ((exists url, head k = Some (ELog LInfo (lit "PDF upload complete: " ++ url)))
     \/ (exists e, head k = Some (ELog LWarning (lit "PDF generation failed: " ++ exc_msg e
                                             ++ lit " - continuing without PDF")))).
Proof.
  unfold pdf_build_and_upload. unfold_stage.
  repeat case_match; simplify_eq.
  all: match goal with
       | |- exists k, (_, ?l) = (_, k ++ ?h0) /\ _ =>
           let rec go l acc :=
             tryif constr_eq l h0 then exists (rev acc)
             else lazymatch l with
                  | ?x :: ?l' => go l' (x :: acc)
                  end in go l (@nil Effect)
       end.
  all: cbn [rev app]; split; [reflexivity|]; split; [reflexivity|]; cbn [head]; eauto.
Qed.

(** What the compile stage has done when it returns after a review that
    is ready. *)
Lemma compile_book_compiled st h row st' h' :
  supabase_configured env = true ->
  select_book env h final_review_columns (book_id st) = Ok row ->
  final_review_ready (row_final_review_notes_status row)
    (or_empty (row_final_review_notes row)) = true ->
  compile_book env st h = (Ok st', h') ->
  exists chapters docx_url rest,
    st' = set_event (lit "book_compiled")
            (with_book_output_status (Some (lit "ready")) st) /\
    h' = ELog LInfo (lit "Book compilation complete!")
         :: EWrite (UpdateBook (book_id st) (ready_payload docx_url)) :: rest /\
    EUpload (book_id st ++ lit ".txt") (TxtBytes (txt_content row st chapters)) ∈ rest /\
    EUpload (book_id st ++ lit ".docx") (DocxBytes (docx_blocks row st chapters)) ∈ rest /\
    (exists hu, storage_public_url env hu (book_id st ++ lit ".docx") = Ok docx_url).
Proof.
  intros Hs Hrow Hready. unfold compile_book. unfold_stage.
  rewrite Hs, Hrow, Hready. cbn [negb].
  intros H.
  repeat match type of H with
  | context [pdf_build_and_upload env ?s ?story ?hh] =>
      destruct (pdf_build_and_upload_never_raises s story hh) as (k & Hk & _);
      rewrite Hk in H; clear Hk
  | context [match ?x with _ => _ end] =>
      lazymatch x with
      | context [match _ with _ => _ end] => fail
      | _ => destruct x eqn:?; try discriminate
      end
  end.
  simplify_eq.
  match goal with
  | Hc : select_chapters env _ _ = Ok ?c,
    Hu : storage_public_url env ?hu (book_id st ++ lit ".docx") = Ok ?u,
    Hf : for_each _ ?story ?hh = (_, _) |- _ =>
      exists c, u; eexists; split; [reflexivity|]; split; [reflexivity|];
      pose proof (for_each_make_flowable story hh) as (k' & Hk' & _);
      rewrite Hf in Hk'; cbn [snd] in Hk'; rewrite Hk';
      split; [|split; [|exists hu; exact Hu]]
  end.
  - apply elem_of_app. right. apply elem_of_app. right. set_solver.
  - apply elem_of_app. right. apply elem_of_app. right. set_solver.
Qed.

(** A review that is ready takes the stage into the compilation,
    whatever happens there. *)
Lemma compile_book_begins st h row :
  supabase_configured env = true ->
  select_book env h final_review_columns (book_id st) = Ok row ->
  final_review_ready (row_final_review_notes_status row)
    (or_empty (row_final_review_notes row)) = true ->
  (ESelectChapters (book_id st)
   :: ELog LInfo (lit "Compiling final book...")
   :: ESelectBook final_review_columns (book_id st) :: h)
  `suffix_of` snd (compile_book env st h).
Proof.
  intros Hs Hrow Hready. unfold compile_book. unfold_stage.
  rewrite Hs, Hrow, Hready. cbn [negb].
  repeat match goal with
  | |- context [pdf_build_and_upload env ?s ?story ?hh] =>
      let k := fresh "k" in
      destruct (pdf_build_and_upload_never_raises s story hh) as (k & -> & _)
  | |- context [for_each (make_flowable env) ?story ?hh] =>
      let k := fresh "k" in let Hk := fresh "Hk" in
      destruct (for_each_make_flowable story hh) as (k & Hk & _);
      destruct (for_each (make_flowable env) story hh) as [[[]|?] ?];
      cbn [snd] in Hk; subst
  | |- context [match ?x with _ => _ end] =>
      lazymatch x with
      | context [match _ with _ => _ end] => fail
      | _ => destruct x eqn:?
      end
  end; cbn [snd]; solve_suffix.
Qed.

(** ... and, once the chapters are read, to the text file: it is built
    from the chapters read and its upload is asked for, whatever the
    storage answers. *)
Lemma compile_book_text_file st h row chapters :
  supabase_configured env = true ->
  select_book env h final_review_columns (book_id st) = Ok row ->
  final_review_ready (row_final_review_notes_status row)
    (or_empty (row_final_review_notes row)) = true ->
  select_chapters env
    (ELog LInfo (lit "Compiling final book...")
     :: ESelectBook final_review_columns (book_id st) :: h) (book_id st)
  = Ok chapters ->
  (EUpload (book_id st ++ lit ".txt") (TxtBytes (txt_content row st chapters))
   :: ELog LInfo (lit "Uploading " ++ (book_id st ++ lit ".txt")
                  ++ lit " to Supabase Storage...")
   :: ELog LInfo (lit "Found " ++ str_of_Z (Z.of_nat (length chapters))
                  ++ lit " chapters to compile")
   :: ESelectChapters (book_id st)
   :: ELog LInfo (lit "Compiling final book...")
   :: ESelectBook final_review_columns (book_id st) :: h)
  `suffix_of` snd (compile_book env st h).
Proof.
  intros Hs Hrow Hready Hch. unfold compile_book. unfold_stage.
  rewrite Hs, Hrow, Hready. cbn [negb]. rewrite Hch.
  repeat match goal with
  | |- context [pdf_build_and_upload env ?s ?story ?hh] =>
      let k := fresh "k" in
      destruct (pdf_build_and_upload_never_raises s story hh) as (k & -> & _)
  | |- context [for_each (make_flowable env) ?story ?hh] =>
      let k := fresh "k" in let Hk := fresh "Hk" in
      destruct (for_each_make_flowable story hh) as (k & Hk & _);
      destruct (for_each (make_flowable env) story hh) as [[[]|?] ?];
      cbn [snd] in Hk; subst
  | |- context [match ?x with _ => _ end] =>
      lazymatch x with
      | context [match _ with _ => _ end] => fail
      | _ => destruct x eqn:?
      end
  end; cbn [snd]; solve_suffix.
Qed.

(** With a PDF library that accepts every paragraph the story is
    assembled. *)
Lemma for_each_make_flowable_Ok story :
  (forall hh text style,
     Paragraph text style ∈ story -> pdf_paragraph env hh text style = Ok tt) ->
  forall h, exists k, for_each (make_flowable env) story h = (Ok tt, k ++ h).
Proof.
  induction story as [|f story IH]; intros Hp h; simpl.
  - exists []. reflexivity.
  - assert (Hp' : forall hh text style,
              Paragraph text style ∈ story -> pdf_paragraph env hh text style = Ok tt).
    { intros hh text style Hin. apply Hp, elem_of_cons. right. exact Hin. }
    unfold bind. destruct f as [text style|w t]; simpl.
    + unfold call. rewrite Hp by (apply elem_of_cons; left; reflexivity).
      destruct (IH Hp' (EPdfParagraph text style :: h)) as (k & ->).
      exists (k ++ [EPdfParagraph text style]). rewrite <- app_assoc. reflexivity.
    + unfold ret. apply (IH Hp').
Qed.

(** An effect of a history that is written out. *)
Ltac find_effect :=
  solve [ repeat first [ apply elem_of_cons; left; reflexivity
                       | apply elem_of_cons; right
                       | apply elem_of_app; right ] ].

(** When the storage, the document writer and the datastore answer
    every request and the PDF library accepts the paragraphs of the
    story, a review that is ready ends with the book compiled: the text file and the DOCX file are uploaded and the
    book is marked ready. *)
Lemma compile_book_completes st h row chapters :
  supabase_configured env = true ->
  select_book env h final_review_columns (book_id st) = Ok row ->
  final_review_ready (row_final_review_notes_status row)
    (or_empty (row_final_review_notes row)) = true ->
  select_chapters env
    (ELog LInfo (lit "Compiling final book...")
     :: ESelectBook final_review_columns (book_id st) :: h) (book_id st)
  = Ok chapters ->
  (forall hh name content, storage_upload env hh name content = Ok tt) ->
  (forall hh name, exists url, storage_public_url env hh name = Ok url) ->
  (forall hh doc, docx_save env hh doc = Ok tt) ->
  (forall hh text style,
     Paragraph text style ∈ pdf_story row st chapters ->
     pdf_paragraph env hh text style = Ok tt) ->
  (forall hh w, exists r, execute_write env hh w = Ok r) ->
  exists h',
    compile_book env st h
    = (Ok (set_event (lit "book_compiled")
             (with_book_output_status (Some (lit "ready")) st)), h') /\
    (EUpload (book_id st ++ lit ".txt") (TxtBytes (txt_content row st chapters)) ∈ h') /\
    (EUpload (book_id st ++ lit ".docx") (DocxBytes (docx_blocks row st chapters)) ∈ h') /\
    (exists docx_url, EWrite (UpdateBook (book_id st) (ready_payload docx_url)) ∈ h').
Proof.
  intros Hs Hrow Hready Hch Hup Hurl Hdoc Hpar Hw. unfold compile_book. unfold_stage.
  rewrite Hs, Hrow, Hready. cbn [negb]. rewrite Hch.
  repeat match goal with
  | |- context [storage_upload env ?hh ?name ?content] => rewrite (Hup hh name content)
  | |- context [docx_save env ?hh ?doc] => rewrite (Hdoc hh doc)
  | |- context [storage_public_url env ?hh ?name] =>
      let u := fresh "url" in let Hu := fresh "Hu" in
      destruct (Hurl hh name) as [u Hu]; rewrite Hu; clear Hu
  | |- context [for_each (make_flowable env) ?story ?hh] =>
      let k := fresh "k" in let Hk := fresh "Hk" in
      destruct (for_each_make_flowable_Ok story Hpar hh) as (k & Hk);
      rewrite Hk; clear Hk
  | |- context [pdf_build_and_upload env ?s ?story ?hh] =>
      let k := fresh "k" in let Hk := fresh "Hk" in
      destruct (pdf_build_and_upload_never_raises s story hh) as (k & Hk & _);
      rewrite Hk; clear Hk
  | |- context [execute_write env ?hh ?w] =>
      let r := fresh "r" in let Hr := fresh "Hr" in
      destruct (Hw hh w) as [r Hr]; rewrite Hr; clear Hr
  end.
  eexists. split; [reflexivity|].
  split; [find_effect|]. split; [find_effect|].
  eexists. find_effect.
Qed.

End CompileFacts.

(** C3. The compile stage reads the final-review flag and notes again
    from the datastore and goes on to compile exactly when the flag is
    [no_notes_needed] or the notes are not blank.  When neither holds it
    emits [final_review_not_ready] and returns after that one read and a
    warning: no file is uploaded and nothing is written to the datastore.
    When one holds it goes on, whatever the services answer afterwards:
    it reads the chapters and, once they are read, builds the text file
    from them and asks for its upload.  Whenever it then returns it has
    emitted [book_compiled] and uploaded the text file and the DOCX file;
    and it does return, with both files uploaded and the book marked
    ready, when the storage, the document writer and the datastore answer
    every request and the PDF library accepts the paragraphs of the
    book. *)
Theorem compile_precondition (env : Env) (st : BookState) (h : History) (row : BookRow) :
  supabase_configured env = true ->
  select_book env h final_review_columns (book_id st) = Ok row ->
  let fr_status := row_final_review_notes_status row in
  let fr_notes := or_empty (row_final_review_notes row) in
  let read := ESelectBook final_review_columns (book_id st) in
  let begun := ELog LInfo (lit "Compiling final book...") :: read :: h in
  let txt_file chapters :=
    EUpload (book_id st ++ lit ".txt") (TxtBytes (txt_content row st chapters)) in
  let docx_file chapters :=
    EUpload (book_id st ++ lit ".docx") (DocxBytes (docx_blocks row st chapters)) in
  (final_review_ready fr_status fr_notes = true
   <-> fr_status = Some (lit "no_notes_needed") \/ strip fr_notes <> []) /\
  (final_review_ready fr_status fr_notes = false ->
   compile_book env st h
   = (Ok (set_event (lit "final_review_not_ready") st),
      ELog LWarning (lit "Final review not ready - missing notes or status")
      :: read :: h)) /\
  (final_review_ready fr_status fr_notes = true ->
   (ESelectChapters (book_id st) :: begun) `suffix_of` snd (compile_book env st h) /\
   (forall chapters,
      select_chapters env begun (book_id st) = Ok chapters ->
      (txt_file chapters
       :: ELog LInfo (lit "Uploading " ++ (book_id st ++ lit ".txt")
                      ++ lit " to Supabase Storage...")
       :: ELog LInfo (lit "Found " ++ str_of_Z (Z.of_nat (length chapters))
                      ++ lit " chapters to compile")
       :: ESelectChapters (book_id st) :: begun)
      `suffix_of` snd (compile_book env st h)) /\
   (forall st' h',
      compile_book env st h = (Ok st', h') ->
      event st' = Some (lit "book_compiled") /\
      exists chapters, (txt_file chapters ∈ h') /\ (docx_file chapters ∈ h')) /\
   (forall chapters,
      select_chapters env begun (book_id st) = Ok chapters ->
      (forall hh name content, storage_upload env hh name content = Ok tt) ->
      (forall hh name, exists url, storage_public_url env hh name = Ok url) ->
      (forall hh doc, docx_save env hh doc = Ok tt) ->
      (forall hh text style,
         Paragraph text style ∈ pdf_story row st chapters ->
         pdf_paragraph env hh text style = Ok tt) ->
      (forall hh w, exists r, execute_write env hh w = Ok r) ->
      exists h',
        compile_book env st h
        = (Ok (set_event (lit "book_compiled")
                 (with_book_output_status (Some (lit "ready")) st)), h') /\
        (txt_file chapters ∈ h') /\ (docx_file chapters ∈ h') /\
        (exists docx_url,
           EWrite (UpdateBook (book_id st) (ready_payload docx_url)) ∈ h'))).
Proof.
  intros Hs Hrow. cbv zeta. split; [|split].
  - unfold final_review_ready.
    rewrite orb_true_iff, andb_true_iff, !bool_decide_eq_true.
    split.
    + intros [H|[_ H]]; auto.
    + intros [H|H]; [auto|]. right. split; [|exact H].
      intros E. apply H. rewrite E. reflexivity.
  - intros Hready. unfold compile_book. unfold_stage.
    rewrite Hs, Hrow, Hready. reflexivity.
  - intros Hready.
    split; [apply (compile_book_begins env st h row); assumption|].
    split; [intros chapters Hch;
            apply (compile_book_text_file env st h row chapters); assumption|].
    split.
    + intros st' h' H.
      destruct (compile_book_compiled env st h row st' h' Hs Hrow Hready H)
        as (chapters & url & rest & -> & -> & Ht & Hd & _).
      split; [apply event_set_event|].
      exists chapters.
      split; (apply elem_of_cons; right; apply elem_of_cons; right; assumption).
    + intros chapters Hch Hup Hurl Hdoc Hpar Hw.
      apply (compile_book_completes env st h row chapters); assumption.
Qed.

(** A review flagged [yes] without notes, where the stage stops after
    one read and one warning; and the first scenario, where it compiles
    the two stored chapters. *)
Lemma compile_precondition_witness :
  let waiting := Worlds.world 2 Worlds.no_smtp
                   (Worlds.book (Some (lit "notes")) (Some (lit "yes")))
                   Worlds.no_gate_row Worlds.two_chapters [] in
  let st := Worlds.fresh (Some (lit "notes")) 2 3 in
  let row := Worlds.book (Some (lit "A book about tides")) Worlds.approved in
  fst (compile_book waiting st []) = Ok (set_event (lit "final_review_not_ready") st) /\
  length (snd (compile_book waiting st [])) = 2%nat /\
  exists h',
    compile_book Worlds.scenario1 st []
    = (Ok (set_event (lit "book_compiled")
             (with_book_output_status (Some (lit "ready")) st)), h') /\
    (EUpload (lit "b1" ++ lit ".txt") (TxtBytes (txt_content row st Worlds.two_chapters))
     ∈ h') /\
    (EUpload (lit "b1" ++ lit ".docx") (DocxBytes (docx_blocks row st Worlds.two_chapters))
     ∈ h') /\
    (exists docx_url, EWrite (UpdateBook (lit "b1") (ready_payload docx_url)) ∈ h').
Proof.
  intros waiting st row.
  destruct (compile_precondition waiting st []
              (Worlds.book (Some (lit "notes")) (Some (lit "yes"))) eq_refl eq_refl)
    as (_ & H2 & _).
  destruct (compile_precondition Worlds.scenario1 st [] row eq_refl eq_refl)
    as (_ & _ & H3).
  rewrite (H2 ltac:(vm_compute; reflexivity)).
  split; [reflexivity|]. split; [reflexivity|].
  destruct (H3 ltac:(vm_compute; reflexivity)) as (_ & _ & _ & H4).
  apply (H4 Worlds.two_chapters).
  - reflexivity.
  - intros hh name content. reflexivity.
  - intros hh name. eexists. reflexivity.
  - intros hh doc. reflexivity.
  - intros hh text style Hin. vm_compute in Hin.
    repeat (apply elem_of_cons in Hin as [Hin|Hin];
            [first [discriminate Hin | injection Hin as -> _; vm_compute; reflexivity]|]).
    apply elem_of_nil in Hin. contradiction.
  - intros hh w. eexists. reflexivity.
Defined.

(** C8, at the input where it fails.  The chapter text "<b>Tides are
    waves." opens a bold tag that is never closed; reportlab refuses it
    when the [Paragraph] is constructed, which compile_book does while it
    assembles the story, before its try block.  The exception leaves
    compile_book: the text file and the DOCX are uploaded, but the book
    is never updated to [ready] and no [book_compiled] is emitted. *)
Theorem compile_book_unclosed_markup_aborts :
  let r := compile_book Worlds.unclosed_bold (Worlds.fresh (Some (lit "notes")) 1 2) [] in
  fst r = Raise {| exc_class := ValueError;
                   exc_msg := lit "Parse error: saw </para> instead of expected </b>" |} /\
  head (snd r) = Some (EPdfParagraph (lit "<b>Tides are waves.") StyleNormal) /\
  existsb is_write (snd r) = false /\
  length (filter (fun e => is_upload e = true) (snd r)) = 2%nat.
Proof. vm_compute. repeat split; reflexivity. Qed.

(* ===================================================================== *)
(** ** The email sender *)
(* ===================================================================== *)

(** C9 as stated, at an input where it fails: with the mail channel
    configured, a subject that holds a line break makes [EmailMessage]
    raise while the message is assembled, before the try block, and the
    exception reaches the caller of send_email. *)
Lemma send_email_subject_linebreak_raises :
  fst (send_email Worlds.mail_world
         (lit "Book ready" ++ nl ++ lit "Bcc: all@example.com") (lit "body") [])
  = Raise {| exc_class := ValueError;
             exc_msg := lit "Header values may not contain linefeed or carriage return characters" |}.
Proof. vm_compute. reflexivity. Qed.

(** C9, amended.  When an SMTP setting is missing send_email returns at
    once and does nothing but log that it skips.  When the settings are
    there and the message can be assembled, send_email returns normally
    whatever connecting, STARTTLS, logging in, sending or closing the
    connection raises: either the mail was sent, or the exception was
    caught and logged as an error.  An exception of assembling the
    message is outside the try block and reaches the caller. *)
Theorem send_email_contains_smtp_failures (env : Env) (subject body : str) (h : History) :
  let cfg := smtp_config env in
  let msg := email_of cfg subject body in
  (smtp_configured cfg = false ->
   send_email env subject body h
   = (Ok tt, ELog LDebug (lit "Email not configured - skipping") :: h)) /\
  (smtp_configured cfg = true ->
   email_message env (ELog LDebug (email_config_line cfg) :: h) msg = Ok tt ->
   exists h',
     send_email env subject body h = (Ok tt, h') /\
     ((exists rest,
         h' = ESmtpQuit
              :: ELog LInfo ([10003%N] ++ lit " Email sent to " ++ or_empty (NOTIFY_TO cfg))
              :: ESmtpSendMessage msg :: rest)
      \/ (exists rest, h' = ELog LError diagnostics_hint :: rest))) /\
  (smtp_configured cfg = true ->
   forall e,
     email_message env (ELog LDebug (email_config_line cfg) :: h) msg = Raise e ->
     send_email env subject body h
     = (Raise e, EEmailMessage msg :: ELog LDebug (email_config_line cfg) :: h)).
Proof.
  cbv zeta. split; [|split].
  - intros Hc. unfold send_email. unfold_stage. rewrite Hc. reflexivity.
  - intros Hc Hm.
    assert (H : fst (send_email env subject body h) = Ok tt /\
                ((exists rest,
                    snd (send_email env subject body h)
                    = ESmtpQuit
                      :: ELog LInfo ([10003%N] ++ lit " Email sent to "
                                     ++ or_empty (NOTIFY_TO (smtp_config env)))
                      :: ESmtpSendMessage (email_of (smtp_config env) subject body) :: rest)
                 \/ (exists rest,
                       snd (send_email env subject body h)
                       = ELog LError diagnostics_hint :: rest))).
    { unfold send_email, with_smtp. unfold_stage. rewrite Hc. cbn [negb]. rewrite Hm.
      repeat case_match; simplify_eq; cbn [fst snd]; (split; [reflexivity|]); eauto. }
    destruct (send_email env subject body h) as [r h']. cbn [fst snd] in H.
    destruct H as [-> H]. exists h'. split; [reflexivity | exact H].
  - intros Hc e Hm. unfold send_email. unfold_stage. rewrite Hc. cbn [negb].
    rewrite Hm. reflexivity.
Qed.

(** No settings; a server that refuses the password; a subject with a
    line break. *)
Lemma send_email_contains_smtp_failures_witness :
  send_email Worlds.scenario1 (lit "subject") (lit "body") []
  = (Ok tt, [ELog LDebug (lit "Email not configured - skipping")]) /\
  (exists h', send_email Worlds.refused_login (lit "subject") (lit "body") [] = (Ok tt, h')) /\
  (exists e h', send_email Worlds.mail_world (lit "a" ++ nl ++ lit "b") (lit "body") []
                = (Raise e, h')).
Proof.
  split; [|split].
  - apply (proj1 (send_email_contains_smtp_failures Worlds.scenario1 _ _ [])).
    vm_compute. reflexivity.
  - destruct (proj1 (proj2 (send_email_contains_smtp_failures Worlds.refused_login
                              (lit "subject") (lit "body") [])))
      as (h' & H & _); [vm_compute; reflexivity | vm_compute; reflexivity |].
    exists h'. exact H.
  - eexists _, _.
    apply (proj2 (proj2 (send_email_contains_smtp_failures Worlds.mail_world
                           (lit "a" ++ nl ++ lit "b") (lit "body") []))).
    + vm_compute. reflexivity.
    + vm_compute. reflexivity.
Defined.

(* ===================================================================== *)
(** ** The spreadsheet sync and the worker's discovery *)
(* ===================================================================== *)

Lemma set_default_lookup (key : str) (value : Json) (d : gmap str Json) :
  set_default key value d !! key = Some (default value (d !! key)).
Proof.
  unfold set_default. destruct (d !! key) eqn:E; simpl.
  - exact E.
  - apply lookup_insert_eq.
Qed.

Lemma set_default_lookup_ne (key key' : str) (value : Json) (d : gmap str Json) :
  key ≠ key' -> set_default key value d !! key' = d !! key'.
Proof.
  intros H. unfold set_default. destruct (d !! key); [reflexivity|].
  apply lookup_insert_ne. exact H.
Qed.

(** The loop over the optional fields: a field of the list is copied
    when the row has a value for it, and nothing else changes. *)
Lemma copy_optional_lookup (book_dict : gmap str str) (fields : list str) :
  forall (d : gmap str Json) (f : str),
  foldl (fun d field =>
           if truthy (book_dict !! field)
           then <[field := JStr (or_empty (book_dict !! field))]> d
           else d) d fields !! f
  = if bool_decide (f ∈ fields) && truthy (book_dict !! f)
    then Some (JStr (or_empty (book_dict !! f)))
    else d !! f.
Proof.
  induction fields as [|x fields IH]; intros d f; simpl.
  - reflexivity.
  - rewrite IH. destruct (decide (f = x)) as [->|Hne].
    + rewrite (bool_decide_eq_true_2 (x ∈ x :: fields)) by (apply elem_of_cons; auto).
      simpl. destruct (truthy (book_dict !! x)) eqn:E.
      * rewrite andb_true_r. rewrite lookup_insert_eq. destruct (bool_decide _); reflexivity.
      * rewrite andb_false_r. reflexivity.
    + assert (Hb : bool_decide (f ∈ x :: fields) = bool_decide (f ∈ fields)).
      { apply bool_decide_ext. rewrite elem_of_cons. tauto. }
      rewrite Hb. destruct (bool_decide (f ∈ fields) && truthy (book_dict !! f)); [reflexivity|].
      destruct (truthy (book_dict !! x)); [|reflexivity].
      apply lookup_insert_ne. congruence.
Qed.

Lemma upsert_payload_gating (title : str) (sid : Z) (book_dict : gmap str str) (field : str) :
  field ∈ gating_fields ->
  upsert_payload title sid book_dict !! field
  = Some (JStr (if truthy (book_dict !! field)
                then or_empty (book_dict !! field)
                else lit "no_notes_needed")).
Proof.
  unfold gating_fields. rewrite !elem_of_cons, elem_of_nil.
  intros [->|[->|[->|[]]]]; unfold upsert_payload; cbv zeta.
  - do 4 (rewrite set_default_lookup_ne by tag_neq).
    rewrite set_default_lookup, copy_optional_lookup.
    rewrite bool_decide_eq_true_2 by (unfold optional_fields; set_solver).
    cbn [andb]. destruct (truthy _); [reflexivity|].
    do 3 (rewrite lookup_insert_ne by tag_neq). rewrite lookup_empty. reflexivity.
  - do 3 (rewrite set_default_lookup_ne by tag_neq).
    rewrite set_default_lookup, set_default_lookup_ne by tag_neq.
    rewrite copy_optional_lookup.
    rewrite bool_decide_eq_true_2 by (unfold optional_fields; set_solver).
    cbn [andb]. destruct (truthy _); [reflexivity|].
    do 3 (rewrite lookup_insert_ne by tag_neq). rewrite lookup_empty. reflexivity.
  - do 2 (rewrite set_default_lookup_ne by tag_neq).
    rewrite set_default_lookup. do 2 (rewrite set_default_lookup_ne by tag_neq).
    rewrite copy_optional_lookup.
    rewrite bool_decide_eq_true_2 by (unfold optional_fields; set_solver).
    cbn [andb]. destruct (truthy _); [reflexivity|].
    do 3 (rewrite lookup_insert_ne by tag_neq). rewrite lookup_empty. reflexivity.
Qed.

Lemma upsert_payload_status (title : str) (sid : Z) (book_dict : gmap str str) :
  upsert_payload title sid book_dict !! lit "outline_status" = Some (JStr (lit "pending")) /\
  upsert_payload title sid book_dict !! lit "book_output_status"
  = Some (JStr (lit "not_started")) /\
  upsert_payload title sid book_dict !! lit "notes_on_outline_before"
  = Some (JStr (default [] (book_dict !! lit "notes_on_outline_before"))).
Proof.
  unfold upsert_payload. cbv zeta. split; [|split].
  - rewrite set_default_lookup_ne by tag_neq. rewrite set_default_lookup.
    do 3 (rewrite set_default_lookup_ne by tag_neq).
    rewrite copy_optional_lookup.
    rewrite bool_decide_eq_false_2
      by (unfold optional_fields; rewrite !elem_of_cons, elem_of_nil;
          intros [H|[H|[H|[H|[H|[]]]]]]; revert H; tag_neq).
    cbn [andb]. do 3 (rewrite lookup_insert_ne by tag_neq). rewrite lookup_empty. reflexivity.
  - rewrite set_default_lookup.
    do 4 (rewrite set_default_lookup_ne by tag_neq).
    rewrite copy_optional_lookup.
    rewrite bool_decide_eq_false_2
      by (unfold optional_fields; rewrite !elem_of_cons, elem_of_nil;
          intros [H|[H|[H|[H|[H|[]]]]]]; revert H; tag_neq).
    cbn [andb]. do 3 (rewrite lookup_insert_ne by tag_neq). rewrite lookup_empty. reflexivity.
  - do 5 (rewrite set_default_lookup_ne by tag_neq).
    rewrite copy_optional_lookup.
    rewrite bool_decide_eq_false_2
      by (unfold optional_fields; rewrite !elem_of_cons, elem_of_nil;
          intros [H|[H|[H|[H|[H|[]]]]]]; revert H; tag_neq).
    cbn [andb]. rewrite lookup_insert_ne by tag_neq. apply lookup_insert_eq.
Qed.

(** A record that holds what the sync wrote passes the first discovery
    filter, whatever else it holds. *)
Lemma upsert_payload_pending (title : str) (sid : Z) (book_dict : gmap str str)
    (stored : gmap str Json) :
  pending_outline_filter (upsert_payload title sid book_dict ∪ stored) = true.
Proof.
  destruct (upsert_payload_status title sid book_dict) as (Ho & _ & Hn).
  unfold pending_outline_filter.
  rewrite (lookup_union_Some_l _ stored _ _ Ho), (lookup_union_Some_l _ stored _ _ Hn).
  rewrite bool_decide_eq_true_2 by reflexivity.
  rewrite !bool_decide_eq_false_2 by discriminate. reflexivity.
Qed.

(** With a limit that covers the table, a book that passes the first
    filter is discovered. *)
Lemma find_pending_books_pending (limit : nat) (books : list (str * gmap str Json))
    (id : str) (book : gmap str Json) :
  (id, book) ∈ books ->
  pending_outline_filter book = true ->
  (length books <= limit)%nat ->
  id ∈ find_pending_books limit books.
Proof.
  intros Hin Hf Hlen. unfold find_pending_books.
  apply elem_of_remove_dups, elem_of_app. left. unfold query.
  rewrite take_ge by (etrans; [apply length_filter | exact Hlen]).
  apply list_elem_of_In, in_map_iff. exists (id, book). split; [reflexivity|].
  apply list_elem_of_In, list_elem_of_filter. split; [exact Hf | exact Hin].
Qed.

Section SyncFacts.

Variable lower : str -> str.
Variable isdigit : str -> bool.
Variable int_of_str : str -> option Z.

(** A row that is not skipped. *)
Lemma row_payload_Some idx row headers title sid payload :
  row_payload lower isdigit int_of_str idx row headers = Some (title, sid, payload) ->
  exists book_dict,
    existsb cell_truthy row = true /\
    excel_row_to_book_dict row headers = Some book_dict /\
    book_dict !! lit "title" = Some title /\
    title <> [] /\
    existsb (fun keyword => contains keyword (lower title)) description_keywords = false /\
    payload = upsert_payload title sid book_dict.
Proof.
  unfold row_payload. intros H.
  destruct (existsb cell_truthy row) eqn:Ea; [|discriminate]. cbn [negb] in H.
  destruct (excel_row_to_book_dict row headers) as [book_dict|] eqn:Eb; [|discriminate].
  destruct (book_dict !! lit "title") as [[|c t]|] eqn:Et; try discriminate.
  cbn [truthy negb or_empty] in H.
  destruct (existsb _ description_keywords) eqn:Ek; [discriminate|].
  injection H as <- <- <-.
  exists book_dict. repeat split; auto; discriminate.
Qed.

End SyncFacts.

(** C10. For every row the sync does not skip (its title is not empty
    and is no description of the template): each of the three gating
    fields the row leaves empty is written as [no_notes_needed],
    [outline_status] is written as [pending] and [book_output_status] as
    [not_started]; this payload is what the sync writes, as an update of
    the book it found or as an insert; and a record that holds it passes
    the worker's first discovery filter, so the worker finds the book as
    soon as its limit reaches it. *)
Theorem sync_defaults_make_book_discoverable
    (lower : str -> str) (isdigit : str -> bool) (int_of_str : str -> option Z)
    (idx : Z) (row : list Cell) (headers : list str)
    (title : str) (sid : Z) (payload : gmap str Json) :
  row_payload lower isdigit int_of_str idx row headers = Some (title, sid, payload) ->
  exists book_dict,
    excel_row_to_book_dict row headers = Some book_dict /\
    book_dict !! lit "title" = Some title /\
    title <> [] /\
    existsb (fun keyword => contains keyword (lower title)) description_keywords = false /\
    (forall field,
       field ∈ gating_fields ->
       truthy (book_dict !! field) = false ->
       payload !! field = Some (JStr (lit "no_notes_needed"))) /\
    payload !! lit "outline_status" = Some (JStr (lit "pending")) /\
    payload !! lit "book_output_status" = Some (JStr (lit "not_started")) /\
    (forall env ids h existing,
       select_existing env h title sid = Ok existing ->
       EWrite (if truthy existing
               then UpdateBook (or_empty existing) payload
               else InsertBook payload)
       ∈ snd (sync_row env lower isdigit int_of_str idx row headers ids h)) /\
    (forall stored, pending_outline_filter (payload ∪ stored) = true) /\
    (forall stored id books limit,
       (id, payload ∪ stored) ∈ books ->
       (length books <= limit)%nat ->
       id ∈ find_pending_books limit books).
Proof.
  intros H.
  destruct (row_payload_Some _ _ _ _ _ _ _ _ _ H)
    as (book_dict & Ha & Hb & Ht & Hne & Hk & ->).
  exists book_dict. do 4 (split; [assumption|]).
  destruct (upsert_payload_status title sid book_dict) as (Ho & Hs & _).
  split; [|split; [exact Ho|split; [exact Hs|split; [|split]]]].
  - intros field Hf Hempty. rewrite upsert_payload_gating by exact Hf.
    rewrite Hempty. reflexivity.
  - intros env ids h existing Hsel. unfold sync_row. rewrite Ha, H. cbn [negb].
    unfold_stage. rewrite Hsel.
    destruct existing as [[|c id']|]; cbn [truthy or_empty];
      repeat case_match; cbn [snd]; set_solver.
  - intros stored. apply upsert_payload_pending.
  - intros stored id books limit Hin Hlen.
    apply (find_pending_books_pending limit books id _ Hin); [|exact Hlen].
    apply upsert_payload_pending.
Qed.

(** A row with a title and notes and an empty flag. *)
Lemma sync_defaults_make_book_discoverable_witness :
  match row_payload Worlds.ascii_lower Worlds.ascii_isdigit Worlds.ascii_int
          3 Worlds.sheet_row Worlds.sheet_headers with
  | Some (title, sid, payload) =>
      payload !! lit "status_outline_notes" = Some (JStr (lit "no_notes_needed")) /\
      payload !! lit "outline_status" = Some (JStr (lit "pending")) /\
      pending_outline_filter payload = true
  | None => False
  end.
Proof.
  assert (Hsome : match row_payload Worlds.ascii_lower Worlds.ascii_isdigit
                          Worlds.ascii_int 3 Worlds.sheet_row Worlds.sheet_headers with
                  | Some _ => true
                  | None => false
                  end = true) by (vm_compute; reflexivity).
  assert (Hempty : match excel_row_to_book_dict Worlds.sheet_row Worlds.sheet_headers with
                   | Some bd => truthy (bd !! lit "status_outline_notes")
                   | None => true
                   end = false) by (vm_compute; reflexivity).
  destruct (row_payload Worlds.ascii_lower Worlds.ascii_isdigit Worlds.ascii_int
              3 Worlds.sheet_row Worlds.sheet_headers)
    as [[[title sid] payload]|] eqn:E; [|discriminate Hsome].
  destruct (sync_defaults_make_book_discoverable _ _ _ _ _ _ _ _ _ E)
    as (book_dict & Hb & _ & _ & _ & Hg & Ho & _ & _ & Hp & _).
  rewrite Hb in Hempty.
  split; [|split].
  - apply Hg; [unfold gating_fields; apply elem_of_cons; left; reflexivity | exact Hempty].
  - exact Ho.
  - specialize (Hp ∅). rewrite (right_id_L ∅ (∪)) in Hp. exact Hp.
Defined.

(* ===================================================================== *)
(** ** The three gates *)
(* ===================================================================== *)

(** C1 as stated, at inputs where it fails.  At the chapter gate an
    absent flag (the chapter has no row yet) lets the stage write the
    chapter, where the policy pauses; at the compile gate the flag [yes]
    with review notes lets the stage compile, where the policy waits. *)
Lemma gates_differ_from_policy :
  select_chapter_gate Worlds.scenario1 [] (lit "b1") 1 = Ok None /\
  chapter_gate_outcome
    (fst (generate_next_chapter Worlds.scenario1 (Worlds.fresh (Some (lit "notes")) 2 1) []))
  = Some proceed /\
  gating_policy None = paused_unrecognized /\
  row_final_review_notes_status Worlds.reviewed_book = Some (lit "yes") /\
  compile_gate_outcome
    (fst (compile_book Worlds.reviewed (Worlds.fresh (Some (lit "notes")) 2 3) []))
  = Some compiled /\
  gating_policy (Some (lit "yes")) = wait_for_input.
Proof. vm_compute. repeat split; reflexivity. Qed.

(** A comparison of two literals that cannot hold. *)
Ltac absurd_tag :=
  match goal with
  | H : Some (lit _) = Some (lit _) |- _ => exfalso; revert H; tag_neq
  | H : lit _ = lit _ |- _ => exfalso; revert H; tag_neq
  | H : Some _ = None |- _ => discriminate H
  | H : None = Some _ |- _ => discriminate H
  | H : ?x <> ?x |- _ => exfalso; apply H; reflexivity
  | H : ?x = ?y, H' : ?x <> ?y |- _ => exfalso; exact (H' H)
  end.

Section GateFacts.

Variable env : Env.

Lemma outline_gate_follows_policy st h row :
  supabase_configured env = true ->
  event st = Some (lit "outline_generated") ->
  select_book env h (lit "status_outline_notes") (book_id st) = Ok row ->
  outline_gate_outcome (fst (_router_after_outline env st h))
  = Some (gating_policy (row_status_outline_notes row)).
Proof.
  intros Hs He Hrow. unfold _router_after_outline. unfold_stage.
  rewrite He.
  rewrite (bool_decide_eq_false_2 (Some (lit "outline_generated")
                                   = Some (lit "missing_notes_on_outline_before")))
    by tag_neq.
  rewrite bool_decide_eq_true_2 by reflexivity. cbn [negb].
  rewrite Hs, Hrow. unfold gating_policy.
  destruct (decide (row_status_outline_notes row = Some (lit "yes"))) as [Hy|Hy];
    [rewrite Hy|];
    repeat case_bool_decide; try absurd_tag;
    cbn [fst outline_gate_outcome]; rewrite ?event_set_event;
    repeat case_bool_decide; try absurd_tag; reflexivity.
Qed.

Lemma chapter_gate_as_coded st h row :
  supabase_configured env = true ->
  current_chapter_number st <= total_chapters st ->
  (forall h', select_chapter_gate env h' (book_id st) (current_chapter_number st) = Ok row) ->
  match chapter_policy (row ≫= grow_chapter_notes_status) with
  | proceed =>
      exists st1 h1,
        generate_next_chapter env st h
        = write_chapter env st1 (row ≫= grow_editor_notes) h1
  | outcome =>
      chapter_gate_outcome (fst (generate_next_chapter env st h)) = Some outcome
  end.
Proof.
  intros Hs Hle Hgate. unfold generate_next_chapter. unfold_stage. rewrite Hs.
  rewrite (proj2 (Z.ltb_ge _ _) Hle).
  match goal with
  | |- context [backfill_summaries env st ?hh] =>
      destruct (backfill_summaries_Ok env st hh) as (css & h1 & Hb & _)
  end.
  rewrite Hb. rewrite chapter_gate_row_Ok. state_simpl. rewrite Hgate.
  unfold chapter_policy, gating_policy.
  set (status := row ≫= grow_chapter_notes_status).
  destruct (decide (status = Some (lit "yes"))) as [Hy|Hy]; [rewrite Hy|];
    repeat case_bool_decide; try absurd_tag; cbn [orb negb]; eauto;
    cbn [fst chapter_gate_outcome]; rewrite ?event_set_event;
    repeat case_bool_decide; try absurd_tag; reflexivity.
Qed.

Lemma compile_gate_as_coded st h row :
  supabase_configured env = true ->
  select_book env h final_review_columns (book_id st) = Ok row ->
  let ready := final_review_ready (row_final_review_notes_status row)
                 (or_empty (row_final_review_notes row)) in
  (ready = false ->
   compile_gate_outcome (fst (compile_book env st h)) = Some final_review_not_ready) /\
  (ready = true ->
   compile_gate_outcome (fst (compile_book env st h)) = Some compiled
   \/ exists e, fst (compile_book env st h) = Raise e).
Proof.
  intros Hs Hrow. cbv zeta. split; intros Hready.
  - unfold compile_book. unfold_stage. rewrite Hs, Hrow, Hready.
    cbn [negb fst compile_gate_outcome]. rewrite event_set_event.
    rewrite (bool_decide_eq_false_2 (Some (lit "final_review_not_ready")
                                     = Some (lit "book_compiled"))) by tag_neq.
    rewrite bool_decide_eq_true_2 by reflexivity. reflexivity.
  - destruct (compile_book env st h) as [[st'|e] h'] eqn:E; [|right; eauto].
    left. destruct (compile_book_compiled env st h row st' h' Hs Hrow Hready E)
      as (_ & _ & _ & -> & _).
    cbn [fst compile_gate_outcome]. rewrite event_set_event.
    rewrite bool_decide_eq_true_2 by reflexivity. reflexivity.
Qed.

End GateFacts.

(** C1, amended.  The outline router applies the policy as written:
    [no_notes_needed] proceeds to the chapter stage, [yes] waits
    ([outline_waiting_for_notes]), and every other value, the empty
    string and an absent flag included, pauses
    ([outline_paused_missing_status]).  The chapter stage applies it with
    one difference: an absent flag proceeds, like [no_notes_needed]; [yes]
    waits and every other value, the empty string included, pauses.  The
    compile stage has two outcomes, not three: it compiles when the flag
    is [no_notes_needed] or the review notes are not blank, and in every
    other case, the flag [yes] included, it emits
    [final_review_not_ready]. *)
Theorem gates_as_coded (env : Env) (st : BookState) (h : History) :
  supabase_configured env = true ->
  (forall row,
     event st = Some (lit "outline_generated") ->
     select_book env h (lit "status_outline_notes") (book_id st) = Ok row ->
     outline_gate_outcome (fst (_router_after_outline env st h))
     = Some (gating_policy (row_status_outline_notes row))) /\
  (forall row,
     current_chapter_number st <= total_chapters st ->
     (forall h', select_chapter_gate env h' (book_id st) (current_chapter_number st)
                 = Ok row) ->
     match chapter_policy (row ≫= grow_chapter_notes_status) with
     | proceed =>
         exists st1 h1,
           generate_next_chapter env st h
           = write_chapter env st1 (row ≫= grow_editor_notes) h1
     | outcome =>
         chapter_gate_outcome (fst (generate_next_chapter env st h)) = Some outcome
     end) /\
  (forall row,
     select_book env h final_review_columns (book_id st) = Ok row ->
     let fr_status := row_final_review_notes_status row in
     let fr_notes := or_empty (row_final_review_notes row) in
     (fr_status = Some (lit "no_notes_needed") \/ strip fr_notes <> [] ->
      compile_gate_outcome (fst (compile_book env st h)) = Some compiled
      \/ exists e, fst (compile_book env st h) = Raise e) /\
     (fr_status <> Some (lit "no_notes_needed") /\ strip fr_notes = [] ->
      compile_gate_outcome (fst (compile_book env st h)) = Some final_review_not_ready)).
Proof.
  intros Hs. split; [|split].
  - intros row He Hrow. apply outline_gate_follows_policy; assumption.
  - intros row Hle Hgate. apply chapter_gate_as_coded; assumption.
  - intros row Hrow. cbv zeta.
    destruct (compile_gate_as_coded env st h row Hs Hrow) as [Hno Hyes].
    split.
    + intros Hc. apply Hyes. unfold final_review_ready.
      rewrite orb_true_iff, andb_true_iff, !bool_decide_eq_true.
      destruct Hc as [Hc|Hc]; [auto|]. right. split; [|exact Hc].
      intros E. apply Hc. rewrite E. reflexivity.
    + intros [Hc1 Hc2]. apply Hno. unfold final_review_ready.
      rewrite orb_false_iff, andb_false_iff, !bool_decide_eq_false.
      split; [exact Hc1|]. right. intros Hc. apply Hc. exact Hc2.
Qed.

(** The outline gate on the flag [yes]; the chapter gate on an absent
    flag; the compile gate on the flag [yes] without notes. *)
Lemma gates_as_coded_witness :
  let waiting := Worlds.world 2 Worlds.no_smtp
                   (Worlds.book (Some (lit "notes")) (Some (lit "yes")))
                   Worlds.no_gate_row Worlds.two_chapters [] in
  let st := set_event (lit "outline_generated") (Worlds.fresh (Some (lit "notes")) 2 1) in
  outline_gate_outcome (fst (_router_after_outline waiting st []))
  = Some (gating_policy (Some (lit "yes"))) /\
  (exists st1 h1,
     generate_next_chapter Worlds.scenario1 st []
     = write_chapter Worlds.scenario1 st1 None h1) /\
  compile_gate_outcome (fst (compile_book waiting st [])) = Some final_review_not_ready.
Proof.
  intros waiting st.
  destruct (gates_as_coded waiting st [] eq_refl) as (H1 & _ & H3).
  destruct (gates_as_coded Worlds.scenario1 st [] eq_refl) as (_ & H2 & _).
  split; [|split].
  - apply (H1 (Worlds.book (Some (lit "notes")) (Some (lit "yes")))).
    + vm_compute. reflexivity.
    + reflexivity.
  - apply (H2 None).
    + vm_compute. discriminate.
    + intros h'. reflexivity.
  - apply (H3 (Worlds.book (Some (lit "notes")) (Some (lit "yes"))) eq_refl).
    split; [vm_compute; discriminate | vm_compute; reflexivity].
Defined.

(* ===================================================================== *)
(** ** The end-to-end scenarios *)
(* ===================================================================== *)

(** Notes present, every flag [no_notes_needed], two chapters: outline,
    chapter 1, chapter 2, compile, notify. *)
Example scenario_book_compiled :
  summary_of_run (run_book_flow Worlds.scenario1 6 (lit "b1") [])
  = ([generate_outline_node; generate_next_chapter_node; generate_next_chapter_node;
      compile_book_node; notify_node],
     Some (lit "book_compiled"), Some (lit "ready")).
Proof. vm_compute. reflexivity. Qed.

(** Outline flag [yes]: the chapter stage is never entered.  The event
    the outline router writes is not handed on: the notification stage,
    and the final state, hold the event of the outline stage. *)
Example scenario_outline_waits :
  summary_of_run
    (run_book_flow
       (Worlds.world 2 Worlds.no_smtp
          (Worlds.book (Some (lit "notes")) (Some (lit "yes")))
          Worlds.no_gate_row Worlds.two_chapters (lit "1. Rise 2. Fall"))
       6 (lit "b1") [])
  = ([generate_outline_node; notify_node],
     Some (lit "outline_generated"), Some (lit "not_started")).
Proof. vm_compute. reflexivity. Qed.

(** Chapter 3 of 3: the index becomes 4 and the router names the compile
    stage. *)
Example scenario_last_chapter :
  let r := generate_next_chapter Worlds.scenario1
             (Worlds.fresh (Some (lit "notes")) 3 3) [] in
  match fst r with
  | Ok st =>
      current_chapter_number st = 4 /\
      event st = Some (lit "chapter_generated") /\
      _router_after_chapter st = lit "compile_book"
  | Raise _ => False
  end.
Proof. vm_compute. repeat split; reflexivity. Qed.

(* ===================================================================== *)
(** ** The documents of the compile stage *)
(* ===================================================================== *)

Lemma strip_by_idem (p : N -> bool) (s : str) : strip_by p (strip_by p s) = strip_by p s.
Proof.
  unfold strip_by at 2. rewrite strip_by_rstrip, strip_by_lstrip. reflexivity.
Qed.

Lemma lstrip_by_first (p : N -> bool) (s : str) (c : N) :
  head (lstrip_by p s) = Some c -> p c = false.
Proof.
  induction s as [|d s IH]; simpl; [discriminate|].
  destruct (p d) eqn:E; [exact IH|]. simpl. intros [= <-]. exact E.
Qed.

Lemma last_rev_head (s : str) : last s = head (rev s).
Proof.
  induction s as [|c s IH] using rev_ind; [reflexivity|].
  rewrite last_snoc, rev_app_distr. reflexivity.
Qed.

(** What stripping leaves has no character of [p] at either end. *)
Lemma strip_by_ends (p : N -> bool) (s : str) (c : N) :
  (head (strip_by p s) = Some c -> p c = false) /\
  (last (strip_by p s) = Some c -> p c = false).
Proof.
  split.
  - unfold strip_by. rewrite <- lstrip_rstrip_comm. apply lstrip_by_first.
  - rewrite last_rev_head. unfold strip_by, rstrip_by. rewrite rev_involutive.
    apply lstrip_by_first.
Qed.

Lemma strip_trimmed (s : str) : strip s ≠ [] -> trimmed (strip s) /\ strip (strip s) = strip s.
Proof.
  intros H. split; [|apply strip_by_idem].
  split; [exact H|]. split; intros c; apply strip_by_ends.
Qed.

(** [s.replace("\n", new)] leaves no line feed when [new] has none, and
    leaves text where there was text. *)
Lemma replace_nl_go (new : str) (s : str) :
  (10%N ∉ new) -> new ≠ [] ->
  (10%N ∉ replace_go nl new 0 s) /\ (s ≠ [] -> replace_go nl new 0 s ≠ []).
Proof.
  intros Hnew Hne. induction s as [|c s [IH1 IH2]]; simpl.
  - split; [apply not_elem_of_nil | congruence].
  - unfold startswith. simpl. destruct (decide (10%N = c)) as [<-|Hc]; simpl.
    + split.
      * rewrite elem_of_app. tauto.
      * intros _ H. apply app_eq_nil in H as [H _]. contradiction.
    + split; [|discriminate]. rewrite elem_of_cons. tauto.
Qed.

Lemma br_has_no_line_feed : (10%N ∉ lit "<br/>") /\ lit "<br/>" ≠ [].
Proof. split; [apply (bool_decide_unpack _); vm_compute; exact I | tag_neq]. Qed.

Lemma paragraph_trimmed (content para : str) :
  para ∈ paragraphs content -> trimmed para /\ strip para = para.
Proof.
  unfold paragraphs. intros Hin.
  apply list_elem_of_In, in_map_iff in Hin as (piece & <- & Hin).
  apply list_elem_of_In, list_elem_of_filter in Hin as [Hne _].
  apply strip_trimmed. exact Hne.
Qed.

(** X1. The paragraphs the compile stage takes from a chapter, for the
    DOCX and for the PDF alike, are trimmed texts: none is empty, none
    begins or ends with a blank, and stripping one again changes nothing. *)
Theorem paragraphs_are_trimmed (content : str) :
  Forall (fun para => trimmed para /\ strip para = para) (paragraphs content).
Proof.
  apply Forall_forall. intros para Hin. exact (paragraph_trimmed content para Hin).
Qed.

(** X2. The story of the PDF is the DOCX block by block: the title
    heading becomes the title paragraph and a spacer, a chapter heading
    becomes a heading paragraph, and every paragraph becomes a paragraph
    with its line feeds replaced, followed by a spacer.  The two documents
    hold the same chapters and the same paragraphs, in the same order. *)
Theorem pdf_story_follows_docx (row : BookRow) (st : BookState)
    (chapters : list ChapterRow) :
  pdf_story row st chapters = concat (map pdf_of_docx (docx_blocks row st chapters)).
Proof.
  unfold pdf_story, docx_blocks. cbn [map concat pdf_of_docx Z.eqb app].
  do 2 f_equal.
  induction chapters as [|c chapters IH]; [reflexivity|].
  cbn [map concat]. rewrite map_app, concat_app, <- IH.
  cbn [map concat pdf_of_docx Z.eqb app]. do 2 f_equal.
  rewrite map_map. reflexivity.
Qed.

Lemma pdf_story_normal row st chapters text :
  Paragraph text StyleNormal ∈ pdf_story row st chapters ->
  exists c para,
    c ∈ chapters /\ para ∈ paragraphs (or_empty (crow_content c)) /\
    text = replace nl (lit "<br/>") para.
Proof.
  unfold pdf_story. rewrite !elem_of_cons.
  intros [H|[H|H]]; [discriminate H | discriminate H |].
  apply list_elem_of_In, in_concat in H as (l & Hl & Hin).
  apply in_map_iff in Hl as (c & <- & Hc).
  destruct Hin as [H|Hin]; [discriminate H|].
  apply in_concat in Hin as (l & Hl & Hin).
  apply in_map_iff in Hl as (para & <- & Hp).
  exists c, para. rewrite !list_elem_of_In. split; [exact Hc|]. split; [exact Hp|].
  destruct Hin as [H|[H|[]]]; [congruence | discriminate H].
Qed.

(** X3. Every body paragraph of the PDF story is one line of markup: it
    holds no line feed (each was replaced by a break tag) and it is not
    empty. *)
Theorem pdf_story_paragraphs_one_line (row : BookRow) (st : BookState)
    (chapters : list ChapterRow) (text : str) :
  Paragraph text StyleNormal ∈ pdf_story row st chapters ->
  (10%N ∉ text) /\ text ≠ [].
Proof.
  intros H. apply pdf_story_normal in H as (c & para & _ & Hp & ->).
  destruct (paragraph_trimmed _ _ Hp) as [[Hne _] _].
  destruct br_has_no_line_feed as [H1 H2].
  destruct (replace_nl_go (lit "<br/>") para H1 H2) as [Ha Hb].
  split; [exact Ha | apply Hb, Hne].
Qed.

Lemma pdf_story_paragraphs_one_line_witness :
  Paragraph (lit "The sea rises.") StyleNormal
    ∈ pdf_story Worlds.reviewed_book (Worlds.fresh None 2 3) Worlds.two_chapters /\
  (10%N ∉ lit "The sea rises.") /\ lit "The sea rises." ≠ [].
Proof.
  assert (H : Paragraph (lit "The sea rises.") StyleNormal
                ∈ pdf_story Worlds.reviewed_book (Worlds.fresh None 2 3) Worlds.two_chapters).
  { vm_compute. do 3 (apply elem_of_cons; right). apply elem_of_cons; left; reflexivity. }
  split; [exact H|].
  exact (pdf_story_paragraphs_one_line _ _ _ _ H).
Defined.

(* ===================================================================== *)
(** ** The notification channels *)
(* ===================================================================== *)

(** The effects in front of [h0] in a history [l] that extends it. *)
Ltac prefix_of l h0 :=
  lazymatch l with
  | h0 => constr:(@nil Effect)
  | ?x :: ?l' => let r := prefix_of l' h0 in constr:(x :: r)
  end.

(** Naming what a computation added, when the goal states it of an
    explicit history. *)
Ltac exists_added :=
  lazymatch goal with
  | |- exists k, ?l = k ++ ?h0 /\ _ => let k := prefix_of l h0 in exists k
  end.


(** X4. The Teams sender never raises: without a webhook URL it does
    nothing at all, and with one it posts the text once and drops
    whatever the post raises. *)
Theorem send_teams_message_never_raises (env : Env) (text : str) (h : History) :
  send_teams_message env text h
  = (Ok tt,
     if truthy (TEAMS_WEBHOOK_URL env)
     then ETeamsPost (or_empty (TEAMS_WEBHOOK_URL env)) text :: h
     else h).
Proof.
  unfold send_teams_message. unfold_stage.
  destruct (truthy (TEAMS_WEBHOOK_URL env)); cbn [negb]; [|reflexivity].
  destruct (teams_post env h _ text) as [[]|e]; reflexivity.
Qed.


(** When the message can be assembled send_email returns, whatever the
    mail server does, and what it adds to the history holds no write to
    the datastore, no call of the model and no upload. *)
Lemma send_email_returns (env : Env) (subject body : str) (h : History) :
  let cfg := smtp_config env in
  (smtp_configured cfg = true ->
   email_message env (ELog LDebug (email_config_line cfg) :: h)
     (email_of cfg subject body) = Ok tt) ->
  exists k,
    send_email env subject body h = (Ok tt, k ++ h) /\
    forallb (fun e => negb (is_write e || is_llm e || is_upload e)) k = true.
Proof.
  cbv zeta. intros Hm. unfold send_email, with_smtp. unfold_stage.
  destruct (smtp_configured (smtp_config env)); cbn [negb].
  2: { eexists [_]. split; reflexivity. }
  rewrite (Hm eq_refl).
  repeat case_match; simplify_eq.
  all: match goal with
       | |- exists k, (_, ?l) = (_, k ++ ?h0) /\ _ => let k := prefix_of l h0 in exists k
       end.
  all: split; reflexivity.
Qed.

(** X6. The notification stage.  Without an event in the state it does
    nothing and touches nothing.  With one, and a datastore client, it
    always gets to the insert of the audit record of that event, whatever
    the mail server and the webhook answer: a refused login, a lost
    connection or an unreachable webhook does not keep the record from
    being written.  (Only assembling the mail itself can stop the stage
    earlier.)  The insert is the last act and the only write of the
    stage, and the stage returns the state as it was exactly when the
    insert returns. *)
Theorem notify_records_event (env : Env) (st : BookState) (h : History) :
  (truthy (event st) = false -> notify env st h = (Ok st, h)) /\
  (truthy (event st) = true ->
   supabase_configured env = true ->
   let cfg := smtp_config env in
   let tag := or_empty (event st) in
   let subject := lit "[Book System] Event: " ++ tag in
   let body := lit "Event: " ++ tag ++ nl ++ lit "Book ID: " ++ book_id st
               ++ nl ++ lit "Title: " ++ title st in
   let record := notification_payload (book_id st) tag subject body in
   let announced := ELog LInfo (lit "Sending notification: " ++ tag) :: h in
   (smtp_configured cfg = true ->
    email_message env (ELog LDebug (email_config_line cfg) :: announced)
      (email_of cfg subject body) = Ok tt) ->
   exists k,
     snd (notify env st h) = EWrite (InsertNotification record) :: k ++ h /\
     forallb (fun e => negb (is_write e || is_llm e || is_upload e)) k = true /\
     fst (notify env st h)
     = match execute_write env (k ++ h) (InsertNotification record) with
       | Ok _ => Ok st
       | Raise e => Raise e
       end).
Proof.
  split.
  - intros He. unfold notify. rewrite He. reflexivity.
  - intros He Hs. cbv zeta. intros Hm.
    unfold notify. rewrite He. cbn [negb].
    unfold send_teams_message. unfold_stage. rewrite Hs.
    match goal with
    | |- context [send_email env ?s ?b ?hh] =>
        destruct (send_email_returns env s b hh Hm) as (k & Hk & Hf); rewrite Hk
    end.
    destruct (truthy (TEAMS_WEBHOOK_URL env)); cbn [negb].
    + exists (ETeamsPost (or_empty (TEAMS_WEBHOOK_URL env))
                (lit "Event: " ++ or_empty (event st) ++ nl ++ lit "Book ID: "
                 ++ book_id st ++ nl ++ lit "Title: " ++ title st)
              :: k ++ [ELog LInfo (lit "Sending notification: " ++ or_empty (event st))]).
      cbn [app]. rewrite <- !app_assoc. cbn [app].
      destruct (teams_post env _ _ _) as [[]|e];
        (destruct (execute_write env _ _); cbn [fst snd];
         (split; [reflexivity|]); (split; [|reflexivity]);
         cbn [forallb is_write is_llm is_upload orb negb andb];
         rewrite forallb_app, Hf; reflexivity).
    + exists (k ++ [ELog LInfo (lit "Sending notification: " ++ or_empty (event st))]).
      rewrite <- !app_assoc. cbn [app].
      destruct (execute_write env _ _); cbn [fst snd];
        (split; [reflexivity|]); (split; [|reflexivity]);
        rewrite forallb_app, Hf; reflexivity.
Qed.

(** A state without an event; and an event in a world where both
    channels fail: the mail server refuses the password, the webhook
    cannot be reached, and the record is inserted all the same. *)
Lemma notify_records_event_witness :
  let st := set_event (lit "book_compiled") (Worlds.fresh None 2 3) in
  let tag := lit "book_compiled" in
  let subject := lit "[Book System] Event: " ++ tag in
  let body := lit "Event: " ++ tag ++ nl ++ lit "Book ID: " ++ book_id st
              ++ nl ++ lit "Title: " ++ title st in
  notify failing_channels (Worlds.fresh None 2 3) [] = (Ok (Worlds.fresh None 2 3), []) /\
  exists k,
    snd (notify failing_channels st [])
    = EWrite (InsertNotification (notification_payload (book_id st) tag subject body))
      :: k ++ [] /\
    existsb is_smtp k = true /\
    existsb (fun e => match e with ETeamsPost _ _ => true | _ => false end) k = true /\
    fst (notify failing_channels st []) = Ok st.
Proof.
  cbv zeta.
  split; [exact (proj1 (notify_records_event failing_channels (Worlds.fresh None 2 3) [])
                   eq_refl)|].
  destruct (proj2 (notify_records_event failing_channels
                     (set_event (lit "book_compiled") (Worlds.fresh None 2 3)) [])
              ltac:(vm_compute; reflexivity) eq_refl
              ltac:(intros _; vm_compute; reflexivity))
    as (k & Hk & _ & Hr).
  pose proof Hk as Hk'. rewrite app_nil_r in Hk'.
  apply (f_equal tail) in Hk'. cbn [tail] in Hk'.
  exists k. split; [exact Hk|]. rewrite <- Hk'.
  split; [vm_compute; reflexivity|]. split; [vm_compute; reflexivity | exact Hr].
Defined.

(** X7. The audit record says [sent] on the channel [email+teams] even
    when neither channel is configured: with no SMTP settings and no
    webhook URL the stage contacts no mail server and no webhook, and
    still inserts the record with that status. *)
Theorem notify_records_sent_without_channel (env : Env) (st : BookState) (h : History) :
  supabase_configured env = true ->
  smtp_configured (smtp_config env) = false ->
  truthy (TEAMS_WEBHOOK_URL env) = false ->
  truthy (event st) = true ->
  let tag := or_empty (event st) in
  let subject := lit "[Book System] Event: " ++ tag in
  let body := lit "Event: " ++ tag ++ nl ++ lit "Book ID: " ++ book_id st
              ++ nl ++ lit "Title: " ++ title st in
  let record := notification_payload (book_id st) tag subject body in
  snd (notify env st h)
  = [EWrite (InsertNotification record);
     ELog LDebug (lit "Email not configured - skipping");
     ELog LInfo (lit "Sending notification: " ++ tag)] ++ h /\
  record !! lit "status" = Some (JStr (lit "sent")) /\
  record !! lit "channel" = Some (JStr (lit "email+teams")) /\
  record !! lit "type" = Some (JStr tag).
Proof.
  intros Hs Hc Ht He. cbv zeta. split.
  - unfold notify, send_email, send_teams_message. rewrite He. unfold_stage.
    rewrite Hs, Hc, Ht. cbn [negb].
    destruct (execute_write env _ _); reflexivity.
  - unfold notification_payload.
    split; [|split].
    + do 4 (rewrite lookup_insert_ne by tag_neq). apply lookup_insert_eq.
    + do 2 (rewrite lookup_insert_ne by tag_neq). apply lookup_insert_eq.
    + rewrite lookup_insert_ne by tag_neq. apply lookup_insert_eq.
Qed.

Lemma notify_records_sent_without_channel_witness :
  let st := set_event (lit "book_compiled") (Worlds.fresh None 2 3) in
  let tag := or_empty (event st) in
  let subject := lit "[Book System] Event: " ++ tag in
  let body := lit "Event: " ++ tag ++ nl ++ lit "Book ID: " ++ book_id st
              ++ nl ++ lit "Title: " ++ title st in
  let record := notification_payload (book_id st) tag subject body in
  snd (notify Worlds.scenario1 st [])
  = [EWrite (InsertNotification record);
     ELog LDebug (lit "Email not configured - skipping");
     ELog LInfo (lit "Sending notification: " ++ tag)] ++ [] /\
  record !! lit "status" = Some (JStr (lit "sent")) /\
  record !! lit "channel" = Some (JStr (lit "email+teams")) /\
  record !! lit "type" = Some (JStr tag).
Proof.
  apply (notify_records_sent_without_channel Worlds.scenario1
           (set_event (lit "book_compiled") (Worlds.fresh None 2 3)) []).
  - reflexivity.
  - reflexivity.
  - reflexivity.
  - vm_compute. reflexivity.
Defined.

(* ===================================================================== *)
(** ** What the stages change, and what they leave alone *)
(* ===================================================================== *)

Section StageFrames.

Variable env : Env.

(** The state the outline stage returns. *)
Lemma generate_outline_frame st h st' h' :
  generate_outline env st h = (Ok st', h') ->
  st' = set_event (lit "missing_notes_on_outline_before") st
  \/ exists content,
       st' = set_event (lit "outline_generated")
               (with_outline (Some (strip content)) (target_chapter_count env) st).
Proof.
  unfold generate_outline. intros H. run_stage; eauto.
Qed.

(** An outline stage that ends with [outline_generated] has asked the
    model, and the outline it kept is the answer stripped. *)
Lemma generate_outline_generated st h st' h' :
  generate_outline env st h = (Ok st', h') ->
  event st' = Some (lit "outline_generated") ->
  exists content,
    let count := target_chapter_count env in
    let prompt := OutlinePrompt (title st) (notes_on_outline_before st)
                    (or_empty (notes_on_outline_after st)) count in
    let asked := ELog LInfo (lit "Generating outline...") :: h in
    llm_invoke env asked prompt = Ok content /\
    st' = set_event (lit "outline_generated")
            (with_outline (Some (strip content)) count st) /\
    (ELlm prompt :: asked) `suffix_of` h'.
Proof.
  unfold generate_outline. intros H He. cbv zeta. run_stage.
  { exfalso. rewrite event_set_event in He. revert He. tag_neq. }
  eexists. split; [eassumption|]. split; [reflexivity|]. solve_suffix.
Qed.

(** The outline router names the chapter stage only after it has read
    the flag again and the answer was [no_notes_needed]. *)
Lemma router_after_outline_proceeds st h st2 h2 :
  _router_after_outline env st h = (Ok (st2, lit "generate_next_chapter"), h2) ->
  let read := ESelectBook (lit "status_outline_notes") (book_id st) in
  exists row,
    select_book env h (lit "status_outline_notes") (book_id st) = Ok row /\
    row_status_outline_notes row = Some (lit "no_notes_needed") /\
    h2 = ELog LInfo (lit "Outline approved, proceeding to chapter generation")
         :: read :: h.
Proof.
  unfold _router_after_outline. intros H. cbv zeta. run_stage.
  all: try match goal with
           | L : lit "notify" = lit "generate_next_chapter" |- _ =>
               exfalso; revert L; tag_neq
           end.
  eexists. split; [eassumption|]. split; [assumption | reflexivity].
Qed.

(** The state the chapter stage returns: the summaries it was given or
    those read for it, and then either a pause or one more chapter. *)
Lemma generate_next_chapter_frame st h st' h' :
  generate_next_chapter env st h = (Ok st', h') ->
  let n := current_chapter_number st in
  exists css,
    (css = chapter_summaries st \/ (chapter_summaries st = [] /\ 1 < n)) /\
    ((event st' <> Some (lit "chapter_generated") /\
      exists tag, st' = set_event tag (with_chapters n css st))
     \/ exists smry,
          st' = set_event (lit "chapter_generated")
                  (with_chapters (n + 1) (css ++ [{| chapter_number := n; summary := smry |}])
                     st)).
Proof.
  cbv zeta. unfold generate_next_chapter. unfold_stage. intros H.
  destruct (supabase_configured env); [|discriminate].
  destruct (total_chapters st <? current_chapter_number st) eqn:E.
  { simplify_eq. exists (chapter_summaries st). split; [auto|]. left.
    rewrite with_chapters_same, event_set_event. split; [tag_neq | eauto]. }
  match type of H with
  | context [backfill_summaries env st ?hh] =>
      destruct (backfill_summaries_Ok env st hh) as (css & h1 & Hb & _)
  end.
  assert (Hcss : css = chapter_summaries st
                 \/ (chapter_summaries st = [] /\ 1 < current_chapter_number st)).
  { destruct (bool_decide (chapter_summaries st = []) && (1 <? current_chapter_number st))
      eqn:C.
    - right. bools. auto.
    - left. unfold backfill_summaries in Hb. rewrite C in Hb. unfold ret in Hb.
      injection Hb as Hst _. apply (f_equal chapter_summaries) in Hst.
      cbn [chapter_summaries with_chapters] in Hst. congruence. }
  rewrite Hb in H. rewrite chapter_gate_row_Ok in H. state_simpl.
  exists css. split; [exact Hcss|].
  repeat case_match; simplify_eq; state_simpl.
  all: first
    [ left; rewrite event_set_event; split; [tag_neq | eauto]
    | apply write_chapter_Ok in H as (hl & text & body & smry & _ & _ & _ & -> & _);
      state_simpl; right; exists smry; destruct st; reflexivity ].
Qed.

(** The state the compile stage returns. *)
Lemma compile_book_frame st h st' h' :
  compile_book env st h = (Ok st', h') ->
  st' = set_event (lit "final_review_not_ready") st
  \/ st' = set_event (lit "book_compiled")
             (with_book_output_status (Some (lit "ready")) st).
Proof.
  unfold compile_book. unfold_stage. intros H.
  repeat match type of H with
  | context [pdf_build_and_upload env ?s ?story ?hh] =>
      destruct (pdf_build_and_upload_never_raises env s story hh) as (k & Hk & _);
      rewrite Hk in H; clear Hk
  | context [match ?x with _ => _ end] =>
      lazymatch x with
      | context [match _ with _ => _ end] => fail
      | _ => destruct x eqn:?; try discriminate
      end
  end.
  all: simplify_eq; auto.
Qed.

End StageFrames.

(** X8. The outline stage, whatever the world answers.  It calls the
    model at most once.  When it returns with [outline_generated], it
    asked the model once, for this book and the configured chapter count,
    and then wrote once: the outline kept in the state is the answer of
    the model stripped of its blanks, the update stores that text with
    status [generated] and the configured chapter count, and the state
    holds the same count.  When it raises, either it wrote nothing or the
    write itself is what raised. *)
Theorem outline_stage_effects (env : Env) (st : BookState) (h : History) :
  exists k,
    snd (generate_outline env st h) = k ++ h /\
    (length (List.filter is_llm k) <= 1)%nat /\
    match fst (generate_outline env st h) with
    | Ok st' =>
        (event st' = Some (lit "missing_notes_on_outline_before") /\
         List.filter (fun e => is_llm e || is_write e) k = [])
        \/ exists content,
             let count := target_chapter_count env in
             let prompt := OutlinePrompt (title st) (notes_on_outline_before st)
                             (or_empty (notes_on_outline_after st)) count in
             llm_invoke env (ELog LInfo (lit "Generating outline...") :: h) prompt
             = Ok content /\
             st' = set_event (lit "outline_generated")
                     (with_outline (Some (strip content)) count st) /\
             event st' = Some (lit "outline_generated") /\
             outline st' = Some (strip content) /\
             total_chapters st' = count /\
             List.filter (fun e => is_llm e || is_write e) k
             = [EWrite (UpdateBook (book_id st) (outline_payload (strip content) count));
                ELlm prompt]
    | Raise e =>
        List.filter is_write k = []
        \/ exists hw w, head k = Some (EWrite w) /\ execute_write env hw w = Raise e
    end.
Proof.
  destruct (generate_outline env st h) as [r h'] eqn:E. cbn [fst snd].
  unfold generate_outline in E. unfold_stage.
  repeat case_match; simplify_eq; exists_added.
  all: split; [reflexivity|]; split; [cbn [List.filter is_llm length]; lia|].
  all: cbn [List.filter is_llm is_write orb head]; state_simpl.
  all: try (left; split; [apply event_set_event | reflexivity]; fail).
  all: try (left; reflexivity).
  - right. eexists. cbv zeta. split; [eassumption|].
    split; [reflexivity|]. split; [apply event_set_event|].
    split; [reflexivity|]. split; reflexivity.
  - right. eauto.
Qed.

(** X9. A chapter stage that ends without [chapter_generated] (the
    chapters are all done, the editor's notes are awaited, or the flag is
    not recognised) has not called the model, has written nothing and has
    uploaded nothing: it only read, and the chapter index is where it
    was. *)
Theorem chapter_stage_pauses_silently (env : Env) (st st' : BookState) (h h' : History) :
  generate_next_chapter env st h = (Ok st', h') ->
  event st' <> Some (lit "chapter_generated") ->
  current_chapter_number st' = current_chapter_number st /\
  exists k,
    h' = k ++ h /\
    forallb (fun e => negb (is_llm e || is_write e || is_upload e)) k = true.
Proof.
  intros H Hev.
  destruct (generate_next_chapter_Ok env st h st' h' H) as (_ & [(He & _)|(_ & Hi)]);
    [contradiction|].
  split; [exact Hi|].
  revert H. unfold generate_next_chapter. unfold_stage.
  destruct (supabase_configured env); [|discriminate].
  destruct (total_chapters st <? current_chapter_number st).
  { intros [= <- <-]. exists_added. split; reflexivity. }
  match goal with
  | |- context [backfill_summaries env st ?hh] =>
      destruct (backfill_summaries_Ok env st hh) as (css & h1 & Hb & Hh1)
  end.
  rewrite Hb, chapter_gate_row_Ok. state_simpl.
  repeat case_match; intros Hrun; simplify_eq.
  all: try (apply write_chapter_Ok in Hrun as (? & ? & ? & ? & _ & _ & _ & -> & _);
            exfalso; apply Hev, event_set_event).
  all: destruct Hh1 as [-> | ->]; exists_added; split; reflexivity.
Qed.

Lemma chapter_stage_pauses_silently_witness :
  let st := Worlds.fresh None 2 3 in
  let st' := set_event (lit "all_chapters_done") st in
  current_chapter_number st' = current_chapter_number st /\
  exists k,
    [ELog LInfo (lit "All " ++ str_of_Z 2 ++ lit " chapters completed")] = k ++ [] /\
    forallb (fun e => negb (is_llm e || is_write e || is_upload e)) k = true.
Proof.
  cbv zeta.
  apply (chapter_stage_pauses_silently Worlds.scenario1 (Worlds.fresh None 2 3)
           (set_event (lit "all_chapters_done") (Worlds.fresh None 2 3)) []
           [ELog LInfo (lit "All " ++ str_of_Z 2 ++ lit " chapters completed")]).
  - reflexivity.
  - rewrite event_set_event. tag_neq.
Defined.

(** Validating the rows of the summaries: all or nothing. *)
Lemma summaries_of_rows_all rows h :
  fst (summaries_of_rows rows h)
  = if forallb (fun r => bool_decide (srow_summary r <> None)) rows
    then Ok (map (fun r => {| chapter_number := srow_chapter_number r;
                              summary := or_empty (srow_summary r) |}) rows)
    else Raise {| exc_class := ValidationError; exc_msg := lit "ChapterSummary" |}.
Proof.
  induction rows as [|r rows IH]; [reflexivity|].
  cbn [summaries_of_rows forallb map]. destruct (srow_summary r) as [s|] eqn:E.
  - rewrite bool_decide_eq_true_2 by discriminate. cbn [andb].
    unfold bind, ret. destruct (summaries_of_rows rows h) as [[css|e] h1].
    + cbn [fst] in *. destruct (forallb _ rows); [|discriminate].
      injection IH as ->. reflexivity.
    + cbn [fst] in *. destruct (forallb _ rows); [discriminate|]. exact IH.
  - rewrite bool_decide_eq_false_2 by (intros H; apply H; reflexivity). reflexivity.
Qed.

(** X10. The backfill of the chapter summaries never raises and never
    writes.  It reads only for a state without summaries whose chapter
    is not the first.  What it read replaces the summaries only when
    every row holds a summary: a failed read, no row, or a single row
    without a summary leaves the state exactly as it was. *)
Theorem backfill_summaries_all_or_nothing (env : Env) (st : BookState) (h : History) :
  let n := current_chapter_number st in
  let read := ESelectChapterSummaries (book_id st) n in
  (chapter_summaries st <> [] \/ n <= 1 ->
   backfill_summaries env st h = (Ok st, h)) /\
  (chapter_summaries st = [] /\ 1 < n ->
   backfill_summaries env st h
   = (Ok match select_chapter_summaries env h (book_id st) n with
         | Ok rows =>
             if forallb (fun r => bool_decide (srow_summary r <> None)) rows
             then with_chapters n
                    (map (fun r => {| chapter_number := srow_chapter_number r;
                                      summary := or_empty (srow_summary r) |}) rows) st
             else st
         | Raise _ => st
         end,
      read :: h)).
Proof.
  cbv zeta. unfold backfill_summaries. unfold_stage. split.
  - intros [Hne|Hle].
    + rewrite bool_decide_eq_false_2 by exact Hne. reflexivity.
    + rewrite (proj2 (Z.ltb_ge _ _) Hle), andb_false_r. reflexivity.
  - intros [He Hlt].
    rewrite bool_decide_eq_true_2 by exact He.
    rewrite (proj2 (Z.ltb_lt _ _) Hlt). cbn [andb].
    destruct (select_chapter_summaries env h _ _) as [rows|e]; [|reflexivity].
    destruct rows as [|r rows].
    { cbn [forallb map]. rewrite <- He at 1. rewrite with_chapters_same. reflexivity. }
    match goal with
    | |- context [summaries_of_rows ?l ?hh] =>
        pose proof (summaries_of_rows_all l hh) as Ha;
        pose proof (summaries_of_rows_pure l hh) as Hp;
        destruct (summaries_of_rows l hh) as [[css|e] h1]
    end; cbn [fst snd] in Ha, Hp; subst h1.
    + destruct (forallb _ (r :: rows)); [|discriminate]. injection Ha as ->. reflexivity.
    + destruct (forallb _ (r :: rows)); [discriminate|]. reflexivity.
Qed.

Lemma backfill_summaries_all_or_nothing_witness :
  backfill_summaries Worlds.scenario1 (Worlds.fresh None 2 1) []
  = (Ok (Worlds.fresh None 2 1), []) /\
  backfill_summaries Worlds.scenario1 (Worlds.fresh None 2 2) []
  = (Ok (with_chapters 2 [] (Worlds.fresh None 2 2)),
     [ESelectChapterSummaries (lit "b1") 2]).
Proof.
  split.
  - apply (proj1 (backfill_summaries_all_or_nothing Worlds.scenario1
                    (Worlds.fresh None 2 1) [])).
    right. simpl. lia.
  - apply (proj2 (backfill_summaries_all_or_nothing Worlds.scenario1
                    (Worlds.fresh None 2 2) [])).
    split; [reflexivity | simpl; lia].
Defined.

(* ===================================================================== *)
(** ** The history only grows *)
(* ===================================================================== *)

Section Grows.

Variable env : Env.

Lemma grows_ret {A} (a : A) : grows (ret a).
Proof. intros h. reflexivity. Qed.

Lemma grows_raise {A} (e : PyExc) : grows (@raise A e).
Proof. intros h. reflexivity. Qed.

Lemma grows_lift {A} (r : Res A) : grows (lift r).
Proof. intros h. reflexivity. Qed.

Lemma grows_log level message : grows (log level message).
Proof. intros h. apply suffix_cons_r. reflexivity. Qed.

Lemma grows_call {A} request (answer : History -> Res A) : grows (call request answer).
Proof. intros h. apply suffix_cons_r. reflexivity. Qed.

Lemma grows_bind {A B} (m : M A) (k : A -> M B) :
  grows m -> (forall a, grows (k a)) -> grows (bind m k).
Proof.
  intros Hm Hk h. unfold bind. specialize (Hm h).
  destruct (m h) as [[a|e] h1]; cbn [snd] in *; [|exact Hm].
  etrans; [exact Hm | apply Hk].
Qed.

Lemma grows_try_except {A} (m : M A) (handler : PyExc -> M A) :
  grows m -> (forall e, grows (handler e)) -> grows (try_except m handler).
Proof.
  intros Hm Hk h. unfold try_except. specialize (Hm h).
  destruct (m h) as [[a|e] h1]; cbn [snd] in *; [exact Hm|].
  etrans; [exact Hm | apply Hk].
Qed.

Lemma grows_for_each {A} (f : A -> M unit) (l : list A) :
  (forall a, grows (f a)) -> grows (for_each f l).
Proof.
  intros Hf. induction l as [|a l IH]; cbn [for_each].
  - apply grows_ret.
  - apply grows_bind; [apply Hf | intros _; exact IH].
Qed.

Lemma grows_summaries_of_rows rows : grows (summaries_of_rows rows).
Proof. intros h. rewrite summaries_of_rows_pure. reflexivity. Qed.

Lemma grows_with_smtp {A} host port (body : M A) :
  grows body -> grows (with_smtp env host port body).
Proof.
  intros Hb. unfold with_smtp. apply grows_bind; [apply grows_call|].
  intros _ h. specialize (Hb h).
  destruct (body h) as [[a|e] h1]; cbn [snd] in *;
    destruct (smtp_quit env h1); cbn [snd]; apply suffix_cons_r; exact Hb.
Qed.

End Grows.

(** One step of a proof that a computation only adds to the history,
    along the structure of the computation. *)
Ltac grows_step :=
  cbv beta zeta;
  lazymatch goal with
  | |- grows (ret _) => apply grows_ret
  | |- grows (raise _) => apply grows_raise
  | |- grows (lift _) => apply grows_lift
  | |- grows (log _ _) => apply grows_log
  | |- grows (call _ _) => apply grows_call
  | |- grows (summaries_of_rows _) => apply grows_summaries_of_rows
  | |- grows (with_smtp _ _ _ _) => apply grows_with_smtp
  | |- grows (bind _ _) => apply grows_bind; [|intros ?]
  | |- grows (try_except _ _) => apply grows_try_except; [|intros ?]
  | |- grows (for_each _ _) => apply grows_for_each; intros ?
  | |- grows (if ?b then _ else _) => destruct b
  | |- grows (match ?x with _ => _ end) => destruct x
  end.

Ltac grows_stage :=
  unfold get_supabase, get_llm, llm, db_write, db_select_book, storage_upload_,
    storage_get_public_url;
  repeat grows_step.

Section GrowsStages.

Variable env : Env.

Lemma grows_load_initial_state id : grows (load_initial_state env id).
Proof. unfold load_initial_state. grows_stage. Qed.

Lemma grows_node_function n st : grows (node_function env n st).
Proof.
  destruct n; cbn [node_function].
  - unfold generate_outline. grows_stage.
  - unfold generate_next_chapter, backfill_summaries, chapter_gate_row, write_chapter.
    grows_stage.
  - unfold compile_book, pdf_build_and_upload. grows_stage.
    all: unfold make_flowable; grows_stage.
  - unfold notify, send_email, send_teams_message. grows_stage.
Qed.

Lemma grows_next_node n st : grows (next_node env n st).
Proof.
  unfold next_node. destruct n; cbn [router]; unfold _router_after_outline; grows_stage.
Qed.

(** A run of the engine only adds to the history. *)
Lemma grows_invoke_from fuel : forall n st h,
  h `suffix_of` snd (invoke_from env fuel n st h).
Proof.
  induction fuel as [|fuel IH]; intros n st h; [reflexivity|].
  pose proof (grows_node_function n st h) as H1.
  destruct (node_function env n st h) as [[st1|e] h1] eqn:Hn; cbn [snd] in H1.
  2: { rewrite (invoke_from_raise _ _ _ _ _ _ _ Hn). exact H1. }
  rewrite (invoke_from_S _ _ _ _ _ _ _ Hn). cbv zeta.
  pose proof (grows_next_node n st1 h1) as H2.
  destruct (next_node env n st1 h1) as [[[st2 [n'|]]|e] h2]; cbn [snd] in H2.
  2-3: cbn [snd]; etrans; eassumption.
  specialize (IH n' st2 h2).
  destruct (invoke_from env fuel n' st2 h2) as [[out trace] h3]. cbn [snd] in *.
  etrans; [exact H1|]. etrans; eassumption.
Qed.

Lemma grows_run_book_flow fuel id h :
  h `suffix_of` snd (run_book_flow env fuel id h).
Proof.
  unfold run_book_flow. pose proof (grows_load_initial_state id h) as H1.
  destruct (load_initial_state env id h) as [[st|e] h1]; cbn [snd] in *; [|exact H1].
  etrans; [exact H1 | apply grows_invoke_from].
Qed.

End GrowsStages.

(* ===================================================================== *)
(** ** Invariants of a run *)
(* ===================================================================== *)

Section EngineInvariants.

Variable env : Env.

(** The state handed on is the one the node returned. *)
Lemma next_node_same n st1 h1 st2 target h2 :
  next_node env n st1 h1 = (Ok (st2, target), h2) -> st2 = st1.
Proof.
  unfold next_node. destruct (router env n) as [route|]; unfold_stage.
  - destruct (route st1 h1) as [[r|e] hr]; [|discriminate].
    destruct (lookup_edge (snd r) (edge_map n)); [|discriminate].
    intros [= <- _ _]. reflexivity.
  - intros [= <- _ _]. reflexivity.
Qed.

(** A run ends normally only after the notification stage: every router
    of the other stages names a next stage. *)
Lemma next_node_end n st h st1 h1 st2 h2 :
  node_function env n st h = (Ok st1, h1) ->
  next_node env n st1 h1 = (Ok (st2, None), h2) ->
  n = notify_node /\ st2 = st1.
Proof.
  intros Hn. unfold next_node. destruct n; cbn [router node_function] in *; unfold_stage.
  - destruct (_router_after_outline env st1 h1) as [[[s label]|e] hr] eqn:E; [|discriminate].
    cbn [fst snd].
    apply router_after_outline_Ok in E as (_ & _ & [->|[-> _]]).
    + rewrite (proj1 edges_of_outline). discriminate.
    + rewrite (proj2 edges_of_outline). discriminate.
  - cbn [fst snd].
    destruct (router_after_chapter_cases st1) as [->|[(-> & _)| ->]].
    + rewrite (proj1 edges_of_chapter). discriminate.
    + rewrite (proj1 (proj2 edges_of_chapter)). discriminate.
    + rewrite (proj2 (proj2 edges_of_chapter)). discriminate.
  - cbn [fst snd].
    assert (Hr : _router_after_compile st1 = lit "notify").
    { apply compile_book_frame in Hn as [-> | ->]; unfold _router_after_compile;
        rewrite event_set_event.
      - rewrite bool_decide_eq_false_2 by tag_neq.
        rewrite bool_decide_eq_true_2 by reflexivity. reflexivity.
      - rewrite bool_decide_eq_true_2 by reflexivity. reflexivity. }
    rewrite Hr, (proj1 edges_of_compile). discriminate.
  - intros [= <- <-]. split; reflexivity.
Qed.

(** A property of the state a node is entered with that every step of
    the engine carries over holds at every node of every run. *)
Lemma invoke_from_invariant (P : Node -> BookState -> Prop) :
  (forall n st h st1 h1 st2 n' h2,
     P n st ->
     node_function env n st h = (Ok st1, h1) ->
     next_node env n st1 h1 = (Ok (st2, Some n'), h2) ->
     P n' st2) ->
  forall fuel n st h,
    P n st ->
    Forall (fun v => P (visit_node v) (visit_in v))
      (snd (fst (invoke_from env fuel n st h))).
Proof.
  intros Hstep. induction fuel as [|fuel IH]; intros n st h HP; [constructor|].
  destruct (node_function env n st h) as [[st1|e] h1] eqn:Hn.
  2: { rewrite (invoke_from_raise _ _ _ _ _ _ _ Hn). cbn [fst snd].
       constructor; [exact HP | constructor]. }
  rewrite (invoke_from_S _ _ _ _ _ _ _ Hn). cbv zeta.
  destruct (next_node env n st1 h1) as [[[st2 [n'|]]|e] h2] eqn:Hr; cbn [fst snd].
  2-3: constructor; [exact HP | constructor].
  specialize (IH n' st2 h2 (Hstep _ _ _ _ _ _ _ _ HP Hn Hr)).
  destruct (invoke_from env fuel n' st2 h2) as [[out trace] h3]. cbn [fst snd] in *.
  constructor; [exact HP | exact IH].
Qed.

(** The same for a property of the state and of the history a node is
    entered with: it holds at the point of the run where each node was
    entered. *)
Lemma invoke_from_invariant_at (P : Node -> BookState -> History -> Prop) :
  (forall n st h st1 h1 st2 n' h2,
     P n st h ->
     node_function env n st h = (Ok st1, h1) ->
     next_node env n st1 h1 = (Ok (st2, Some n'), h2) ->
     P n' st2 h2) ->
  forall fuel n st h,
    P n st h ->
    Forall (fun v =>
              exists entered,
                entered `suffix_of` snd (invoke_from env fuel n st h) /\
                fst (node_function env (visit_node v) (visit_in v) entered) = visit_out v /\
                P (visit_node v) (visit_in v) entered)
      (snd (fst (invoke_from env fuel n st h))).
Proof.
  intros Hstep. induction fuel as [|fuel IH]; intros n st h HP; [constructor|].
  pose proof (grows_invoke_from env (S fuel) n st h) as Hg.
  destruct (node_function env n st h) as [[st1|e] h1] eqn:Hn.
  2: { rewrite (invoke_from_raise _ _ _ _ _ _ _ Hn) in *. cbn [fst snd] in *.
       constructor; [|constructor]. exists h. cbn [visit_node visit_in visit_out].
       rewrite Hn. auto. }
  rewrite (invoke_from_S _ _ _ _ _ _ _ Hn) in *. cbv zeta in *.
  assert (Hhere : forall final,
            h `suffix_of` final ->
            exists entered,
              entered `suffix_of` final /\
              fst (node_function env n st entered) = Ok st1 /\ P n st entered).
  { intros final Hf. exists h. rewrite Hn. auto. }
  destruct (next_node env n st1 h1) as [[[st2 [n'|]]|e] h2] eqn:Hr; cbn [fst snd] in *.
  2-3: constructor; [apply Hhere, Hg | constructor].
  specialize (IH n' st2 h2 (Hstep _ _ _ _ _ _ _ _ HP Hn Hr)).
  destruct (invoke_from env fuel n' st2 h2) as [[out trace] h3]. cbn [fst snd] in *.
  constructor; [apply Hhere, Hg | exact IH].
Qed.

(** The chapter numbers grow by the next number. *)
Lemma chapter_numbers_S (n : nat) :
  chapter_numbers (S n) = chapter_numbers n ++ [Z.of_nat n + 1].
Proof.
  unfold chapter_numbers. rewrite seq_S, map_app. cbn [map]. do 2 f_equal. lia.
Qed.

(** In step, a state has no summaries only at the first chapter. *)
Lemma summaries_in_step_first st :
  summaries_in_step st -> chapter_summaries st = [] -> current_chapter_number st = 1.
Proof.
  intros (n & Hi & Hm) He. rewrite He in Hm. destruct n as [|n]; [lia|].
  rewrite chapter_numbers_S in Hm. symmetry in Hm. apply app_eq_nil in Hm as [_ Hm].
  discriminate Hm.
Qed.

(** Every step of the engine keeps the summaries in step. *)
Lemma summaries_in_step_kept n st h st1 h1 st2 n' h2 :
  summaries_in_step st ->
  node_function env n st h = (Ok st1, h1) ->
  next_node env n st1 h1 = (Ok (st2, Some n'), h2) ->
  summaries_in_step st2.
Proof.
  intros HP Hn Hr.
  apply next_node_same in Hr as ->.
  destruct n; cbn [node_function] in Hn.
  - apply generate_outline_frame in Hn as [-> | [c ->]]; exact HP.
  - apply generate_next_chapter_frame in Hn as (css & Hcss & Hst).
    destruct Hcss as [-> | [He Hlt]].
    2: { pose proof (summaries_in_step_first st HP He). lia. }
    destruct Hst as [(_ & tag & ->) | (smry & ->)].
    + rewrite with_chapters_same. exact HP.
    + destruct HP as (k & Hk & Hm). exists (S k). unfold summaries_in_step. state_simpl.
      split; [lia|]. rewrite map_app, Hm, chapter_numbers_S. cbn [map chapter_number].
      rewrite Hk. do 2 f_equal.
  - apply compile_book_frame in Hn as [-> | ->]; exact HP.
  - apply notify_Ok in Hn as ->. exact HP.
Qed.

(** The outline router's answer for the chapter stage, at the engine. *)
Lemma next_node_proceeds st1 h1 st2 h2 :
  next_node env generate_outline_node st1 h1
  = (Ok (st2, Some generate_next_chapter_node), h2) ->
  exists row,
    select_book env h1 (lit "status_outline_notes") (book_id st1) = Ok row /\
    row_status_outline_notes row = Some (lit "no_notes_needed") /\
    h2 = ELog LInfo (lit "Outline approved, proceeding to chapter generation")
         :: ESelectBook (lit "status_outline_notes") (book_id st1) :: h1.
Proof.
  unfold next_node. cbn [router]. unfold bind at 1.
  destruct (_router_after_outline env st1 h1) as [[[s label]|e] hr] eqn:E; [|discriminate].
  cbn [fst snd].
  pose proof (router_after_outline_Ok env _ _ _ _ _ E) as (_ & _ & [->|[-> _]]).
  - rewrite (proj1 edges_of_outline). unfold ret. discriminate.
  - rewrite (proj2 edges_of_outline). unfold ret. intros [= _ <-].
    exact (router_after_outline_proceeds env _ _ _ _ E).
Qed.

(** Every step of the engine that enters the chapter stage or the
    compile stage does so after the outline. *)
Lemma after_outline_kept n st h st1 h1 st2 n' h2 :
  after_outline env n st h ->
  node_function env n st h = (Ok st1, h1) ->
  next_node env n st1 h1 = (Ok (st2, Some n'), h2) ->
  after_outline env n' st2 h2.
Proof.
  intros HP Hn Hr.
  pose proof (next_node_Ok env _ _ _ _ _ _ Hr) as (_ & _ & Hedge).
  pose proof (next_node_same _ _ _ _ _ _ Hr) as ->.
  pose proof (grows_node_function env n st h) as G1. rewrite Hn in G1. cbn [snd] in G1.
  pose proof (grows_next_node env n st1 h1) as G2. rewrite Hr in G2. cbn [snd] in G2.
  destruct n, n'; cbn [edge_allowed] in Hedge; try contradiction; try exact I;
    cbn [node_function] in Hn; cbn [after_outline] in *.
  - destruct (generate_outline_generated env _ _ _ _ Hn Hedge) as (content & Hllm & -> & Hs).
    cbv zeta in Hllm, Hs.
    destruct (next_node_proceeds _ _ _ _ Hr) as (row & Hrow & Hstatus & ->).
    state_simpl. split; [|split; [reflexivity|]].
    + exists content, (ELog LInfo (lit "Generating outline...") :: h). cbv zeta.
      split; [|split; [exact Hllm | reflexivity]].
      do 2 apply suffix_cons_r. exact Hs.
    + exists row. eexists. split; [|split; [exact Hrow | exact Hstatus]].
      apply suffix_cons_r. reflexivity.
  - assert (Hkeep : title st1 = title st /\
                    notes_on_outline_before st1 = notes_on_outline_before st /\
                    notes_on_outline_after st1 = notes_on_outline_after st /\
                    outline st1 = outline st /\ total_chapters st1 = total_chapters st /\
                    book_id st1 = book_id st).
    { apply generate_next_chapter_frame in Hn as (css & _ & [(_ & tag & ->) | (smry & ->)]);
        state_simpl; repeat split; reflexivity. }
    destruct Hkeep as (-> & -> & -> & -> & -> & ->).
    destruct HP as ((content & h0 & Hc & Hllm & Ho) & Ht & (row & hr & Hsel & Hrow & Hstatus)).
    cbv zeta in Hc, Hllm.
    split; [|split; [exact Ht|]].
    + exists content, h0. cbv zeta. split; [|split; [exact Hllm | exact Ho]].
      etrans; [exact Hc|]. etrans; [exact G1 | exact G2].
    + exists row, hr. split; [|split; [exact Hrow | exact Hstatus]].
      etrans; [exact Hsel|]. etrans; [exact G1 | exact G2].
  - assert (Hkeep : title st1 = title st /\
                    notes_on_outline_before st1 = notes_on_outline_before st /\
                    notes_on_outline_after st1 = notes_on_outline_after st /\
                    outline st1 = outline st /\ total_chapters st1 = total_chapters st /\
                    book_id st1 = book_id st).
    { apply generate_next_chapter_frame in Hn as (css & _ & [(_ & tag & ->) | (smry & ->)]);
        state_simpl; repeat split; reflexivity. }
    destruct Hkeep as (-> & -> & -> & -> & -> & ->).
    destruct HP as ((content & h0 & Hc & Hllm & Ho) & Ht & (row & hr & Hsel & Hrow & Hstatus)).
    cbv zeta in Hc, Hllm.
    split; [|split; [exact Ht|]].
    + exists content, h0. cbv zeta. split; [|split; [exact Hllm | exact Ho]].
      etrans; [exact Hc|]. etrans; [exact G1 | exact G2].
    + exists row, hr. split; [|split; [exact Hrow | exact Hstatus]].
      etrans; [exact Hsel|]. etrans; [exact G1 | exact G2].
Qed.

End EngineInvariants.

(** X11. A run that ends normally ends with the notification stage:
    whatever node it starts from, the last node it entered is [notify],
    and its final state is the one [notify] returned.  The edge from the
    compile stage to the end of the graph is never taken, since the
    compile stage returns with one of the two events its router sends to
    [notify]. *)
Theorem finished_runs_end_with_notify (env : Env) (fuel : nat) (n : Node)
    (st : BookState) (h : History) :
  match invoke_from env fuel n st h with
  | (Finished final_state, trace, _) =>
      exists before v,
        trace = before ++ [v] /\
        visit_node v = notify_node /\
        visit_out v = Ok final_state
  | _ => True
  end.
Proof.
  revert n st h. induction fuel as [|fuel IH]; intros n st h; [exact I|].
  destruct (node_function env n st h) as [[st1|e] h1] eqn:Hn.
  2: { rewrite (invoke_from_raise _ _ _ _ _ _ _ Hn). exact I. }
  rewrite (invoke_from_S _ _ _ _ _ _ _ Hn). cbv zeta.
  destruct (next_node env n st1 h1) as [[[st2 [n'|]]|e] h2] eqn:Hr; [| |exact I].
  - specialize (IH n' st2 h2).
    destruct (invoke_from env fuel n' st2 h2) as [[[final| |] trace] h3]; try exact I.
    destruct IH as (before & v & -> & Hv & Hout).
    exists ({| visit_node := n; visit_in := st; visit_out := Ok st1 |} :: before), v.
    split; [reflexivity | auto].
  - destruct (next_node_end env _ _ _ _ _ _ _ Hn Hr) as [-> ->].
    exists [], {| visit_node := notify_node; visit_in := st; visit_out := Ok st1 |}.
    split; [reflexivity|]. split; reflexivity.
Qed.

(** X12. After the compile stage has returned, its router always names
    the notification stage: the state holds [book_compiled] or
    [final_review_not_ready], and the run goes on to [notify] with the
    state and the history as the stage left them. *)
Theorem compile_is_followed_by_notify (env : Env) (st st' : BookState) (h h' : History) :
  compile_book env st h = (Ok st', h') ->
  (event st' = Some (lit "book_compiled")
   \/ event st' = Some (lit "final_review_not_ready")) /\
  _router_after_compile st' = lit "notify" /\
  next_node env compile_book_node st' h' = (Ok (st', Some notify_node), h').
Proof.
  intros H.
  assert (He : event st' = Some (lit "book_compiled")
               \/ event st' = Some (lit "final_review_not_ready")).
  { apply compile_book_frame in H as [-> | ->]; rewrite event_set_event; auto. }
  assert (Hr : _router_after_compile st' = lit "notify").
  { unfold _router_after_compile. destruct He as [-> | ->].
    - rewrite bool_decide_eq_true_2 by reflexivity. reflexivity.
    - rewrite bool_decide_eq_false_2 by tag_neq.
      rewrite bool_decide_eq_true_2 by reflexivity. reflexivity. }
  split; [exact He|]. split; [exact Hr|].
  unfold next_node. cbn [router]. unfold_stage. cbn [fst snd].
  rewrite Hr, (proj1 edges_of_compile). reflexivity.
Qed.

Lemma compile_is_followed_by_notify_witness :
  let world := Worlds.world 2 Worlds.no_smtp (Worlds.book (Some (lit "A book about tides")) None)
                 Worlds.no_gate_row Worlds.two_chapters (lit "The sea rises.") in
  let st := Worlds.fresh None 2 3 in
  let st' := set_event (lit "final_review_not_ready") st in
  let h' := [ELog LWarning (lit "Final review not ready - missing notes or status");
             ESelectBook final_review_columns (lit "b1")] in
  (event st' = Some (lit "book_compiled")
   \/ event st' = Some (lit "final_review_not_ready")) /\
  _router_after_compile st' = lit "notify" /\
  next_node world compile_book_node st' h' = (Ok (st', Some notify_node), h').
Proof.
  cbv zeta.
  apply (compile_is_followed_by_notify
           (Worlds.world 2 Worlds.no_smtp (Worlds.book (Some (lit "A book about tides")) None)
              Worlds.no_gate_row Worlds.two_chapters (lit "The sea rises."))
           (Worlds.fresh None 2 3) _ [] _).
  reflexivity.
Defined.

(** X13. No chapter is written, and no book is compiled, without an
    outline and an open outline gate.  In every run of the graph, each
    visit of the chapter stage or of the compile stage was entered at a
    point of the run (a history that is part of the history of the run,
    at which the function of the node gave the result of the visit) where
    the model had been asked for the outline of the book and had
    answered, the outline of the state being that answer stripped; where
    the chapter count of the state is the configured one; and where the
    outline flag had been read again from the datastore and the answer
    was [no_notes_needed]. *)
Theorem chapters_follow_an_approved_outline (env : Env) (fuel : nat)
    (st : BookState) (h : History) :
  Forall (fun v =>
            exists entered,
              entered `suffix_of` snd (invoke env fuel st h) /\
              fst (node_function env (visit_node v) (visit_in v) entered) = visit_out v /\
              after_outline env (visit_node v) (visit_in v) entered)
    (snd (fst (invoke env fuel st h))).
Proof.
  unfold invoke.
  apply (invoke_from_invariant_at env (after_outline env)); [|exact I].
  intros n s h0 s1 h1 s2 n' h2. apply after_outline_kept.
Qed.

(** X14. In a run that starts from the datastore, the summaries that
    the state carries are always those of the chapters before the current
    one, numbered 1, 2, ... in order: each chapter's prompt is built from
    the summaries written earlier in the same run.  As a consequence the
    backfill of the chapter stage never reads: the state is without
    summaries only at the first chapter. *)
Theorem summaries_stay_in_step (env : Env) (fuel : nat) (id : str) (h : History) :
  Forall (fun v =>
            summaries_in_step (visit_in v) /\
            forall h0, backfill_summaries env (visit_in v) h0 = (Ok (visit_in v), h0))
    (snd (fst (run_book_flow env fuel id h))).
Proof.
  unfold run_book_flow.
  destruct (load_initial_state env id h) as [[st|e] h1] eqn:Hl; [|constructor].
  assert (H0 : summaries_in_step st).
  { exists 0%nat. unfold load_initial_state in Hl. run_stage. split; reflexivity. }
  unfold invoke.
  pose proof (invoke_from_invariant env (fun _ s => summaries_in_step s)
                (fun n s h0 s1 h1' s2 n' h2 => summaries_in_step_kept env n s h0 s1 h1' s2 n' h2)
                fuel entry_point st h1 H0) as HF.
  eapply Forall_impl; [exact HF|].
  intros v Hv. split; [exact Hv|]. intros h0.
  unfold backfill_summaries.
  destruct (bool_decide (chapter_summaries (visit_in v) = [])
            && (1 <? current_chapter_number (visit_in v))) eqn:C; [|reflexivity].
  exfalso. apply andb_true_iff in C as [C1 C2].
  apply bool_decide_eq_true in C1. apply Z.ltb_lt in C2.
  pose proof (summaries_in_step_first _ Hv C1). lia.
Qed.

(* ===================================================================== *)
(** ** The worker *)
(* ===================================================================== *)

Lemma length_remove_dups (l : list str) : (length (remove_dups l) <= length l)%nat.
Proof.
  induction l as [|x l IH]; cbn [remove_dups length]; [lia|].
  destruct (decide_rel elem_of x l); cbn [length]; lia.
Qed.

Lemma query_sound f limit books id :
  id ∈ query f limit books -> exists book, (id, book) ∈ books /\ f book = true.
Proof.
  unfold query. intros H.
  apply list_elem_of_In, in_map_iff in H as ([i book] & <- & Hin).
  apply list_elem_of_In in Hin. apply elem_of_take in Hin as (k & Hk & _).
  apply list_elem_of_lookup_2, list_elem_of_filter in Hk as [Hf Hb].
  exists book. split; assumption.
Qed.

Lemma query_length f limit books : (length (query f limit books) <= limit)%nat.
Proof. unfold query. rewrite length_map, length_take. lia. Qed.

Lemma approved_is_in_progress book :
  approved_outline_filter book = true -> in_progress_filter book = true.
Proof.
  unfold approved_outline_filter, in_progress_filter.
  intros H. apply andb_true_iff in H as [-> ->]. reflexivity.
Qed.

Lemma find_pending_books_elem limit books id :
  id ∈ find_pending_books limit books ->
  exists book,
    (id, book) ∈ books /\
    (pending_outline_filter book = true \/ in_progress_filter book = true).
Proof.
  unfold find_pending_books. intros Hin.
  apply (proj1 (elem_of_remove_dups _ _)) in Hin.
  apply elem_of_app in Hin as [H|H]; [|apply elem_of_app in H as [H|H]].
  all: apply query_sound in H as (book & Hb & Hf).
  all: exists book; (split; [exact Hb|]); auto using approved_is_in_progress.
Qed.

(** X15. What find_pending_books returns: no id twice, at most three
    times [limit] ids, and only ids of stored books that pass the
    pending-outline filter or the in-progress filter (every book that
    passes the approved-outline filter of the second query passes the
    in-progress filter of the third). *)
Theorem find_pending_books_sound (limit : nat) (books : list (str * gmap str Json)) :
  NoDup (find_pending_books limit books) /\
  (length (find_pending_books limit books) <= 3 * limit)%nat /\
  Forall (fun id =>
            exists book,
              (id, book) ∈ books /\
              (pending_outline_filter book = true \/ in_progress_filter book = true))
    (find_pending_books limit books).
Proof.
  split; [apply NoDup_remove_dups|]. split.
  - unfold find_pending_books.
    etrans; [apply length_remove_dups|]. rewrite !length_app.
    pose proof (query_length pending_outline_filter limit books).
    pose proof (query_length approved_outline_filter limit books).
    pose proof (query_length in_progress_filter limit books). lia.
  - apply Forall_forall. intros id Hin. exact (find_pending_books_elem _ _ _ Hin).
Qed.

Lemma updated_lookup (payload book : gmap str Json) (key : str) (v : Json) :
  payload !! key = Some v -> updated payload book !! key = Some v.
Proof. intros H. unfold updated. apply lookup_union_Some_l. exact H. Qed.

Lemma updated_lookup_None (payload book : gmap str Json) (key : str) :
  payload !! key = None -> updated payload book !! key = book !! key.
Proof. intros H. unfold updated. apply lookup_union_r. exact H. Qed.

Lemma outline_payload_status o count :
  outline_payload o count !! lit "outline_status" = Some (JStr (lit "generated")).
Proof.
  unfold outline_payload. rewrite lookup_insert_ne by tag_neq. apply lookup_insert_eq.
Qed.

Lemma generated_passes_no_filter (book : gmap str Json) :
  book !! lit "outline_status" = Some (JStr (lit "generated")) ->
  pending_outline_filter book = false /\
  approved_outline_filter book = false /\
  in_progress_filter book = false.
Proof.
  intros H. unfold pending_outline_filter, approved_outline_filter, in_progress_filter.
  rewrite H.
  rewrite !(bool_decide_eq_false_2 (Some (JStr (lit "generated")) = _))
    by (intros [= E]; revert E; tag_neq).
  auto.
Qed.

(** X16. Once the outline stage has written its update, the book is out
    of the worker's discovery: a stored record that holds the columns of
    that update (the outline status is [generated]) passes none of the
    three filters, so a table in which every record of a book is such a
    record never yields that book, whatever the limit.  Nothing in the
    workflow sets the outline status to [approved] or back to
    [pending]. *)
Theorem generated_outline_leaves_discovery (limit : nat)
    (books : list (str * gmap str Json)) (id : str) :
  (forall book, (id, book) ∈ books ->
     exists o count stored, book = updated (outline_payload o count) stored) ->
  id ∉ find_pending_books limit books.
Proof.
  intros Hall Hin.
  destruct (find_pending_books_elem limit books id Hin) as (book & Hb & Hf).
  destruct (Hall book Hb) as (o & count & stored & ->).
  destruct (generated_passes_no_filter (updated (outline_payload o count) stored))
    as (H1 & _ & H3).
  { apply updated_lookup, outline_payload_status. }
  destruct Hf as [Hf|Hf]; congruence.
Qed.

Lemma generated_outline_leaves_discovery_witness :
  lit "b1" ∉ find_pending_books 10
               [(lit "b1", updated (outline_payload (lit "1. Rise 2. Fall") 2) ∅)].
Proof.
  apply generated_outline_leaves_discovery.
  intros book H. apply list_elem_of_singleton in H. injection H as ->. eauto.
Defined.

(** X17. The error mark of the worker takes a book out of the two
    queries on an approved outline, and leaves the first query as it was:
    a failed book whose outline is still pending, with its notes present,
    is discovered again. *)
Theorem error_mark_and_discovery (book : gmap str Json) :
  let marked := updated error_payload book in
  approved_outline_filter marked = false /\
  in_progress_filter marked = false /\
  pending_outline_filter marked = pending_outline_filter book.
Proof.
  cbv zeta.
  assert (Hs : updated error_payload book !! lit "book_output_status"
               = Some (JStr (lit "error"))).
  { apply updated_lookup. unfold error_payload. apply lookup_insert_eq. }
  assert (Hk : forall key, key <> lit "book_output_status" ->
                 updated error_payload book !! key = book !! key).
  { intros key Hne. apply updated_lookup_None. unfold error_payload.
    rewrite lookup_insert_ne by congruence. apply lookup_empty. }
  unfold approved_outline_filter, in_progress_filter, pending_outline_filter.
  rewrite Hs, !Hk by tag_neq.
  rewrite !(bool_decide_eq_false_2 (Some (JStr (lit "error")) = _))
    by (intros [= E]; revert E; tag_neq).
  rewrite !andb_false_r. auto.
Qed.

Section WorkerFacts.

Variable env : Env.

(** What process_book does with each outcome of the run. *)
Lemma process_book_run step_limit id h :
  let mark := if supabase_configured env
              then [EWrite (UpdateBook id error_payload)] else [] in
  match run_book_flow env step_limit id (processing_line id :: h) with
  | (Finished final_state, _, h1) =>
      exists line,
        process_book env step_limit id h
        = (Ok (bool_decide (event final_state = Some (lit "book_compiled"))),
           ELog LInfo line :: h1)
  | (Failed e, _, h1) =>
      process_book env step_limit id h = (Ok false, mark ++ error_line id e :: h1)
  | (OutOfFuel, _, h1) =>
      process_book env step_limit id h
      = (Ok false, mark ++ error_line id step_limit_error :: h1)
  end.
Proof.
  cbv zeta. unfold process_book, run_book_flow, workflow_invoke, mark_error,
    processing_line, error_line.
  unfold_stage.
  destruct (load_initial_state env id _) as [[st|e] h1].
  - destruct (invoke env step_limit st h1) as [[[final|e|] trace] h2].
    + destruct (bool_decide (event final = Some (lit "book_compiled")));
        [eexists; reflexivity|].
      destruct (_ || _); eexists; reflexivity.
    + destruct (supabase_configured env); [|reflexivity].
      destruct (execute_write env _ _); reflexivity.
    + destruct (supabase_configured env); [|reflexivity].
      destruct (execute_write env _ _); reflexivity.
  - destruct (supabase_configured env); [|reflexivity].
    destruct (execute_write env _ _); reflexivity.
Qed.

(** process_book returns, and the history it leaves holds what was
    there before and the line that names the book. *)
Lemma process_book_returns step_limit id h :
  exists b h',
    process_book env step_limit id h = (Ok b, h') /\
    (processing_line id :: h) `suffix_of` h'.
Proof.
  pose proof (process_book_run step_limit id h) as H. cbv zeta in H.
  pose proof (grows_run_book_flow env step_limit id (processing_line id :: h)) as Hg.
  destruct (run_book_flow env step_limit id (processing_line id :: h))
    as [[[final|e|] trace] h1]; cbn [snd] in Hg.
  - destruct H as (line & ->). eexists _, _. split; [reflexivity|].
    apply suffix_cons_r. exact Hg.
  - rewrite H. eexists _, _. split; [reflexivity|].
    apply suffix_app_r, suffix_cons_r. exact Hg.
  - rewrite H. eexists _, _. split; [reflexivity|].
    apply suffix_app_r, suffix_cons_r. exact Hg.
Qed.

(** The loop of run_worker_once goes through all the books. *)
Lemma process_all step_limit pending : forall h,
  exists h',
    for_each (fun book_id => process_book env step_limit book_id ;;; ret tt) pending h
    = (Ok tt, h') /\
    h `suffix_of` h' /\
    forall id, id ∈ pending -> processing_line id ∈ h'.
Proof.
  induction pending as [|id pending IH]; intros h; cbn [for_each].
  - exists h. split; [reflexivity|]. split; [reflexivity|].
    intros id H. apply elem_of_nil in H. contradiction.
  - unfold bind at 1. unfold bind at 1.
    destruct (process_book_returns step_limit id h) as (b & h1 & -> & Hs).
    unfold ret at 1.
    destruct (IH h1) as (h' & -> & Hs' & Hall).
    exists h'. split; [reflexivity|]. split.
    + etrans; [|exact Hs']. etrans; [|exact Hs]. apply suffix_cons_r. reflexivity.
    + intros x Hx. apply elem_of_cons in Hx as [-> | Hx]; [|apply Hall, Hx].
      destruct Hs' as [k1 ->]. destruct Hs as [k2 ->].
      rewrite !elem_of_app, elem_of_cons. auto.
Qed.

End WorkerFacts.

(** X18. process_book never raises, whatever happens in the run.  It
    answers [True] exactly when the run ended normally with the event
    [book_compiled].  When loading the book, a stage or a router raised,
    or the engine gave up at its step limit, it logs the error, tries to
    mark the book with output status [error] (one update, made only if
    the datastore client can be built, and whose own failure is dropped)
    and answers [False]. *)
Theorem process_book_contains_failures (env : Env) (step_limit : nat) (id : str)
    (h : History) :
  let mark := if supabase_configured env
              then [EWrite (UpdateBook id error_payload)] else [] in
  exists answer h',
    process_book env step_limit id h = (Ok answer, h') /\
    match run_book_flow env step_limit id (processing_line id :: h) with
    | (Finished final_state, _, h1) =>
        answer = bool_decide (event final_state = Some (lit "book_compiled")) /\
        exists line, h' = ELog LInfo line :: h1
    | (Failed e, _, h1) =>
        answer = false /\ h' = mark ++ error_line id e :: h1
    | (OutOfFuel, _, h1) =>
        answer = false /\ h' = mark ++ error_line id step_limit_error :: h1
    end.
Proof.
  cbv zeta. pose proof (process_book_run env step_limit id h) as H. cbv zeta in H.
  destruct (run_book_flow env step_limit id (processing_line id :: h))
    as [[[final|e|] trace] h1].
  - destruct H as (line & ->). eexists _, _. split; [reflexivity|].
    split; [reflexivity | eauto].
  - rewrite H. eexists _, _. split; [reflexivity|]. split; reflexivity.
  - rewrite H. eexists _, _. split; [reflexivity|]. split; reflexivity.
Qed.

(** X19. One pass of the worker over given book ids, or over the ids
    that discovery found, never raises and goes through every book: the
    book that fails does not keep the next ones from being processed.
    Only a failure of discovery itself reaches the caller, before any
    book is touched. *)
Theorem run_worker_once_processes_every_book (env : Env) (step_limit : nat)
    (book_ids : list str) (found : Res (list str)) (h : History) :
  match (match book_ids with [] => found | _ :: _ => Ok book_ids end) with
  | Ok pending =>
      fst (run_worker_once env step_limit book_ids found h) = Ok tt /\
      Forall (fun id => processing_line id
                          ∈ snd (run_worker_once env step_limit book_ids found h))
        pending
  | Raise e =>
      run_worker_once env step_limit book_ids found h
      = (Raise e, [ELog LInfo (lit "Worker: Checking for pending books...")] ++ h)
  end.
Proof.
  unfold run_worker_once.
  set (loop := for_each (fun book_id => process_book env step_limit book_id ;;; ret tt)).
  unfold_stage.
  destruct book_ids as [|id ids].
  - destruct found as [pending|e]; [|reflexivity].
    destruct pending as [|id pending]; [split; [reflexivity | constructor]|].
    match goal with
    | |- context [loop ?l ?hh] =>
        destruct (process_all env step_limit l hh) as (h' & Hrun & _ & Hall);
        change (loop l hh = (Ok tt, h')) in Hrun; rewrite Hrun
    end.
    cbn [fst snd]. split; [reflexivity|]. apply Forall_forall. exact Hall.
  - match goal with
    | |- context [loop ?l ?hh] =>
        destruct (process_all env step_limit l hh) as (h' & Hrun & _ & Hall);
        change (loop l hh = (Ok tt, h')) in Hrun; rewrite Hrun
    end.
    cbn [fst snd]. split; [reflexivity|]. apply Forall_forall. exact Hall.
Qed.

(* ===================================================================== *)
(** ** The spreadsheet rows *)
(* ===================================================================== *)

Lemma cell_text_stripped (c : Cell) : strip (cell_text c) = cell_text c.
Proof. destruct c; cbn [cell_text]; [reflexivity | apply strip_by_idem ..]. Qed.

(** The loop of excel_row_to_book_dict: the keys it sets are the
    headers, and the values it sets are stripped. *)
Lemma fill_book_lookup headers : forall row book key v,
  fill_book headers row book !! key = Some v ->
  (key ∈ headers /\ strip v = v) \/ book !! key = Some v.
Proof.
  induction headers as [|header headers IH]; intros row book key v; cbn [fill_book].
  { auto. }
  destruct row as [|value rest]; intros H; apply IH in H as [[Hin Hv]|H].
  all: try (left; split; [apply elem_of_cons; right; exact Hin | exact Hv]).
  all: destruct (decide (key = header)) as [->|Hne];
    [ rewrite lookup_insert_eq in H; injection H as <-; left;
      split; [apply elem_of_cons; left; reflexivity|]
    | rewrite lookup_insert_ne in H by congruence; right; exact H ].
  - reflexivity.
  - apply cell_text_stripped.
Qed.

Lemma fill_book_keeps headers : forall row book key,
  is_Some (book !! key) -> is_Some (fill_book headers row book !! key).
Proof.
  induction headers as [|header headers IH]; intros row book key H; cbn [fill_book].
  { exact H. }
  destruct row as [|value rest]; apply IH.
  all: destruct (decide (key = header)) as [->|Hne];
    [ rewrite lookup_insert_eq; eauto | rewrite lookup_insert_ne by congruence; exact H ].
Qed.

Lemma fill_book_covers headers : forall row book key,
  key ∈ headers -> is_Some (fill_book headers row book !! key).
Proof.
  induction headers as [|header headers IH]; intros row book key H; cbn [fill_book].
  { apply elem_of_nil in H. contradiction. }
  apply elem_of_cons in H as [->|H].
  - destruct row as [|value rest]; apply fill_book_keeps; rewrite lookup_insert_eq; eauto.
  - destruct row as [|value rest]; apply IH, H.
Qed.

(** X20. The book dict made from a spreadsheet row: its keys are
    exactly the headers (a row shorter than the headers is filled up with
    empty strings), every value is stripped text, and the title is not
    empty.  A row is refused exactly when its title, after stripping, is
    empty or the sheet has no title column. *)
Theorem excel_row_to_book_dict_shape (row : list Cell) (headers : list str) :
  match excel_row_to_book_dict row headers with
  | Some book =>
      (exists title, book !! lit "title" = Some title /\ title <> []) /\
      (forall key, is_Some (book !! key) <-> key ∈ headers) /\
      (forall key v, book !! key = Some v -> strip v = v)
  | None => truthy (fill_book headers row ∅ !! lit "title") = false
  end.
Proof.
  unfold excel_row_to_book_dict.
  destruct (truthy (fill_book headers row ∅ !! lit "title")) eqn:E; cbn [negb];
    [|reflexivity].
  split; [|split].
  - destruct (fill_book headers row ∅ !! lit "title") as [[|c t]|]; try discriminate E.
    eexists. split; [reflexivity | discriminate].
  - intros key. split.
    + intros [v Hv]. apply fill_book_lookup in Hv as [[Hin _]|Hv]; [exact Hin|].
      rewrite lookup_empty in Hv. discriminate Hv.
    + apply fill_book_covers.
  - intros key v Hv. apply fill_book_lookup in Hv as [[_ Hs]|Hv]; [exact Hs|].
    rewrite lookup_empty in Hv. discriminate Hv.
Qed.

(** A default never replaces a value that is there. *)
Lemma set_default_keeps (key : str) (value : Json) (d : gmap str Json) (f : str) (v : Json) :
  d !! f = Some v -> set_default key value d !! f = Some v.
Proof.
  intros H. unfold set_default. destruct (d !! key) eqn:E; [exact H|].
  destruct (decide (key = f)) as [->|Hne]; [congruence|].
  rewrite lookup_insert_ne by exact Hne. exact H.
Qed.

Lemma not_in_payload_columns (key : str) :
  key ∉ payload_columns ->
  Forall (fun column => column <> key) payload_columns.
Proof.
  intros Hnot. apply Forall_forall. intros column Hin ->. contradiction.
Qed.

(** X21. What the sync writes for a row.  The title, the outline notes
    (empty when the sheet has no such column) and the sheet row id are
    always written.  An optional field the row fills is written as the
    row has it (stripped), so a flag given in the sheet is never replaced
    by the default; the two optional notes fields are left out when the
    row leaves them empty.  No other column is ever written: a column of
    the sheet that the sync does not know is dropped. *)
Theorem upsert_payload_columns (title : str) (sid : Z) (book_dict : gmap str str) :
  let payload := upsert_payload title sid book_dict in
  payload !! lit "title" = Some (JStr title) /\
  payload !! lit "sheet_row_id" = Some (JInt sid) /\
  (forall field, field ∈ optional_fields ->
     truthy (book_dict !! field) = true ->
     payload !! field = Some (JStr (or_empty (book_dict !! field)))) /\
  (forall field,
     field = lit "notes_on_outline_after" \/ field = lit "final_review_notes" ->
     truthy (book_dict !! field) = false ->
     payload !! field = None) /\
  (forall key, key ∉ payload_columns -> payload !! key = None).
Proof.
  cbv zeta. unfold upsert_payload. cbv zeta.
  split; [|split; [|split; [|split]]].
  - do 5 (rewrite set_default_lookup_ne by tag_neq).
    rewrite copy_optional_lookup.
    rewrite bool_decide_eq_false_2
      by (unfold optional_fields; rewrite !elem_of_cons, elem_of_nil;
          intros [H|[H|[H|[H|[H|[]]]]]]; revert H; tag_neq).
    cbn [andb]. apply lookup_insert_eq.
  - do 5 (rewrite set_default_lookup_ne by tag_neq).
    rewrite copy_optional_lookup.
    rewrite bool_decide_eq_false_2
      by (unfold optional_fields; rewrite !elem_of_cons, elem_of_nil;
          intros [H|[H|[H|[H|[H|[]]]]]]; revert H; tag_neq).
    cbn [andb]. do 2 (rewrite lookup_insert_ne by tag_neq). apply lookup_insert_eq.
  - intros field Hin Ht.
    assert (Hcopy : forall d : gmap str Json,
              foldl (fun d f =>
                       if truthy (book_dict !! f)
                       then <[f := JStr (or_empty (book_dict !! f))]> d else d)
                d optional_fields !! field
              = Some (JStr (or_empty (book_dict !! field)))).
    { intros d. rewrite copy_optional_lookup, Ht.
      rewrite bool_decide_eq_true_2 by exact Hin. reflexivity. }
    do 5 apply set_default_keeps. apply Hcopy.
  - intros field Hf He.
    assert (Hcopy : forall d : gmap str Json,
              foldl (fun d f =>
                       if truthy (book_dict !! f)
                       then <[f := JStr (or_empty (book_dict !! f))]> d else d)
                d optional_fields !! field = d !! field).
    { intros d. rewrite copy_optional_lookup, He, andb_false_r. reflexivity. }
    destruct Hf as [-> | ->].
    all: do 5 (rewrite set_default_lookup_ne by tag_neq).
    all: rewrite Hcopy.
    all: do 3 (rewrite lookup_insert_ne by tag_neq).
    all: apply lookup_empty.
  - intros key Hnot. apply not_in_payload_columns in Hnot.
    unfold payload_columns in Hnot.
    repeat match goal with
    | H : Forall _ (_ :: _) |- _ => apply Forall_cons in H as [? H]
    end.
    do 5 (rewrite set_default_lookup_ne by assumption).
    rewrite copy_optional_lookup.
    rewrite bool_decide_eq_false_2
      by (unfold optional_fields; rewrite !elem_of_cons, elem_of_nil;
          intros [E|[E|[E|[E|[E|[]]]]]]; congruence).
    cbn [andb]. do 3 (rewrite lookup_insert_ne by assumption).
    apply lookup_empty.
Qed.

(* ===================================================================== *)
(** ** The rows of a Google sheet, and the loop of the sync *)
(* ===================================================================== *)

(** The loop of sheet_row_to_book_dict either gives up at a title
    column whose cell is empty, or builds the dict the Excel loop builds
    from the same texts. *)
Lemma sheet_fill_cases headers : forall row book,
  (sheet_fill headers row book = None /\
   exists i, headers !! i = Some (lit "title") /\ default [] (row !! i) = [])
  \/
  (sheet_fill headers row book = Some (fill_book headers (map CellStr row) book) /\
   forall i, headers !! i = Some (lit "title") -> default [] (row !! i) <> []).
Proof.
  induction headers as [|header headers IH]; intros row book.
  { right. split; [reflexivity|]. intros i H. rewrite lookup_nil in H. discriminate H. }
  cbn [sheet_fill]. cbv zeta.
  destruct (bool_decide (header = lit "title")) eqn:Eh;
    [apply bool_decide_eq_true_1 in Eh | apply bool_decide_eq_false_1 in Eh].
  - destruct row as [|[|c v] rest]; cbn [andb tail].
    1-2: left; split; [reflexivity|]; exists 0%nat; split;
      [cbn; rewrite Eh; reflexivity | reflexivity].
    rewrite bool_decide_eq_false_2 by discriminate.
    destruct (IH rest (<[header := strip (c :: v)]> book)) as [[-> (i & Hi & Hc)]|[-> Hall]].
    + left. split; [reflexivity|]. exists (S i). split; assumption.
    + right. split; [reflexivity|]. intros [|i] Hi; [discriminate | apply (Hall i Hi)].
  - cbn [andb].
    destruct row as [|v rest]; cbn [tail map fill_book cell_text].
    + destruct (IH [] (<[header := strip []]> book)) as [[-> (i & Hi & Hc)]|[-> Hall]].
      * left. split; [reflexivity|]. exists (S i). split; assumption.
      * right. split; [reflexivity|].
        intros [|i] Hi;
          [change (Some header = Some (lit "title")) in Hi; congruence | apply (Hall i Hi)].
    + destruct (IH rest (<[header := strip v]> book)) as [[-> (i & Hi & Hc)]|[-> Hall]].
      * left. split; [reflexivity|]. exists (S i). split; assumption.
      * right. split; [reflexivity|].
        intros [|i] Hi;
          [change (Some header = Some (lit "title")) in Hi; congruence | apply (Hall i Hi)].
Qed.

(** The Excel loop leaves alone a key that is no header. *)
Lemma fill_book_other headers : forall row book key,
  key ∉ headers -> fill_book headers row book !! key = book !! key.
Proof.
  induction headers as [|header headers IH]; intros row book key H; cbn [fill_book].
  { reflexivity. }
  apply not_elem_of_cons in H as [Hne Hnot].
  destruct row as [|value rest]; rewrite IH by exact Hnot;
    apply lookup_insert_ne; congruence.
Qed.

(** When no header occurs twice, the value of a key is the cell of its
    column. *)
Lemma fill_book_column headers : forall row book i key,
  NoDup headers ->
  headers !! i = Some key ->
  fill_book headers row book !! key
  = Some (match row !! i with Some c => cell_text c | None => [] end).
Proof.
  induction headers as [|header headers IH]; intros row book i key Hnd Hi.
  { rewrite lookup_nil in Hi. discriminate Hi. }
  apply NoDup_cons in Hnd as [Hnot Hnd]. cbn [fill_book].
  destruct i as [|i].
  - injection Hi as ->.
    destruct row as [|value rest]; rewrite fill_book_other by exact Hnot;
      apply lookup_insert_eq.
  - cbn in Hi. destruct row as [|value rest].
    + rewrite (IH [] _ i key Hnd Hi). reflexivity.
    + rewrite (IH rest _ i key Hnd Hi). reflexivity.
Qed.

(** X22. The book dict made from a row of a Google sheet.  The row is
    refused exactly when a title column has an empty cell (a cell past
    the end of the row counts as empty).  Otherwise the keys of the dict
    are exactly the headers and every value is stripped text; a sheet
    without a title column is not refused. *)
Theorem sheet_row_to_book_dict_shape (row : list str) (headers : list str) :
  match sheet_row_to_book_dict row headers with
  | Some book =>
      (forall i, headers !! i = Some (lit "title") -> default [] (row !! i) <> []) /\
      (forall key, is_Some (book !! key) <-> key ∈ headers) /\
      (forall key v, book !! key = Some v -> strip v = v)
  | None =>
      exists i, headers !! i = Some (lit "title") /\ default [] (row !! i) = []
  end.
Proof.
  unfold sheet_row_to_book_dict.
  destruct (sheet_fill_cases headers row ∅) as [[-> Hex]|[-> Hall]]; [exact Hex|].
  split; [exact Hall|]. split.
  - intros key. split.
    + intros [v Hv]. apply fill_book_lookup in Hv as [[Hin _]|Hv]; [exact Hin|].
      rewrite lookup_empty in Hv. discriminate Hv.
    + apply fill_book_covers.
  - intros key v Hv. apply fill_book_lookup in Hv as [[_ Hs]|Hv]; [exact Hs|].
    rewrite lookup_empty in Hv. discriminate Hv.
Qed.

(** X23. The two row readers on the same texts, in a sheet that names
    no column twice and has a title column.  With a title that is not
    blank both build the same dict; with an empty title cell both refuse
    the row; with a title cell that holds blanks only the Excel reader
    refuses the row, and the Google reader, which tests the cell before
    it strips it, accepts it with an empty title. *)
Theorem sheet_rows_and_excel_rows (row : list str) (headers : list str) (i : nat) :
  NoDup headers ->
  headers !! i = Some (lit "title") ->
  let cell := default [] (row !! i) in
  let excel := excel_row_to_book_dict (map CellStr row) headers in
  let sheet := sheet_row_to_book_dict row headers in
  (strip cell <> [] -> is_Some sheet /\ sheet = excel) /\
  (cell = [] -> sheet = None /\ excel = None) /\
  (cell <> [] -> strip cell = [] ->
   excel = None /\ exists book, sheet = Some book /\ book !! lit "title" = Some []).
Proof.
  intros Hnd Hi. cbv zeta.
  assert (Hone : forall j, headers !! j = Some (lit "title") -> j = i).
  { intros j Hj. exact (NoDup_lookup headers j i _ Hnd Hj Hi). }
  unfold sheet_row_to_book_dict, excel_row_to_book_dict. cbv zeta.
  match goal with
  | |- context [truthy ?x] =>
      assert (Ht : x = Some (strip (default [] (row !! i))));
      [ rewrite (fill_book_column headers _ _ i _ Hnd Hi), list_lookup_fmap;
        destruct (row !! i); reflexivity
      | rewrite Ht ]
  end.
  destruct (sheet_fill_cases headers row ∅) as [[-> (j & Hj & Hc)]|[-> Hall]].
  - rewrite (Hone j Hj) in Hc. rewrite Hc.
    split; [intros H; contradiction H; reflexivity|].
    split; [intros _; split; reflexivity|].
    intros H. contradiction.
  - specialize (Hall i Hi).
    split; [|split].
    + intros Hs. split; [eauto|].
      destruct (strip (default [] (row !! i))); [contradiction|reflexivity].
    + intros Hc. contradiction.
    + intros _ Hs. rewrite Hs. split; [reflexivity|].
      eexists. split; [reflexivity|]. etrans; [exact Ht|]. rewrite Hs. reflexivity.
Qed.

(** A title cell that holds two blanks. *)
Lemma sheet_rows_and_excel_rows_witness :
  let row := [lit "  "; lit "About tides"] in
  let headers := [lit "title"; lit "notes_on_outline_before"] in
  excel_row_to_book_dict (map CellStr row) headers = None /\
  exists book,
    sheet_row_to_book_dict row headers = Some book /\ book !! lit "title" = Some [].
Proof.
  cbv zeta.
  assert (Hnd : NoDup [lit "title"; lit "notes_on_outline_before"]).
  { apply NoDup_cons. split; [|apply NoDup_singleton].
    intros H. apply list_elem_of_singleton in H. revert H. vm_compute. discriminate. }
  apply (proj2 (proj2 (sheet_rows_and_excel_rows
                         [lit "  "; lit "About tides"]
                         [lit "title"; lit "notes_on_outline_before"] 0 Hnd eq_refl))).
  - vm_compute. discriminate.
  - vm_compute. reflexivity.
Defined.

Section SyncLoop.

Variable env : Env.
Variable lower : str -> str.
Variable isdigit : str -> bool.
Variable int_of_str : str -> option Z.

(** One turn of the loop: at most one write, and at most one id, never
    empty, that stands for a write. *)
Lemma sync_row_run idx row headers book_ids h :
  exists k,
    snd (sync_row env lower isdigit int_of_str idx row headers book_ids h) = k ++ h /\
    (length (List.filter is_write k) <= 1)%nat /\
    match fst (sync_row env lower isdigit int_of_str idx row headers book_ids h) with
    | Ok book_ids' =>
        exists added,
          book_ids' = book_ids ++ added /\
          Forall (fun id => id <> []) added /\
          (length added <= length (List.filter is_write k))%nat
    | Raise _ => True
    end.
Proof.
  unfold sync_row. unfold_stage.
  repeat (case_match; cbn [fst snd] in *; simplify_eq); exists_added.
  all: split; [reflexivity|]; cbn [List.filter is_write length]; split; [lia|].
  all: try exact I.
  all: first
    [ exists []; split; [symmetry; apply app_nil_r|]; split; [constructor | cbn; lia]
    | eexists [_]; split; [reflexivity|]; split; [|cbn; lia];
      constructor; [|constructor] ].
  all: try discriminate.
  all: match goal with
       | H : truthy ?o = true |- or_empty ?o <> [] =>
           destruct o as [[|? ?]|]; cbn in H |- *; [discriminate H | discriminate | discriminate H]
       end.
Qed.

(** The loop over the rows. *)
Lemma sync_rows_run rows : forall idx headers book_ids h,
  exists k,
    snd (sync_rows env lower isdigit int_of_str idx rows headers book_ids h) = k ++ h /\
    (length (List.filter is_write k) <= length rows)%nat /\
    match fst (sync_rows env lower isdigit int_of_str idx rows headers book_ids h) with
    | Ok book_ids' =>
        exists added,
          book_ids' = book_ids ++ added /\
          Forall (fun id => id <> []) added /\
          (length added <= length (List.filter is_write k))%nat
    | Raise _ => True
    end.
Proof.
  induction rows as [|row rows IH]; intros idx headers book_ids h; cbn [sync_rows].
  { exists []. split; [reflexivity|]. split; [reflexivity|].
    exists []. split; [symmetry; apply app_nil_r|]. split; [constructor | reflexivity]. }
  unfold bind.
  destruct (sync_row_run idx row headers book_ids h) as (k1 & Hk1 & Hw1 & Hr1).
  destruct (sync_row env lower isdigit int_of_str idx row headers book_ids h)
    as [[ids1|e] h1]; cbn [fst snd] in *; subst h1.
  2: { exists k1. split; [reflexivity|]. split; [cbn [length]; lia | exact I]. }
  destruct Hr1 as (added1 & -> & Hne1 & Hlen1).
  destruct (IH (idx + 1) headers (book_ids ++ added1) (k1 ++ h)) as (k2 & Hk2 & Hw2 & Hr2).
  exists (k2 ++ k1). rewrite Hk2, app_assoc. split; [reflexivity|].
  rewrite List.filter_app, length_app. split; [cbn [length]; lia|].
  destruct (fst (sync_rows env lower isdigit int_of_str (idx + 1) rows headers
                   (book_ids ++ added1) (k1 ++ h))) as [ids2|e]; [|exact I].
  destruct Hr2 as (added2 & -> & Hne2 & Hlen2).
  exists (added1 ++ added2). rewrite app_assoc. split; [reflexivity|].
  split; [apply Forall_app; split; assumption|].
  rewrite length_app. lia.
Qed.

End SyncLoop.

(** X24. The ids sync_excel_to_supabase returns.  Whatever the
    datastore answers, the sync issues at most one write for each data
    row of the sheet.  When it returns, no id of the list is empty, every
    id stands for a write of this run, and its last act was the log line
    that reports the length of the list. *)
Theorem sync_excel_to_supabase_book_ids (env : Env)
    (lower : str -> str) (isdigit : str -> bool) (int_of_str : str -> option Z)
    (repr : str -> str)
    (sheet : list (list Cell)) (header_row start_row : nat) (h : History) :
  let run := sync_excel_to_supabase env lower isdigit int_of_str repr
               sheet header_row start_row h in
  exists k,
    snd run = k ++ h /\
    (length (List.filter is_write k) <= length sheet - pred start_row)%nat /\
    match fst run with
    | Ok book_ids =>
        Forall (fun id => id <> []) book_ids /\
        (length book_ids <= length (List.filter is_write k))%nat /\
        head k = Some (ELog LInfo (lit "Sync complete. Processed "
                                   ++ str_of_Z (Z.of_nat (length book_ids))
                                   ++ lit " books."))
    | Raise _ => True
    end.
Proof.
  cbv zeta. unfold sync_excel_to_supabase, get_supabase. cbv zeta.
  destruct (sync_rows_run env lower isdigit int_of_str
              (drop (pred start_row) sheet) (Z.of_nat start_row)
              (map (normalize_header lower) (nth (pred header_row) sheet [])) []
              (ELog LInfo
                 (lit "Found columns: "
                  ++ list_repr repr
                       (map (normalize_header lower) (nth (pred header_row) sheet [])))
               :: h))
    as (k & Hk & Hw & Hr).
  rewrite length_drop in Hw.
  destruct (supabase_configured env); unfold_stage.
  2: { eexists [_]. split; [reflexivity|]. split; [cbn; lia | exact I]. }
  destruct (sync_rows env lower isdigit int_of_str _ _ _ [] _) as [[book_ids|e] h1];
    cbn [fst snd] in *; subst h1.
  2: { eexists (k ++ [_]). rewrite <- app_assoc. split; [reflexivity|].
       rewrite List.filter_app, length_app. cbn [List.filter is_write length].
       split; [lia | exact I]. }
  destruct Hr as (added & -> & Hne & Hlen). cbn [app] in *.
  eexists (_ :: k ++ [_]). cbn [app]. rewrite <- app_assoc. split; [reflexivity|].
  cbn [List.filter is_write]. rewrite List.filter_app, length_app.
  cbn [List.filter is_write length].
  split; [lia|]. split; [exact Hne|]. split; [lia | reflexivity].
Qed.

(** X25. A row the sync skips never reaches the datastore.  For an
    empty row, a row without a title and a description row of the
    template, the loop adds at most one log line, asks and writes
    nothing, and hands on the ids as they were. *)
Theorem skipped_row_touches_nothing (env : Env)
    (lower : str -> str) (isdigit : str -> bool) (int_of_str : str -> option Z)
    (idx : Z) (row : list Cell) (headers : list str) (book_ids : list str) (h : History) :
  row_payload lower isdigit int_of_str idx row headers = None ->
  exists k,
    sync_row env lower isdigit int_of_str idx row headers book_ids h
    = (Ok book_ids, k ++ h) /\
    forallb is_log k = true /\ (length k <= 1)%nat.
Proof.
  intros H. unfold sync_row. rewrite H. unfold_stage.
  destruct (negb (existsb cell_truthy row)).
  - exists []. split; [reflexivity|]. split; [reflexivity | cbn [length]; lia].
  - destruct (excel_row_to_book_dict row headers);
      (eexists [_]; split; [reflexivity|]; split; [reflexivity | cbn [length]; lia]).
Qed.

(** A row whose title cell is empty. *)
Lemma skipped_row_touches_nothing_witness :
  exists k,
    sync_row Worlds.scenario1 Worlds.ascii_lower Worlds.ascii_isdigit Worlds.ascii_int
      3 [CellNone; CellStr (lit "About tides")] Worlds.sheet_headers [lit "b0"] []
    = (Ok [lit "b0"], k ++ []) /\
    forallb is_log k = true /\ (length k <= 1)%nat.
Proof.
  apply (skipped_row_touches_nothing Worlds.scenario1 Worlds.ascii_lower
           Worlds.ascii_isdigit Worlds.ascii_int 3
           [CellNone; CellStr (lit "About tides")] Worlds.sheet_headers [lit "b0"] []).
  vm_compute. reflexivity.
Defined.
